(** * FTL long-term database routines (database.c)

    A shallow embedding of the persistence core of the FTL engine:
    the write-back of the in-memory query log ([save_to_DB]), the
    retention collector ([delete_old_queries_in_DB]), the startup
    import ([read_data_from_DB]), the single-value readers
    ([db_query_int] and its callers) and the scheduling thread
    ([DB_thread]), over an explicit model of the SQLite file, the
    shared-memory log and the process globals. *)

From Stdlib Require Import ZArith Lia Bool List String.
From stdpp Require Import base option list gmap strings.

Local Open Scope Z_scope.

(** ** Constants *)

Module Consts.

(** sqlite3.h result codes. *)
Definition SQLITE_OK : Z := 0.
Definition SQLITE_BUSY : Z := 5.
Definition SQLITE_MISUSE : Z := 21.
Definition SQLITE_ROW : Z := 100.
Definition SQLITE_DONE : Z := 101.

(** Modelled from the spec: FTL.h is not among the sources.  The
    enumerations below are the ones database.c names; their order is
    the one the code relies on (status 2 is "forwarded", see the
    comment in [read_data_from_DB]; [querytype[type-1]] puts TYPE_A
    at 1; the privacy levels are compared with [>=]). *)
Definition PRIVACY_SHOW_ALL : Z := 0.
Definition PRIVACY_HIDE_DOMAINS : Z := 1.
Definition PRIVACY_HIDE_DOMAINS_CLIENTS : Z := 2.
Definition PRIVACY_MAXIMUM : Z := 3.
Definition PRIVACY_NOSTATS : Z := 4.

Definition QUERY_UNKNOWN : Z := 0.
Definition QUERY_GRAVITY : Z := 1.
Definition QUERY_FORWARDED : Z := 2.
Definition QUERY_CACHE : Z := 3.
Definition QUERY_WILDCARD : Z := 4.
Definition QUERY_BLACKLIST : Z := 5.
Definition QUERY_EXTERNAL_BLOCKED_IP : Z := 6.
Definition QUERY_EXTERNAL_BLOCKED_NULL : Z := 7.
Definition QUERY_EXTERNAL_BLOCKED_NXRA : Z := 8.

Definition TYPE_A : Z := 1.
Definition TYPE_AAAA : Z := 2.
Definition TYPE_ANY : Z := 3.
Definition TYPE_SRV : Z := 4.
Definition TYPE_SOA : Z := 5.
Definition TYPE_PTR : Z := 6.
Definition TYPE_TXT : Z := 7.
Definition TYPE_MAX : Z := 8.

(** Keys of table "ftl" and of table "counters". *)
Definition DB_VERSION : Z := 0.
Definition DB_LASTTIMESTAMP : Z := 1.
Definition DB_FIRSTCOUNTERTIMESTAMP : Z := 2.
Definition DB_TOTALQUERIES : Z := 0.
Definition DB_BLOCKEDQUERIES : Z := 1.

Definition DB_FAILED : Z := -2.
Definition DB_NODATA : Z := -1.

Definition DEBUG_DATABASE : Z := 1.
Definition MAGICBYTE : Z := 87.
Definition DNSSEC_UNKNOWN : Z := 0.
Definition REPLY_UNKNOWN : Z := 0.

End Consts.
Export Consts.

(** A C [int]: conversion of a wider value keeps the low 32 bits,
    read as two's complement. *)
Definition to_int (v : Z) : Z := (v + 2^31) mod 2^32 - 2^31.

(** ** Data model *)

(** One entry of the shared [queries] array. *)
Record queriesData := mkQuery {
  magic : Z;
  timestamp : Z;
  type : Z;
  status : Z;
  domainID : Z;
  clientID : Z;
  forwardID : Z;
  timeidx : Z;
  db : Z;
  queryid : Z;
  complete : bool;
  privacylevel : Z;
  response : Z;
  dnssec : Z;
  reply : Z
}.

Definition set_db (q : queriesData) (v : Z) : queriesData :=
  mkQuery (magic q) (timestamp q) (type q) (status q) (domainID q)
          (clientID q) (forwardID q) (timeidx q) v (queryid q)
          (complete q) (privacylevel q) (response q) (dnssec q) (reply q).

(** One row of table "queries":
    (id, timestamp, type, status, domain, client, forward). *)
Record dbrow := mkRow {
  r_id : Z;
  r_timestamp : Z;
  r_type : Z;
  r_status : Z;
  r_domain : option string;
  r_client : option string;
  r_forward : option string
}.

(** The database file: the three tables this unit reads and writes.
    [seq] is SQLite's AUTOINCREMENT memory (largest row id ever used). *)
Record dbfile := mkFile {
  tbl_queries : list dbrow;
  tbl_seq : Z;
  tbl_ftl : gmap Z Z;
  tbl_counters : gmap Z Z
}.

(** The statements database.c hands to [dbquery]. *)
Inductive sql :=
| SqlBegin
| SqlEnd
| SqlSetProperty (ID value : Z)
| SqlSetCounter (ID value : Z)
| SqlUpdateCounter (delta ID : Z)
| SqlDeleteOlder (ts : Z).

(** The [logg] call sites, with the values they print. *)
Inductive logmsg :=
| LogOpenFailed (rc : Z)
| LogQuery (q : sql)
| LogQueryFailed (q : sql) (rc : Z)
| LogDisabling (rc : Z)
| LogLastIDFailed (rc : Z)
| LogSaveOpenFailed
| LogBeginFailed
| LogPrepareFailed
| LogStepFailed (rc : Z)
| LogTooManyErrors
| LogStored (saved lastID : Z)
| LogNotAllSaved
| LogDeleteOpenFailed
| LogDeleteFailed
| LogDeleted (affected : Z)
| LogImportOpenFailed
| LogImportSelect (mintime : Z)
| LogImportPrepareFailed (rc : Z)
| LogWarnTimestamp (ts : Z)
| LogWarnFuture (ts : Z)
| LogWarnType (ty : Z)
| LogWarnStatus (st : Z)
| LogWarnDomainNull (ts : Z)
| LogWarnClientNull (ts : Z)
| LogWarnForwardNull (ts : Z)
| LogUnknownStatus (st ts : Z)
| LogImported (n : Z)
| LogImportStepFailed (rc : Z).

(** Everything the routines do that leaves the process, in order:
    log lines, HTTP requests handed to libcurl, lines on stderr; and,
    as a ghost record of the scan, each row a successful
    [sqlite3_step] of the INSERT statement added, with the index of
    the query it came from. *)
Inductive event :=
| EvLogg (m : logmsg)
| EvCurlPost (url : string) (postfields : string)
| EvStderr (m : string)
| EvInsert (index : nat) (r : dbrow).

(** Configuration values the routines read. *)
Record ConfigStruct := mkConfig {
  cfg_privacylevel : Z;
  cfg_debug : Z;
  cfg_maxDBdays : Z;
  cfg_maxlogage : Z;
  cfg_analyze_AAAA : bool;
  cfg_ignore_localhost : bool
}.

Definition debug_database (config : ConfigStruct) : bool :=
  negb (Z.land (cfg_debug config) DEBUG_DATABASE =? 0).

(** The in-memory aggregates the import rebuilds (counters, overTime
    slots, per-client and per-domain data), addressed by name. *)
Inductive aggkey :=
| CntQuerytype (t : Z)
| CntUnknown
| CntBlocked
| CntForwarded
| CntCached
| OTQuerytype (timeidx t : Z)
| OTTotal (timeidx : Z)
| OTBlocked (timeidx : Z)
| OTForwarded (timeidx : Z)
| OTCached (timeidx : Z)
| ClLastQuery (client : Z)
| ClNumQueriesARP (client : Z)
| ClOverTime (client timeidx : Z)
| ClBlockedcount (client : Z)
| DomBlockedcount (domain : Z).

#[global] Instance aggkey_eq_dec : EqDecision aggkey.
Proof. solve_decision. Defined.

(** Process globals of database.c, the connection, the file and the
    shared memory. *)
Record world := mkWorld {
  database : bool;
  lastdbindex : Z;
  conn : bool;
  txn : option (list dbrow);
  file : dbfile;
  queries : list queriesData;
  domains : list string;
  clients : list string;
  forwarded : list string;
  agg : aggkey -> Z;
  trace : list event
}.

Definition set_database (b : bool) (w : world) : world :=
  mkWorld b (lastdbindex w) (conn w) (txn w) (file w) (queries w)
          (domains w) (clients w) (forwarded w) (agg w) (trace w).
Definition set_lastdbindex (i : Z) (w : world) : world :=
  mkWorld (database w) i (conn w) (txn w) (file w) (queries w)
          (domains w) (clients w) (forwarded w) (agg w) (trace w).
Definition set_conn (b : bool) (w : world) : world :=
  mkWorld (database w) (lastdbindex w) b (txn w) (file w) (queries w)
          (domains w) (clients w) (forwarded w) (agg w) (trace w).
Definition set_txn (t : option (list dbrow)) (w : world) : world :=
  mkWorld (database w) (lastdbindex w) (conn w) t (file w) (queries w)
          (domains w) (clients w) (forwarded w) (agg w) (trace w).
Definition set_file (f : dbfile) (w : world) : world :=
  mkWorld (database w) (lastdbindex w) (conn w) (txn w) f (queries w)
          (domains w) (clients w) (forwarded w) (agg w) (trace w).
Definition set_queries (q : list queriesData) (w : world) : world :=
  mkWorld (database w) (lastdbindex w) (conn w) (txn w) (file w) q
          (domains w) (clients w) (forwarded w) (agg w) (trace w).
Definition set_domains (l : list string) (w : world) : world :=
  mkWorld (database w) (lastdbindex w) (conn w) (txn w) (file w) (queries w)
          l (clients w) (forwarded w) (agg w) (trace w).
Definition set_clients (l : list string) (w : world) : world :=
  mkWorld (database w) (lastdbindex w) (conn w) (txn w) (file w) (queries w)
          (domains w) l (forwarded w) (agg w) (trace w).
Definition set_forwarded (l : list string) (w : world) : world :=
  mkWorld (database w) (lastdbindex w) (conn w) (txn w) (file w) (queries w)
          (domains w) (clients w) l (agg w) (trace w).
Definition set_agg (a : aggkey -> Z) (w : world) : world :=
  mkWorld (database w) (lastdbindex w) (conn w) (txn w) (file w) (queries w)
          (domains w) (clients w) (forwarded w) a (trace w).
Definition emit (e : event) (w : world) : world :=
  mkWorld (database w) (lastdbindex w) (conn w) (txn w) (file w) (queries w)
          (domains w) (clients w) (forwarded w) (agg w) (trace w ++ [e]).

Definition logg (m : logmsg) : world -> world := emit (EvLogg m).

(** ** The SQLite connection *)

(** MAX(ID) over a set of rows; NULL on the empty table. *)
Definition max_id (rows : list dbrow) : option Z :=
  foldr (fun r acc => Some (match acc with
                            | None => r_id r
                            | Some m => Z.max (r_id r) m
                            end)) None rows.

(** The rows the open connection sees: the committed ones and those of
    its own open transaction. *)
Definition visible_rows (w : world) : list dbrow :=
  tbl_queries (file w) ++ default [] (txn w).

(** Row id an INSERT with a NULL id receives (INTEGER PRIMARY KEY
    AUTOINCREMENT): one more than the largest id ever used. *)
Definition next_rowid (w : world) : Z :=
  Z.max (tbl_seq (file w)) (default 0 (max_id (visible_rows w))) + 1.

Definition commit_rows (pending : list dbrow) (f : dbfile) : dbfile :=
  mkFile (tbl_queries f ++ pending)
         (Z.max (tbl_seq f) (default 0 (max_id pending)))
         (tbl_ftl f) (tbl_counters f).

Definition older_than (ts : Z) (r : dbrow) : bool := r_timestamp r <=? ts.

(** Effect of a statement that SQLite ran to completion. *)
Definition sql_exec (q : sql) (w : world) : world :=
  let f := file w in
  match q with
  | SqlBegin => set_txn (Some []) w
  | SqlEnd =>
      match txn w with
      | Some pending => set_txn None (set_file (commit_rows pending f) w)
      | None => w
      end
  | SqlSetProperty ID value =>
      set_file (mkFile (tbl_queries f) (tbl_seq f)
                       (<[ID := value]> (tbl_ftl f)) (tbl_counters f)) w
  | SqlSetCounter ID value =>
      set_file (mkFile (tbl_queries f) (tbl_seq f)
                       (tbl_ftl f) (<[ID := value]> (tbl_counters f))) w
  | SqlUpdateCounter delta ID =>
      set_file (mkFile (tbl_queries f) (tbl_seq f) (tbl_ftl f)
                       (alter (fun v => v + delta) ID (tbl_counters f))) w
  | SqlDeleteOlder ts =>
      set_file (mkFile (filter (fun r => older_than ts r = false) (tbl_queries f))
                       (tbl_seq f) (tbl_ftl f) (tbl_counters f)) w
  end.

(** Result code of a call on the connection: the one SQLite chose
    (the oracle's) while the handle is open, SQLITE_MISUSE once
    [dbclose] has released it. *)
Definition on_conn (w : world) (rc : Z) : Z :=
  if conn w then rc else SQLITE_MISUSE.

Definition check_database (rc : Z) (w : world) : world :=
  if negb (rc =? SQLITE_OK) && negb (rc =? SQLITE_DONE) &&
     negb (rc =? SQLITE_ROW) && negb (rc =? SQLITE_BUSY)
  then set_database false (logg (LogDisabling rc) w)
  else w.

(** [dbclose]: [sqlite3_close] releases the handle and rolls back an
    open transaction (it is taken to succeed; its error branch only
    writes a log line), and the mutex, which a single thread never
    contends for, is left out.  A handle [sqlite3_open_v2] returns has
    no transaction open. *)
Definition dbclose (w : world) : world := set_conn false (set_txn None w).

Definition dbopen (rc : Z) (w : world) : bool * world :=
  if negb (rc =? 0)
  then (false, check_database rc (dbclose (logg (LogOpenFailed rc) w)))
  else (true, set_conn true (set_txn None w)).

Section Routines.

Variable config : ConfigStruct.

Definition dbquery (rc : Z) (q : sql) (w : world) : bool * world :=
  let w := if debug_database config then logg (LogQuery q) w else w in
  let rc := on_conn w rc in
  if negb (rc =? SQLITE_OK)
  then (false, check_database rc (logg (LogQueryFailed q rc) w))
  else (true, sql_exec q w).

Definition db_set_FTL_property (rc : Z) (ID value : Z) (w : world) : bool * world :=
  dbquery rc (SqlSetProperty ID value) w.

Definition db_set_counter (rc : Z) (ID value : Z) (w : world) : bool * world :=
  dbquery rc (SqlSetCounter ID value) w.

Definition db_update_counters (rc1 rc2 : Z) (total blocked : Z) (w : world)
  : bool * world :=
  let '(r, w) := dbquery rc1 (SqlUpdateCounter total DB_TOTALQUERIES) w in
  if negb r then (false, w) else
  let '(r, w) := dbquery rc2 (SqlUpdateCounter blocked DB_BLOCKEDQUERIES) w in
  if negb r then (false, w) else
  (true, w).

Definition last_ID_in_DB (rc_prepare rc_step : Z) (w : world) : Z * world :=
  let rc := on_conn w rc_prepare in
  if negb (rc =? 0)
  then (DB_FAILED, check_database rc (dbclose (logg (LogLastIDFailed rc) w)))
  else
    let rc := on_conn w rc_step in
    if negb (rc =? SQLITE_ROW)
    then (DB_FAILED, check_database rc (dbclose (logg (LogLastIDFailed rc) w)))
    else (default 0 (max_id (visible_rows w)), w).


(** ** Write-back: save_to_DB *)

(** What SQLite and libcurl answer during one call of [save_to_DB]:
    one result code per call site; the calls made once per query are
    indexed by the query's position in the log. *)
Record save_oracle := mkSaveOracle {
  o_open : Z;
  o_lastid_prepare : Z;
  o_lastid_step : Z;
  o_begin : Z;
  o_prepare : Z;
  o_curl_init : nat -> bool;
  o_curl_perform : nat -> Z;
  o_step : nat -> Z;
  o_end : Z;
  o_finalize : Z;
  o_setprop : Z;
  o_upd_total : Z;
  o_upd_blocked : Z
}.

(** The local variables of [save_to_DB] that live across iterations. *)
Record locals := mkLocals {
  saved : Z;
  saved_error : Z;
  lastID : Z;
  total : Z;
  blocked : Z;
  newlasttimestamp : Z
}.

Inductive control := Continue | Break.

Definition is_blocked_status (st : Z) : bool :=
  (st =? QUERY_GRAVITY) || (st =? QUERY_BLACKLIST) || (st =? QUERY_WILDCARD) ||
  (st =? QUERY_EXTERNAL_BLOCKED_IP) || (st =? QUERY_EXTERNAL_BLOCKED_NULL) ||
  (st =? QUERY_EXTERNAL_BLOCKED_NXRA).

Definition categorise_url : string := "http://192.168.41.95/categorise.php".

(** Accessors of the shared memory that live outside database.c: the
    strings behind a query's domain and client, and behind a forward
    destination. *)
Variable getDomainString : nat -> string.
Variable getClientIPString : nat -> string.
Variable getForwardString : Z -> string.

Variable o : save_oracle.
Variable currenttimestamp : Z.

(** The request the loop hands to libcurl for query [i].  (The C code
    assembles the POST fields in a 1000-byte buffer; the model covers
    the strings that fit.) *)
Definition curl_request (i : nat) (domain client : string) (w : world) : world :=
  let param := String.append "url="
                 (String.append domain (String.append "&request_ip=" client)) in
  if o_curl_init o i then
    let w := emit (EvCurlPost categorise_url param) w in
    if negb (o_curl_perform o i =? 0)
    then emit (EvStderr "curl_easy_perform() failed") w
    else w
  else w.

(** [sqlite3_step] of the prepared INSERT with the bound values. *)
Definition insert_step (i : nat) (ts ty st : Z) (domain client : string)
    (forward : option string) (w : world) : Z * world :=
  let rc := on_conn w (o_step o i) in
  if rc =? SQLITE_DONE then
    let r := mkRow (next_rowid w) ts ty st (Some domain) (Some client) forward in
    let w := emit (EvInsert i r) w in
    match txn w with
    | Some pending => (rc, set_txn (Some (pending ++ [r])) w)
    | None => (rc, set_file (commit_rows [r] (file w)) w)
    end
  else (rc, w).

(** The three tests at the head of the loop body. *)
Definition already_saved (q : queriesData) : bool := negb (db q =? 0).
Definition too_young (q : queriesData) : bool :=
  negb (complete q) && (timestamp q >? currenttimestamp - 2).
Definition never_stored (q : queriesData) : bool :=
  privacylevel q >=? PRIVACY_MAXIMUM.

Definition bound_forward (q : queriesData) : option string :=
  if (status q =? QUERY_FORWARDED) && (forwardID q >? -1)
  then Some (getForwardString (forwardID q)) else None.

(** The rest of the loop body, for a query that passed the tests:
    bind, post, step, and account for the outcome. *)
Definition save_attempt (i : nat) (q : queriesData) (ls : locals) (w : world)
  : control * locals * world :=
  let domain := getDomainString i in
  let client := getClientIPString i in
  let w := curl_request i domain client w in
  let '(rc, w) := insert_step i (to_int (timestamp q)) (type q) (status q)
                              domain client (bound_forward q) w in
  if negb (rc =? SQLITE_DONE) then
    let w := logg (LogStepFailed rc) w in
    let ls := mkLocals (saved ls) (saved_error ls + 1) (lastID ls)
                       (total ls) (blocked ls) (newlasttimestamp ls) in
    if saved_error ls <? 3 then (Continue, ls, w)
    else (Break, ls, logg LogTooManyErrors w)
  else
    let w := set_queries (<[i := set_db q (lastID ls + 1)]> (queries w)) w in
    let ls := mkLocals (saved ls + 1) (saved_error ls) (lastID ls + 1)
                       (total ls + 1)
                       (if is_blocked_status (status q)
                        then blocked ls + 1 else blocked ls)
                       (if timestamp q >? newlasttimestamp ls
                        then timestamp q else newlasttimestamp ls) in
    (Continue, ls, w).

(** One turn of the [for] loop at index [i], where [q] is [queries[i]]. *)
Definition save_body (i : nat) (q : queriesData) (ls : locals) (w : world)
  : control * locals * world :=
  if already_saved q then (Continue, ls, w) else
  if too_young q then (Break, ls, w) else
  if never_stored q then (Continue, ls, w) else
  save_attempt i q ls w.

(** The [for] loop from index [i]; [fuel] bounds the number of turns
    (the log's length is always enough). *)
Fixpoint save_loop (fuel : nat) (i : nat) (ls : locals) (w : world)
  : nat * locals * world :=
  match fuel with
  | O => (i, ls, w)
  | S fuel' =>
      match queries w !! i with
      | None => (i, ls, w)
      | Some q =>
          match save_body i q ls w with
          | (Continue, ls', w') => save_loop fuel' (S i) ls' w'
          | (Break, ls', w') => (i, ls', w')
          end
      end
  end.

(** [save_to_DB] up to the loop: open the file, read the last row id,
    begin the transaction, prepare the INSERT.  Either the function
    returns early (left), or the loop starts with [lastID] (right). *)
Definition save_prologue (w : world) : world + Z * world :=
  let '(opened, w) := dbopen (o_open o) w in
  if negb opened then inl (logg LogSaveOpenFailed w) else
  let '(maxID, w) := last_ID_in_DB (o_lastid_prepare o) (o_lastid_step o) w in
  let '(ret, w) := dbquery (o_begin o) SqlBegin w in
  if negb ret then inl (dbclose (logg LogBeginFailed w)) else
  let rc := on_conn w (o_prepare o) in
  if negb (rc =? 0)
  then inl (check_database rc (dbclose (logg LogPrepareFailed w)))
  else inr (maxID, w).

(** [save_to_DB] after the loop, which stopped at index [i]. *)
Definition save_epilogue (i : nat) (ls : locals) (w : world) : world :=
  let '(ret, w) := dbquery (o_end o) SqlEnd w in
  let ret2 := on_conn w (o_finalize o) in
  if negb ret || negb (ret2 =? SQLITE_OK) then dbclose w else
  let w :=
    if (saved ls >? 0) && (saved_error ls =? 0)
    then snd (db_set_FTL_property (o_setprop o) DB_LASTTIMESTAMP
                (to_int (newlasttimestamp ls))
                (set_lastdbindex (Z.of_nat i) w))
    else w in
  let '(updated, w) :=
    if saved ls >? 0
    then db_update_counters (o_upd_total o) (o_upd_blocked o)
                            (total ls) (blocked ls) w
    else (true, w) in
  if negb updated then dbclose w else
  let w := dbclose w in
  if debug_database config then
    let w := logg (LogStored (saved ls) (lastID ls)) w in
    if saved_error ls >? 0 then logg LogNotAllSaved w else w
  else w.

Definition save_to_DB (w : world) : world :=
  if cfg_privacylevel config >=? PRIVACY_NOSTATS then w else
  match save_prologue w with
  | inl w => w
  | inr (maxID, w) =>
      let start := Z.to_nat (Z.max 0 (lastdbindex w)) in
      let '(i, ls, w) :=
        save_loop (length (queries w)) start (mkLocals 0 0 maxID 0 0 0) w in
      save_epilogue i ls w
  end.

(** *** The scan as a function of the log *)

(** The queries the loop tries to insert when it runs over [qs], the
    log from index [i] on, having counted [errs] failures so far; and
    the index at which it stops. *)
Fixpoint scan (qs : list queriesData) (i : nat) (errs : Z)
  : nat * list (nat * queriesData) :=
  match qs with
  | [] => (i, [])
  | q :: qs' =>
      if already_saved q then scan qs' (S i) errs
      else if too_young q then (i, [])
      else if never_stored q then scan qs' (S i) errs
      else if o_step o i =? SQLITE_DONE then
        let '(stop, l) := scan qs' (S i) errs in (stop, (i, q) :: l)
      else if errs + 1 <? 3 then
        let '(stop, l) := scan qs' (S i) (errs + 1) in (stop, (i, q) :: l)
      else (i, [(i, q)])
  end.

(** The effect of the attempts, one after the other. *)
Definition attempt_step (st : locals * world) (a : nat * queriesData)
  : locals * world :=
  let '(c, ls, w) := save_attempt (fst a) (snd a) (fst st) (snd st) in (ls, w).

Definition run_attempts (l : list (nat * queriesData)) (st : locals * world)
  : locals * world :=
  foldl attempt_step st l.

(** ** Retention: delete_old_queries_in_DB *)

Definition delete_old_queries_in_DB (rc_open rc_delete : Z) (now : Z)
    (w : world) : world :=
  let '(opened, w) := dbopen rc_open w in
  if negb opened then logg LogDeleteOpenFailed w else
  let timestamp := to_int (now - to_int (cfg_maxDBdays config * 86400)) in
  let before := length (tbl_queries (file w)) in
  let '(deleted, w) := dbquery rc_delete (SqlDeleteOlder timestamp) w in
  if negb deleted
  then set_database true (logg LogDeleteFailed (dbclose w)) else
  (* sqlite3_changes *)
  let affected := Z.of_nat before - Z.of_nat (length (tbl_queries (file w))) in
  let w := if debug_database config || negb (affected =? 0)
           then logg (LogDeleted affected) w else w in
  let w := dbclose w in
  set_database true w.

(** ** Startup import: read_data_from_DB *)

(** Modelled from the spec: the identity-lookup/intern functions
    ([findDomainID], [findClientID], [findForwardID]) are defined
    outside database.c.  The position of the string in the table, the
    string being appended when it is new. *)
Fixpoint find_index (s : string) (tbl : list string) (i : Z) : option Z :=
  match tbl with
  | [] => None
  | x :: tbl' => if String.eqb x s then Some i else find_index s tbl' (i + 1)
  end.

Definition intern (s : string) (tbl : list string) : Z * list string :=
  match find_index s tbl 0 with
  | Some i => (i, tbl)
  | None => (Z.of_nat (length tbl), tbl ++ [s])
  end.

Definition findDomainID (domain : string) (w : world) : Z * world :=
  let '(i, tbl) := intern domain (domains w) in (i, set_domains tbl w).
Definition findClientID (client : string) (w : world) : Z * world :=
  let '(i, tbl) := intern client (clients w) in (i, set_clients tbl w).
Definition findForwardID (forward : string) (w : world) : Z * world :=
  let '(i, tbl) := intern forward (forwarded w) in (i, set_forwarded tbl w).

(** The overTime slot of a timestamp, computed outside database.c. *)
Variable getOverTimeID : Z -> Z.

Definition incr (k : aggkey) (w : world) : world :=
  set_agg (fun k' => if decide (k = k') then agg w k' + 1 else agg w k') w.
Definition assign (k : aggkey) (v : Z) (w : world) : world :=
  set_agg (fun k' => if decide (k = k') then v else agg w k') w.

(** What SQLite answers during one call of [read_data_from_DB].
    [i_step k = None]: the [k]-th call of [sqlite3_step] runs
    normally (SQLITE_ROW while rows are left, SQLITE_DONE after the
    last); [Some rc]: it fails with the error [rc].
    [i_slot_privacy k]: the privacy-level byte found in slot [k] of
    the log, which the import leaves as it is. *)
Record import_oracle := mkImportOracle {
  i_open : Z;
  i_prepare : Z;
  i_step : nat -> option Z;
  i_slot_privacy : nat -> Z
}.

Variable io : import_oracle.
Variable now : Z.

Definition is_loopback (client : string) : bool :=
  String.eqb client "127.0.0.1" || String.eqb client "::1".

(** The status switch at the end of the loop body. *)
Definition count_status (st ts timeidx domainID clientID : Z) (w : world) : world :=
  if st =? QUERY_UNKNOWN then incr CntUnknown w
  else if is_blocked_status st then
    incr (OTBlocked timeidx)
      (incr (ClBlockedcount clientID)
         (incr (DomBlockedcount domainID) (incr CntBlocked w)))
  else if st =? QUERY_FORWARDED then
    incr (OTForwarded timeidx) (incr CntForwarded w)
  else if st =? QUERY_CACHE then
    incr (OTCached timeidx) (incr CntCached w)
  else logg (LogUnknownStatus st ts) w.

(** Second half of the loop body: the row passed every filter. *)
Definition store_query (dbid ts ty st forwardID : Z) (domain client : string)
    (w : world) : world :=
  let timeidx := getOverTimeID ts in
  let '(domainID, w) := findDomainID domain w in
  let '(clientID, w) := findClientID client w in
  let queryIndex := length (queries w) in
  let q := mkQuery MAGICBYTE ts ty st domainID clientID forwardID timeidx
                   dbid 0 true (i_slot_privacy io queryIndex) 0
                   DNSSEC_UNKNOWN REPLY_UNKNOWN in
  let w := set_queries (queries w ++ [q]) w in
  let w := assign (ClLastQuery clientID) ts w in
  let w := incr (ClNumQueriesARP clientID) w in
  let w := if (ty >=? TYPE_A) && (ty <? TYPE_MAX)
           then incr (OTQuerytype timeidx (ty - 1)) (incr (CntQuerytype (ty - 1)) w)
           else w in
  let w := incr (OTTotal timeidx) w in
  let w := incr (ClOverTime clientID timeidx) w in
  count_status st ts timeidx domainID clientID w.

(** One turn of the [while] loop, for the row [sqlite3_step] returned. *)
Definition import_row (r : dbrow) (w : world) : world :=
  let dbid := r_id r in
  let queryTimeStamp := to_int (r_timestamp r) in
  if queryTimeStamp <? 1483228800 then logg (LogWarnTimestamp queryTimeStamp) w else
  if queryTimeStamp >? now then
    (if debug_database config then logg (LogWarnFuture queryTimeStamp) w else w)
  else
  let ty := to_int (r_type r) in
  if (ty <? TYPE_A) || (ty >=? TYPE_MAX) then logg (LogWarnType ty) w else
  if (ty =? TYPE_AAAA) && negb (cfg_analyze_AAAA config) then w else
  let st := to_int (r_status r) in
  if (st <? QUERY_UNKNOWN) || (st >? QUERY_EXTERNAL_BLOCKED_NXRA)
  then logg (LogWarnStatus st) w else
  match r_domain r with
  | None => logg (LogWarnDomainNull queryTimeStamp) w
  | Some domain =>
  match r_client r with
  | None => logg (LogWarnClientNull queryTimeStamp) w
  | Some client =>
  if cfg_ignore_localhost config && is_loopback client then w else
  if st =? QUERY_FORWARDED then
    match r_forward r with
    | None => logg (LogWarnForwardNull queryTimeStamp) w
    | Some forwarddest =>
        let '(forwardID, w) := findForwardID forwarddest w in
        store_query dbid queryTimeStamp ty st forwardID domain client w
    end
  else store_query dbid queryTimeStamp ty st 0 domain client w
  end end.

(** The rows the SELECT statement yields, in table order. *)
Definition selected_rows (mintime : Z) (w : world) : list dbrow :=
  filter (fun r => mintime <= r_timestamp r) (visible_rows w).

Definition step_error (k : nat) : option Z :=
  match i_step io k with
  | Some rc => if (rc =? SQLITE_ROW) || (rc =? SQLITE_DONE) then None else Some rc
  | None => None
  end.

(** The [while] loop over the rows still to come; [k] counts the calls
    of [sqlite3_step].  Returns the code that ended the loop. *)
Fixpoint import_loop (rows : list dbrow) (k : nat) (w : world) : Z * world :=
  match step_error k with
  | Some rc => (rc, w)
  | None =>
      match rows with
      | [] => (SQLITE_DONE, w)
      | r :: rows' => import_loop rows' (S k) (import_row r w)
      end
  end.

Definition read_data_from_DB (w : world) : world :=
  if cfg_privacylevel config >=? PRIVACY_NOSTATS then w else
  let '(opened, w) := dbopen (i_open io) w in
  if negb opened then logg LogImportOpenFailed w else
  let mintime := now - cfg_maxlogage config in
  let w := if debug_database config then logg (LogImportSelect mintime) w else w in
  let rc := on_conn w (i_prepare io) in
  if negb (rc =? 0)
  then check_database rc (dbclose (logg (LogImportPrepareFailed rc) w)) else
  let '(rc, w) := import_loop (selected_rows mintime w) 0 w in
  let w := logg (LogImported (Z.of_nat (length (queries w)))) w in
  let w := set_lastdbindex (Z.of_nat (length (queries w))) w in
  if negb (rc =? SQLITE_DONE)
  then check_database rc (dbclose (logg (LogImportStepFailed rc) w)) else
  dbclose w.

End Routines.

(** ** Concrete worlds *)

Module Fixtures.

Definition config0 : ConfigStruct := mkConfig PRIVACY_SHOW_ALL 0 365 86400 true false.
Definition config_nostats : ConfigStruct :=
  mkConfig PRIVACY_NOSTATS 0 365 86400 true false.

Definition file0 : dbfile :=
  mkFile [] 0
         (<[DB_VERSION := 3]> (<[DB_LASTTIMESTAMP := 0]> ∅))
         (<[DB_TOTALQUERIES := 0]> (<[DB_BLOCKEDQUERIES := 0]> ∅)).

Definition world_of (f : dbfile) (qs : list queriesData) : world :=
  mkWorld true 0 false None f qs [] [] [] (fun _ => 0) [].

(** SQLite and libcurl never fail. *)
Definition oracle_ok : save_oracle :=
  mkSaveOracle 0 0 SQLITE_ROW 0 0 (fun _ => true) (fun _ => 0)
               (fun _ => SQLITE_DONE) 0 0 0 0 0.

(** Every INSERT listed in [bad] fails with SQLITE_FULL. *)
Definition oracle_failing (bad : list nat) : save_oracle :=
  mkSaveOracle 0 0 SQLITE_ROW 0 0 (fun _ => true) (fun _ => 0)
               (fun i => if bool_decide (i ∈ bad) then 13 else SQLITE_DONE)
               0 0 0 0 0.

(** The step of SELECT MAX(ID) answers SQLITE_BUSY. *)
Definition oracle_lastid_busy : save_oracle :=
  mkSaveOracle 0 0 SQLITE_BUSY 0 0 (fun _ => true) (fun _ => 0)
               (fun _ => SQLITE_DONE) 0 0 0 0 0.

Definition import_ok : import_oracle :=
  mkImportOracle 0 0 (fun _ => None) (fun _ => 0).

(** A query of type A from client 0 for domain 0. *)
Definition query (ts st : Z) (done : bool) (dbid privacy : Z) : queriesData :=
  mkQuery MAGICBYTE ts TYPE_A st 0 0 (-1) 0 dbid 0 done privacy 0
          DNSSEC_UNKNOWN REPLY_UNKNOWN.

Definition domain_of (i : nat) : string := "example.com".
Definition client_of (i : nat) : string := "10.0.0.1".
Definition forward_of (f : Z) : string := "8.8.8.8".
Definition slot_of (ts : Z) : Z := 0.

Definition flush (config : ConfigStruct) (o : save_oracle) (now : Z) (w : world) :=
  save_to_DB config domain_of client_of forward_of o now w.

Definition import (config : ConfigStruct) (io : import_oracle) (now : Z) (w : world) :=
  read_data_from_DB config slot_of io now w.

End Fixtures.

(** ** Observations on a run *)

(** The HTTP requests and the inserted rows among the events. *)
Definition posts (tr : list event) : list (string * string) :=
  omap (fun e => match e with EvCurlPost u p => Some (u, p) | _ => None end) tr.

Definition inserted (tr : list event) : list (nat * dbrow) :=
  omap (fun e => match e with EvInsert i r => Some (i, r) | _ => None end) tr.

Definition logged (tr : list event) : list logmsg :=
  omap (fun e => match e with EvLogg m => Some m | _ => None end) tr.

(** The events a routine added to the trace. *)
Definition new_events (w w' : world) : list event :=
  drop (length (trace w)) (trace w').

(** The store answers every call [save_to_DB] makes before its loop. *)
Definition store_ready (o : save_oracle) : bool :=
  (o_open o =? 0) && (o_lastid_prepare o =? 0) && (o_lastid_step o =? SQLITE_ROW) &&
  (o_begin o =? SQLITE_OK) && (o_prepare o =? 0).

(** END TRANSACTION and [sqlite3_finalize] succeed. *)
Definition commit_ok (o : save_oracle) : bool :=
  (o_end o =? SQLITE_OK) && (o_finalize o =? SQLITE_OK).

(** The world in which the loop of [save_to_DB] starts. *)
Definition loop_entry (config : ConfigStruct) (w : world) : world :=
  let w := set_conn true (set_txn None w) in
  let w := if debug_database config then logg (LogQuery SqlBegin) w else w in
  set_txn (Some []) w.

Definition loop_start (w : world) : nat := Z.to_nat (Z.max 0 (lastdbindex w)).

Definition locals0 (w : world) : locals :=
  mkLocals 0 0 (default 0 (max_id (tbl_queries (file w)))) 0 0 0.

(** The queries one call of [save_to_DB] tries to insert, and the
    index at which its scan stops. *)
Definition flush_scan (config : ConfigStruct) (o : save_oracle) (now : Z)
    (w : world) : nat * list (nat * queriesData) :=
  if (cfg_privacylevel config >=? PRIVACY_NOSTATS) || negb (store_ready o)
  then (loop_start w, [])
  else scan o now (drop (loop_start w) (queries w)) (loop_start w) 0.

Definition step_ok (o : save_oracle) (a : nat * queriesData) : bool :=
  o_step o a.1 =? SQLITE_DONE.

(** The row [save_to_DB] binds for query [q] at index [i] (its id is
    assigned by the store). *)
Definition bound_row (getDomainString getClientIPString : nat -> string)
    (getForwardString : Z -> string) (id : Z) (a : nat * queriesData) : dbrow :=
  mkRow id (to_int (timestamp a.2)) (type a.2) (status a.2)
        (Some (getDomainString a.1)) (Some (getClientIPString a.1))
        (bound_forward getForwardString a.2).

(** The POST fields sent for the query at index [i]. *)
Definition post_of (getDomainString getClientIPString : nat -> string)
    (a : nat * queriesData) : string * string :=
  (categorise_url,
   String.append "url="
     (String.append (getDomainString a.1)
        (String.append "&request_ip=" (getClientIPString a.1)))).

(** ** The scan in the words of the specification *)

(** The prefix of a list before its first element satisfying [p]. *)
Fixpoint take_until {A} (p : A -> bool) (l : list A) : list A :=
  match l with
  | [] => []
  | x :: l' => if p x then [] else x :: take_until p l'
  end.

(** The log with its indices, from index [start] on. *)
Definition indexed_from (start : nat) (qs : list queriesData)
  : list (nat * queriesData) :=
  drop start (zip (seq 0 (length qs)) qs).

(** A record that ends the scan: not persisted, incomplete, younger
    than two seconds. *)
Definition deferred (now : Z) (q : queriesData) : bool :=
  (db q =? 0) && negb (complete q) && (timestamp q >? now - 2).

(** A record the flush writes: not persisted, below the strictest
    privacy level. *)
Definition eligible (q : queriesData) : bool :=
  (db q =? 0) && (privacylevel q <? PRIVACY_MAXIMUM).

(** The records of one batch: those eligible among the records before
    the first deferred one. *)
Definition flush_plan (now : Z) (start : nat) (qs : list queriesData)
  : list (nat * queriesData) :=
  filter (fun a => eligible a.2 = true)
         (take_until (fun a => deferred now a.2) (indexed_from start qs)).

(** The index of the first deferred record from [start] on, the end of
    the log if there is none. *)
Definition first_deferred (now : Z) (start : nat) (qs : list queriesData) : nat :=
  (start + length (take_until (fun a => deferred now a.2) (indexed_from start qs)))%nat.

(** The part of a batch that is tried before [n] insertions have
    failed: every attempt up to and including the [n]-th failure. *)
Fixpoint upto_failures (ok : nat * queriesData -> bool) (n : nat)
    (l : list (nat * queriesData)) : list (nat * queriesData) :=
  match n, l with
  | O, _ => []
  | _, [] => []
  | S n', a :: l' =>
      if ok a then a :: upto_failures ok n l'
      else a :: upto_failures ok n' l'
  end.

(** Row ids handed out in sequence from [id]. *)
Fixpoint number_rows (mk : Z -> nat * queriesData -> dbrow) (id : Z)
    (l : list (nat * queriesData)) : list (nat * dbrow) :=
  match l with
  | [] => []
  | a :: l' => (a.1, mk id a) :: number_rows mk (id + 1) l'
  end.

(** [quiet w w']: going from [w] to [w'] touched neither the log, the
    file, the cursor nor the aggregates, and added only log lines. *)
Definition quiet (w w' : world) : Prop :=
  queries w' = queries w /\ file w' = file w /\
  lastdbindex w' = lastdbindex w /\ agg w' = agg w /\
  domains w' = domains w /\ clients w' = clients w /\
  forwarded w' = forwarded w /\
  exists logs, trace w' = trace w ++ (EvLogg <$> logs).

(** The attempts whose INSERT succeeds. *)
Definition successes (o : save_oracle) (l : list (nat * queriesData))
  : list (nat * queriesData) :=
  filter (fun a => step_ok o a = true) l.

(** The attempts for which libcurl handed out a handle. *)
Definition posted (o : save_oracle) (l : list (nat * queriesData))
  : list (nat * queriesData) :=
  filter (fun a => o_curl_init o a.1 = true) l.

Definition blocked_rows (l : list (nat * queriesData)) : list (nat * queriesData) :=
  filter (fun a => is_blocked_status (status a.2) = true) l.

(** The running maximum the loop keeps in [newlasttimestamp]. *)
Definition max_timestamp (m : Z) (l : list (nat * queriesData)) : Z :=
  foldl (fun m a => if timestamp a.2 >? m then timestamp a.2 else m) m l.

(** A log segment with its indices, the first being [i]. *)
Definition index_list (i : nat) (qs : list queriesData) : list (nat * queriesData) :=
  zip (seq i (length qs)) qs.

(** The batch planned for a log segment starting at index [i]. *)
Definition plan_from (now : Z) (i : nat) (qs : list queriesData)
  : list (nat * queriesData) :=
  filter (fun a => eligible a.2 = true)
         (take_until (fun a => deferred now a.2) (index_list i qs)).

(** Number of failed insertions among the attempts. *)
Definition failures (o : save_oracle) (l : list (nat * queriesData)) : Z :=
  Z.of_nat (length l) - Z.of_nat (length (successes o l)).

(** [same_memory w w']: the shared memory is as it was, and nothing
    but log lines has left the process. *)
Definition same_memory (w w' : world) : Prop :=
  queries w' = queries w /\ agg w' = agg w /\ domains w' = domains w /\
  clients w' = clients w /\ forwarded w' = forwarded w /\
  posts (trace w') = posts (trace w) /\
  inserted (trace w') = inserted (trace w).

(** The counters table after [db_update_counters]. *)
Definition updated_counters (rc1 rc2 total blocked : Z) (c : gmap Z Z) : gmap Z Z :=
  let c1 := if rc1 =? SQLITE_OK
            then alter (fun v => v + total) DB_TOTALQUERIES c else c in
  if (rc1 =? SQLITE_OK) && (rc2 =? SQLITE_OK)
  then alter (fun v => v + blocked) DB_BLOCKEDQUERIES c1 else c1.

(** The id the store gives the first row of a batch. *)
Definition first_rowid (w : world) : Z :=
  Z.max (tbl_seq (file w)) (default 0 (max_id (tbl_queries (file w)))) + 1.

(** The rows one call of [save_to_DB] inserts, with the index of the
    query each comes from. *)
Definition flush_rows (getDomainString getClientIPString : nat -> string)
    (getForwardString : Z -> string) (config : ConfigStruct) (o : save_oracle)
    (now : Z) (w : world) : list (nat * dbrow) :=
  number_rows (bound_row getDomainString getClientIPString getForwardString)
              (first_rowid w) (successes o (flush_scan config o now w).2).

(** The flush does not reach its loop: the privacy gate is closed or
    the store does not answer. *)
Definition flush_blocked (config : ConfigStruct) (o : save_oracle) : bool :=
  (cfg_privacylevel config >=? PRIVACY_NOSTATS) || negb (store_ready o).

(** The worlds of the examples. *)
Module Examples.
Import Fixtures.

Definition t0 : Z := 1600000000.

(** One complete, unsaved query. *)
Definition world_one : world :=
  world_of file0 [query t0 QUERY_GRAVITY true 0 PRIVACY_SHOW_ALL].

(** One complete, unsaved query recorded at the strictest privacy level. *)
Definition world_private : world :=
  world_of file0 [query t0 QUERY_CACHE true 0 PRIVACY_MAXIMUM].

(** Five eligible queries, one already saved (index 1), one incomplete
    and one second old (index 5), which hides the query behind it. *)
Definition world_seven : world :=
  world_of file0
    [query t0 QUERY_GRAVITY true 0 0;
     query (t0 + 1) QUERY_FORWARDED true 7 0;
     query (t0 + 2) QUERY_CACHE true 0 0;
     query (t0 + 3) QUERY_BLACKLIST true 0 0;
     query (t0 + 4) QUERY_CACHE true 0 0;
     query (t0 + 9) QUERY_UNKNOWN false 0 0;
     query (t0 + 9) QUERY_CACHE true 0 0].

End Examples.

(** The write-back sends nothing over the network. *)
Definition no_transmission (w w' : world) : Prop :=
  posts (trace w') = posts (trace w).

(** The cursor after a flush is at the first record that is not yet
    eligible (or at the end of the log). *)
Definition cursor_at_first_deferred (now : Z) (w w' : world) : Prop :=
  lastdbindex w' = Z.of_nat (first_deferred now (loop_start w) (queries w)).

(** ** The life of the process *)

(** What happens to the world between start-up and shutdown, one step
    at a time: the import, the scheduler's flushes and collections; the
    resolver (outside
    database.c) appends a record, with no marker, or rewrites one,
    leaving its marker alone. *)
Inductive op :=
| OpImport (config : ConfigStruct) (io : import_oracle) (now : Z)
| OpFlush (config : ConfigStruct) (o : save_oracle) (now : Z)
| OpCollect (config : ConfigStruct) (rc_open rc_delete now : Z)
| OpAppend (q : queriesData)
| OpUpdate (j : nat) (q : queriesData).

Section Life.

Variable getDomainString : nat -> string.
Variable getClientIPString : nat -> string.
Variable getForwardString : Z -> string.
Variable getOverTimeID : Z -> Z.

Definition apply_op (w : world) (step : op) : world :=
  match step with
  | OpImport config io now => read_data_from_DB config getOverTimeID io now w
  | OpFlush config o now =>
      save_to_DB config getDomainString getClientIPString getForwardString o now w
  | OpCollect config rc_open rc_delete now =>
      delete_old_queries_in_DB config rc_open rc_delete now w
  | OpAppend q => set_queries (queries w ++ [set_db q 0]) w
  | OpUpdate j q =>
      match queries w !! j with
      | Some old => set_queries (<[j := set_db q (db old)]> (queries w)) w
      | None => w
      end
  end.

Definition run_ops (ops : list op) (w : world) : world := foldl apply_op w ops.

End Life.

(** The deltas one flush adds to the counters: rows saved, and rows
    saved with a blocked status; nothing when no row was saved. *)
Definition flush_delta (config : ConfigStruct) (o : save_oracle) (now : Z)
    (w : world) : Z * Z :=
  let succ := successes o (flush_scan config o now w).2 in
  if commit_ok o
  then (Z.of_nat (length succ), Z.of_nat (length (blocked_rows succ)))
  else (0, 0).

Definition op_delta (step : op) (w : world) : Z * Z :=
  match step with
  | OpFlush config o now => flush_delta config o now w
  | _ => (0, 0)
  end.

(** The sum of the deltas along a run. *)
Fixpoint run_deltas (getDomainString getClientIPString : nat -> string)
    (getForwardString : Z -> string) (getOverTimeID : Z -> Z)
    (ops : list op) (w : world) : Z * Z :=
  match ops with
  | [] => (0, 0)
  | step :: ops' =>
      let d := op_delta step w in
      let r := run_deltas getDomainString getClientIPString getForwardString
                 getOverTimeID ops'
                 (apply_op getDomainString getClientIPString getForwardString
                    getOverTimeID w step) in
      (d.1 + r.1, d.2 + r.2)
  end.

(** The delta that goes to the counter with key [k]. *)
Definition delta_at (d : Z * Z) (k : Z) : Z :=
  if decide (k = DB_TOTALQUERIES) then d.1
  else if decide (k = DB_BLOCKEDQUERIES) then d.2 else 0.

(** The two UPDATE statements of [db_update_counters] succeed. *)
Definition counters_answer (step : op) : Prop :=
  match step with
  | OpFlush _ o _ => o_upd_total o = SQLITE_OK /\ o_upd_blocked o = SQLITE_OK
  | _ => True
  end.

(** Every row id in the file is positive, as AUTOINCREMENT hands them out. *)
Definition ids_positive (w : world) : Prop :=
  Forall (fun r => 0 < r_id r) (tbl_queries (file w)).

(** The threshold of the DELETE statement, as [delete_old_queries_in_DB]
    computes it in C [int] arithmetic. *)
Definition oldest_kept (config : ConfigStruct) (now : Z) : Z :=
  to_int (now - to_int (cfg_maxDBdays config * 86400)).

(** The record at index [j] carries a persisted marker. *)
Definition marked (w : world) (j : nat) : Prop :=
  exists q, queries w !! j = Some q /\ db q <> 0.

(** What holds of the world all along: row ids are positive, no index
    was inserted twice, and every index that was inserted is marked. *)
Definition written_once (w : world) : Prop :=
  ids_positive w /\
  NoDup (inserted (trace w)).*1 /\
  forall j, j ∈ (inserted (trace w)).*1 -> marked w j.

(** A run of the process over [Examples.world_seven]: a flush; a
    second one in which the INSERT for index 5 fails; the resolver
    appends a query and completes the one at index 5; a collection;
    a third flush; an import of what the file holds by then, and a
    last flush. *)
Definition example_ops : list op :=
  [OpFlush Fixtures.config0 Fixtures.oracle_ok (Examples.t0 + 10);
   OpFlush Fixtures.config0 (Fixtures.oracle_failing [5%nat]) (Examples.t0 + 20);
   OpAppend (Fixtures.query (Examples.t0 + 21) QUERY_GRAVITY true 0 0);
   OpUpdate 5 (Fixtures.query (Examples.t0 + 9) QUERY_CACHE true 0 0);
   OpCollect Fixtures.config0 0 0 (Examples.t0 + 30);
   OpFlush Fixtures.config0 Fixtures.oracle_ok (Examples.t0 + 40);
   OpImport Fixtures.config0 Fixtures.import_ok (Examples.t0 + 50);
   OpFlush Fixtures.config0 Fixtures.oracle_ok (Examples.t0 + 60)].

Definition example_run (ops : list op) (w : world) : world :=
  run_ops Fixtures.domain_of Fixtures.client_of Fixtures.forward_of
          Fixtures.slot_of ops w.

(** ** The retention collector in the words of the specification *)

(** The rows that survive a collection with threshold [T]. *)
Definition kept_rows (T : Z) (rows : list dbrow) : list dbrow :=
  filter (fun r => T < r_timestamp r) rows.

(** The collector removes exactly the rows at or below the threshold,
    reports how many, and re-enables persistence whatever happened. *)
Definition collect_claim (config : ConfigStruct) (rc_open rc_delete now : Z)
    (w : world) : Prop :=
  let w' := delete_old_queries_in_DB config rc_open rc_delete now w in
  let rows := tbl_queries (file w) in
  let kept := kept_rows (now - cfg_maxDBdays config * 86400) rows in
  let removed := Z.of_nat (length rows) - Z.of_nat (length kept) in
  (rc_open = 0 -> rc_delete = SQLITE_OK ->
   tbl_queries (file w') = kept /\
   LogDeleted removed ∈ logged (new_events w w')) /\
  database w' = true.

Module CollectExamples.
Import Fixtures.

(** An empty store. *)
Definition world_empty : world := world_of file0 [].

(** A store with one row from 2017 and one from 2020; persistence is
    switched off. *)
Definition world_old_row : world :=
  set_database false
    (world_of (mkFile [mkRow 1 1500000000 TYPE_A QUERY_CACHE (Some "a.example")
                             (Some "10.0.0.1") None;
                       mkRow 2 Examples.t0 TYPE_A QUERY_CACHE (Some "b.example")
                             (Some "10.0.0.2") None]
                      2 (tbl_ftl file0) (tbl_counters file0)) []).

End CollectExamples.

(** ** The import filter in the words of the specification *)

Definition is_null (s : option string) : bool :=
  match s with None => true | Some _ => false end.

(** An absent or empty string. *)
Definition is_empty (s : option string) : bool :=
  match s with
  | None => true
  | Some s => String.eqb s ""
  end.

Definition loopback_client (s : option string) : bool :=
  match s with None => false | Some c => is_loopback c end.

(** The rows the import passes over, as the specification lists them. *)
Definition skipped_by_claim (config : ConfigStruct) (now : Z) (r : dbrow) : bool :=
  (r_timestamp r <? 1483228800) || (r_timestamp r >? now) ||
  (r_type r <? TYPE_A) || (r_type r >=? TYPE_MAX) ||
  ((r_type r =? TYPE_AAAA) && negb (cfg_analyze_AAAA config)) ||
  (r_status r <? QUERY_UNKNOWN) || (r_status r >? QUERY_EXTERNAL_BLOCKED_NXRA) ||
  is_empty (r_domain r) || is_empty (r_client r) ||
  (cfg_ignore_localhost config && loopback_client (r_client r)) ||
  ((r_status r =? QUERY_FORWARDED) && is_null (r_forward r)).

(** The rows the import passes over, as the code tests them: on the
    integer columns read as C ints, and on NULL strings. *)
Definition skipped_by_code (config : ConfigStruct) (now : Z) (r : dbrow) : bool :=
  let ts := to_int (r_timestamp r) in
  let ty := to_int (r_type r) in
  let st := to_int (r_status r) in
  (ts <? 1483228800) || (ts >? now) ||
  (ty <? TYPE_A) || (ty >=? TYPE_MAX) ||
  ((ty =? TYPE_AAAA) && negb (cfg_analyze_AAAA config)) ||
  (st <? QUERY_UNKNOWN) || (st >? QUERY_EXTERNAL_BLOCKED_NXRA) ||
  is_null (r_domain r) || is_null (r_client r) ||
  (cfg_ignore_localhost config && loopback_client (r_client r)) ||
  ((st =? QUERY_FORWARDED) && is_null (r_forward r)).

(** The log line that goes with a skipped row, if any: the first test
    the row fails decides. *)
Definition diagnostic (config : ConfigStruct) (now : Z) (r : dbrow) : option logmsg :=
  let ts := to_int (r_timestamp r) in
  let ty := to_int (r_type r) in
  let st := to_int (r_status r) in
  if ts <? 1483228800 then Some (LogWarnTimestamp ts)
  else if ts >? now
       then (if debug_database config then Some (LogWarnFuture ts) else None)
  else if (ty <? TYPE_A) || (ty >=? TYPE_MAX) then Some (LogWarnType ty)
  else if (ty =? TYPE_AAAA) && negb (cfg_analyze_AAAA config) then None
  else if (st <? QUERY_UNKNOWN) || (st >? QUERY_EXTERNAL_BLOCKED_NXRA)
       then Some (LogWarnStatus st)
  else if is_null (r_domain r) then Some (LogWarnDomainNull ts)
  else if is_null (r_client r) then Some (LogWarnClientNull ts)
  else if cfg_ignore_localhost config && loopback_client (r_client r) then None
  else if (st =? QUERY_FORWARDED) && is_null (r_forward r)
       then Some (LogWarnForwardNull ts)
  else None.

(** A row is passed over exactly when the specification says so, and
    never without a log line. *)
Definition import_claim (config : ConfigStruct) (getOverTimeID : Z -> Z)
    (io : import_oracle) (now : Z) (r : dbrow) (w : world) : Prop :=
  let w' := import_row config getOverTimeID io now r w in
  (skipped_by_claim config now r = true <-> queries w' = queries w) /\
  (queries w' = queries w -> logged (new_events w w') <> []).

Module ImportExamples.
Import Fixtures.

(** A row whose domain is the empty string. *)
Definition row_empty_domain : dbrow :=
  mkRow 5 Examples.t0 TYPE_A QUERY_CACHE (Some "") (Some "10.0.0.1") None.

(** A row from the loopback address, and a configuration that ignores
    such rows. *)
Definition row_loopback : dbrow :=
  mkRow 6 Examples.t0 TYPE_A QUERY_CACHE (Some "a.example") (Some "127.0.0.1") None.

Definition config_ignore_localhost : ConfigStruct :=
  mkConfig PRIVACY_SHOW_ALL 0 365 86400 true true.

(** A row of type 99, between two good rows. *)
Definition rows_type99 : list dbrow :=
  [mkRow 1 Examples.t0 TYPE_A QUERY_CACHE (Some "a.example") (Some "10.0.0.1") None;
   mkRow 2 (Examples.t0 + 1) 99 QUERY_CACHE (Some "b.example") (Some "10.0.0.1") None;
   mkRow 3 (Examples.t0 + 2) TYPE_A QUERY_FORWARDED (Some "c.example")
         (Some "10.0.0.2") (Some "8.8.8.8")].

Definition world_type99 : world :=
  world_of (mkFile rows_type99 3 (tbl_ftl file0) (tbl_counters file0)) [].

End ImportExamples.

(** The import reaches its loop: the privacy gate is open and the
    store answers. *)
Definition import_ready (config : ConfigStruct) (io : import_oracle) : bool :=
  (cfg_privacylevel config <? PRIVACY_NOSTATS) && (i_open io =? 0) &&
  (i_prepare io =? 0).

(** What the import loop leaves alone: the file, the cursor, the
    connection, the persistence flag; and it sends and inserts nothing. *)
Definition import_frame (w w' : world) : Prop :=
  file w' = file w /\ lastdbindex w' = lastdbindex w /\ conn w' = conn w /\
  txn w' = txn w /\ database w' = database w /\
  posts (trace w') = posts (trace w) /\ inserted (trace w') = inserted (trace w).

(** The records an import adds for rows among [rows]: complete, and
    marked with the id of their row. *)
Definition imported_from (rows : list dbrow) (new : list queriesData) : Prop :=
  Forall (fun q => complete q = true /\ exists r, r ∈ rows /\ db q = r_id r) new.

(** ** Reading single values: db_query_int and its callers *)

(** The log lines of the read-only helpers ([db_query_int],
    [number_of_queries_in_DB], [get_number_of_queries_in_DB]), with
    the values they print.  The helpers hand them back beside the
    world. *)
Inductive readmsg :=
| LogQueryIntPrepare (rc : Z)
| LogQueryIntStep (rc : Z)
| LogCountPrepare (rc : Z)
| LogCountStep (rc : Z)
| LogCountOpenFailed.

(** The code [sqlite3_step] returns on a statement that yields at most
    one row: SQLITE_ROW or SQLITE_DONE by what the table holds, unless
    SQLite reports the error [err]. *)
Definition step_code (err : option Z) (has_row : bool) : Z :=
  let natural := if has_row then SQLITE_ROW else SQLITE_DONE in
  match err with
  | Some rc => if (rc =? SQLITE_ROW) || (rc =? SQLITE_DONE) then natural else rc
  | None => natural
  end.

(** [db_query_int] on a statement whose first row, if there is one,
    has [answer] in its first column. *)
Definition db_query_int (rc_prepare : Z) (err_step : option Z)
    (answer : option Z) (w : world) : Z * world * list readmsg :=
  let rc := on_conn w rc_prepare in
  if negb (rc =? 0)
  then (DB_FAILED, check_database rc (dbclose w), [LogQueryIntPrepare rc])
  else
    let rc := on_conn w (step_code err_step (bool_decide (is_Some answer))) in
    if rc =? SQLITE_ROW then (to_int (default 0 answer), w, [])
    else if rc =? SQLITE_DONE then (DB_NODATA, w, [])
    else (DB_FAILED, check_database rc (dbclose w), [LogQueryIntStep rc]).

(** SELECT VALUE FROM ftl WHERE id = ID. *)
Definition db_get_FTL_property (rc_prepare : Z) (err_step : option Z)
    (ID : Z) (w : world) : Z * world * list readmsg :=
  db_query_int rc_prepare err_step (tbl_ftl (file w) !! ID) w.

(** SELECT COUNT(timestamp) FROM queries: the column is NOT NULL, so
    every row counts. *)
Definition number_of_queries_in_DB (rc_prepare rc_step : Z) (w : world)
  : Z * world * list readmsg :=
  let rc := on_conn w rc_prepare in
  if negb (rc =? 0)
  then (DB_FAILED, check_database rc (dbclose w), [LogCountPrepare rc])
  else
    let rc := on_conn w rc_step in
    if negb (rc =? SQLITE_ROW)
    then (DB_FAILED, check_database rc (dbclose w), [LogCountStep rc])
    else (to_int (Z.of_nat (length (visible_rows w))), w, []).

Definition get_number_of_queries_in_DB (rc_open rc_prepare rc_step : Z)
    (w : world) : Z * world * list readmsg :=
  let '(opened, w) := dbopen rc_open w in
  if negb opened then (DB_FAILED, w, [LogCountOpenFailed]) else
  let '(result, w, msgs) := number_of_queries_in_DB rc_prepare rc_step w in
  (result, dbclose w, msgs).

(** ** The database thread: DB_thread *)

(** The two further configuration values [DB_thread] reads. *)
Record ThreadConfig := mkThreadConfig {
  cfg_DBinterval : Z;
  cfg_parse_arp_cache : bool
}.

(** The globals the thread keeps beside the world. *)
Record thread := mkThread {
  lastDBsave : Z;
  DBdeleteoldqueries : bool;
  th_world : world
}.

(** What one turn of the thread's loop reads from outside: the
    [killed] flag, the clock at each of its calls of [time], and the
    answers of SQLite and libcurl. *)
Record turn_input := mkTurn {
  in_killed : bool;
  in_time_check : Z;
  in_time_align : Z;
  in_time_rem : Z;
  in_save : save_oracle;
  in_time_save : Z;
  in_rc_open : Z;
  in_rc_delete : Z;
  in_time_delete : Z
}.

Section Thread.

Variable config : ConfigStruct.
Variable tconfig : ThreadConfig.
Variable getDomainString : nat -> string.
Variable getClientIPString : nat -> string.
Variable getForwardString : Z -> string.

(** The ARP-cache parser lives outside database.c. *)
Variable parse_arp_cache : world -> world.

(** [time(NULL) - time(NULL) % config.DBinterval], stored in an [int]. *)
Definition aligned (t_align t_rem : Z) : Z :=
  to_int (t_align - Z.rem t_rem (cfg_DBinterval tconfig)).

(** The body of the [while] loop, without the sleep. *)
Definition DB_thread_turn (ti : turn_input) (s : thread) : thread :=
  if in_time_check ti - lastDBsave s >=? cfg_DBinterval tconfig then
    let last := aligned (in_time_align ti) (in_time_rem ti) in
    let w := save_to_DB config getDomainString getClientIPString
               getForwardString (in_save ti) (in_time_save ti) (th_world s) in
    let '(w, gc) :=
      if DBdeleteoldqueries s
      then (delete_old_queries_in_DB config (in_rc_open ti) (in_rc_delete ti)
              (in_time_delete ti) w, false)
      else (w, DBdeleteoldqueries s) in
    let w := if cfg_parse_arp_cache tconfig then parse_arp_cache w else w in
    mkThread last gc w
  else s.

(** The [while] loop, for as many turns as inputs are given. *)
Fixpoint DB_thread_loop (inputs : list turn_input) (s : thread) : thread :=
  match inputs with
  | [] => s
  | ti :: rest =>
      if negb (in_killed ti) && database (th_world s)
      then DB_thread_loop rest (DB_thread_turn ti s)
      else s
  end.

(** The thread from its start at clock readings [t_align], [t_rem]. *)
Definition DB_thread (t_align t_rem : Z) (inputs : list turn_input)
    (s : thread) : thread :=
  DB_thread_loop inputs
    (mkThread (aligned t_align t_rem) (DBdeleteoldqueries s) (th_world s)).

End Thread.

(** ** Further observations *)

(** The result codes [check_database] lets pass. *)
Definition tolerated (rc : Z) : bool :=
  (rc =? SQLITE_OK) || (rc =? SQLITE_DONE) || (rc =? SQLITE_ROW) ||
  (rc =? SQLITE_BUSY).

(** No handle is open and no transaction is pending. *)
Definition closed (w : world) : Prop := conn w = false /\ txn w = None.

(** What [db_get_FTL_property] answers when SQLite reports no error:
    the stored value read as a C [int], DB_NODATA for a key that is
    not in the table. *)
Definition property_value (ID : Z) (w : world) : Z :=
  match tbl_ftl (file w) !! ID with
  | Some v => to_int v
  | None => DB_NODATA
  end.

(** The error a one-row statement ends with, if any: the code of
    [sqlite3_prepare_v2] when it is not zero, else the code of
    [sqlite3_step] when it is neither SQLITE_ROW nor SQLITE_DONE. *)
Definition read_error (rc_prepare : Z) (err_step : option Z) (w : world)
  : option Z :=
  if negb (on_conn w rc_prepare =? 0) then Some (on_conn w rc_prepare)
  else match err_step with
       | Some rc => if (rc =? SQLITE_ROW) || (rc =? SQLITE_DONE)
                    then None else Some rc
       | None => None
       end.

(** The number [get_number_of_queries_in_DB] reports when SQLite
    answers every call. *)
Definition stored_count (w : world) : Z :=
  (get_number_of_queries_in_DB 0 0 SQLITE_ROW w).1.1.

(** ** The import, step by step *)

(** The world in which the loop of [read_data_from_DB] starts. *)
Definition import_entry (config : ConfigStruct) (now : Z) (w : world) : world :=
  let w := set_conn true (set_txn None w) in
  if debug_database config
  then logg (LogImportSelect (now - cfg_maxlogage config)) w else w.

(** The rows its SELECT statement yields: those no older than
    [maxlogage], in table order. *)
Definition import_rows (config : ConfigStruct) (now : Z) (w : world) : list dbrow :=
  filter (fun r => now - cfg_maxlogage config <= r_timestamp r)
         (tbl_queries (file w)).

(** What follows the loop, which ended with the code [rc]. *)
Definition import_exit (rc : Z) (w : world) : world :=
  let w := logg (LogImported (Z.of_nat (length (queries w)))) w in
  let w := set_lastdbindex (Z.of_nat (length (queries w))) w in
  if negb (rc =? SQLITE_DONE)
  then check_database rc (dbclose (logg (LogImportStepFailed rc) w))
  else dbclose w.

(** The rows the loop gets to see: those before the first failing call
    of [sqlite3_step], the [k]-th being the next. *)
Fixpoint rows_seen (io : import_oracle) (k : nat) (rows : list dbrow)
  : list dbrow :=
  match step_error io k, rows with
  | None, r :: rows' => r :: rows_seen io (S k) rows'
  | _, _ => []
  end.

(** The code the loop ends with. *)
Fixpoint import_code (io : import_oracle) (k : nat) (rows : list dbrow) : Z :=
  match step_error io k with
  | Some rc => rc
  | None =>
      match rows with
      | [] => SQLITE_DONE
      | _ :: rows' => import_code io (S k) rows'
      end
  end.

(** The rows of [rows] that pass the import's tests. *)
Definition accepted (config : ConfigStruct) (now : Z) (rows : list dbrow)
  : list dbrow :=
  filter (fun r => skipped_by_code config now r = false) rows.

(** The sum of the status counters, and of the query-type counters. *)
Definition status_total (w : world) : Z :=
  agg w CntUnknown + agg w CntBlocked + agg w CntForwarded + agg w CntCached.

Definition type_total (w : world) : Z :=
  foldr (fun t acc => agg w (CntQuerytype t) + acc) 0 [0; 1; 2; 3; 4; 5; 6].

(** No line "Found unknown status" among the events. *)
Definition no_unknown_status (tr : list event) : Prop :=
  forall st ts, EvLogg (LogUnknownStatus st ts) ∉ tr.

(** The record the import makes of a row: the row's id as marker, its
    integer columns read as C ints, complete. *)
Definition record_of_row (q : queriesData) (r : dbrow) : Prop :=
  db q = r_id r /\ timestamp q = to_int (r_timestamp r) /\
  type q = to_int (r_type r) /\ status q = to_int (r_status r) /\
  complete q = true.

(** An import whose third call of [sqlite3_step] fails with SQLITE_FULL. *)
Definition import_failing_third : import_oracle :=
  mkImportOracle 0 0 (fun k => if (k =? 2)%nat then Some 13 else None)
                 (fun _ => 0).

(** What holds of every record an import adds. *)
Definition well_imported (config : ConfigStruct) (now : Z) (w : world)
    (q : queriesData) : Prop :=
  1483228800 <= timestamp q <= now /\
  TYPE_A <= type q < TYPE_MAX /\
  QUERY_UNKNOWN <= status q <= QUERY_EXTERNAL_BLOCKED_NXRA /\
  complete q = true /\
  exists r, r ∈ tbl_queries (file w) /\ db q = r_id r /\
            now - cfg_maxlogage config <= r_timestamp r.

(** A thread over the log of seven queries, flushing once a minute. *)
Module ThreadExamples.
Import Fixtures.

Definition tconfig0 : ThreadConfig := mkThreadConfig 60 false.

(** A turn in which every clock reading is [t] and nothing fails. *)
Definition turn_at (t : Z) : turn_input :=
  mkTurn false t t t oracle_ok t 0 0 t.

(** A turn at [t] in which the file cannot be opened (SQLITE_CANTOPEN). *)
Definition turn_cantopen (t : Z) : turn_input :=
  mkTurn false t t t
    (mkSaveOracle 14 0 SQLITE_ROW 0 0 (fun _ => true) (fun _ => 0)
                  (fun _ => SQLITE_DONE) 0 0 0 0 0)
    t 0 0 t.

Definition thread0 : thread := mkThread 0 false Examples.world_seven.

Definition turn (ti : turn_input) (s : thread) : thread :=
  DB_thread_turn config0 tconfig0 domain_of client_of forward_of (fun w => w) ti s.

Definition loop (inputs : list turn_input) (s : thread) : thread :=
  DB_thread_loop config0 tconfig0 domain_of client_of forward_of (fun w => w)
    inputs s.

End ThreadExamples.

(** The clock readings of a turn agree and fit a C [int]. *)
Definition steady_clock (ti : turn_input) : Prop :=
  in_time_rem ti = in_time_align ti /\ 0 <= in_time_align ti < 2 ^ 31.

(** * Properties *)

(** ** The loop of save_to_DB runs the scan *)

Section Scan.

Variable getDomainString : nat -> string.
Variable getClientIPString : nat -> string.
Variable getForwardString : Z -> string.
Variable o : save_oracle.
Variable currenttimestamp : Z.

Local Abbreviation young := (too_young currenttimestamp).
Local Abbreviation attempt :=
  (save_attempt getDomainString getClientIPString getForwardString o).
Local Abbreviation body :=
  (save_body getDomainString getClientIPString getForwardString o currenttimestamp).
Local Abbreviation scan := (scan o currenttimestamp).
Local Abbreviation attempt_step :=
  (attempt_step getDomainString getClientIPString getForwardString o).
Local Abbreviation run_attempts :=
  (run_attempts getDomainString getClientIPString getForwardString o).
Local Abbreviation loop :=
  (save_loop getDomainString getClientIPString getForwardString o currenttimestamp).

Lemma curl_request_frame i d c w :
  let w' := curl_request o i d c w in
  database w' = database w /\ lastdbindex w' = lastdbindex w /\
  conn w' = conn w /\ txn w' = txn w /\ file w' = file w /\
  queries w' = queries w /\ agg w' = agg w.
Proof.
  unfold curl_request. destruct (o_curl_init o i); [|done].
  destruct (negb _); done.
Qed.

Lemma insert_step_frame i ts ty st d c f w :
  let r := insert_step o i ts ty st d c f w in
  database r.2 = database w /\ lastdbindex r.2 = lastdbindex w /\
  conn r.2 = conn w /\ queries r.2 = queries w /\ agg r.2 = agg w /\
  r.1 = on_conn w (o_step o i).
Proof.
  unfold insert_step. destruct (on_conn w (o_step o i) =? SQLITE_DONE); [|done].
  simpl. destruct (txn w); done.
Qed.

(** What one attempt leaves behind in the variables the scan reads. *)
Lemma save_attempt_shape i q ls w :
  conn w = true ->
  exists c ls' w',
    attempt i q ls w = (c, ls', w') /\ conn w' = true /\
    lastID ls <= lastID ls' /\
    if o_step o i =? SQLITE_DONE
    then c = Continue /\ saved_error ls' = saved_error ls /\
         queries w' = <[i := set_db q (lastID ls + 1)]> (queries w)
    else saved_error ls' = saved_error ls + 1 /\ queries w' = queries w /\
         c = if saved_error ls + 1 <? 3 then Continue else Break.
Proof.
  intros Hc. unfold save_attempt.
  pose proof (curl_request_frame i (getDomainString i) (getClientIPString i) w) as Hq.
  set (w1 := curl_request _ _ _ _ _) in *. simpl in Hq.
  destruct Hq as (_ & _ & Hc1 & _ & _ & Hq1 & _).
  pose proof (insert_step_frame i (to_int (timestamp q)) (type q) (status q)
                (getDomainString i) (getClientIPString i)
                (bound_forward getForwardString q) w1) as Hs.
  destruct (insert_step _ _ _ _ _ _ _ _ _) as [rc w2]. simpl in Hs.
  destruct Hs as (_ & _ & Hc2 & Hq2 & _ & Hrc).
  unfold on_conn in Hrc. rewrite Hc1, Hc in Hrc. subst rc.
  destruct (o_step o i =? SQLITE_DONE); simpl.
  - eexists _, _, _. split; [reflexivity|]. simpl.
    rewrite Hc2, Hc1, Hq2, Hq1. repeat split; auto; lia.
  - destruct (saved_error ls + 1 <? 3); eexists _, _, _;
      (split; [reflexivity|]); simpl; rewrite Hc2, Hc1, Hq2, Hq1;
      repeat split; auto; lia.
Qed.

Lemma run_attempts_cons a l st :
  run_attempts (a :: l) st = run_attempts l (attempt_step st a).
Proof. reflexivity. Qed.

(** The [for] loop does what [scan] says, attempt by attempt. *)
Lemma save_loop_scan fuel : forall i ls w,
  conn w = true ->
  (length (queries w) <= fuel + i)%nat ->
  loop fuel i ls w =
    let '(stop, l) := scan (drop i (queries w)) i (saved_error ls) in
    (stop, (run_attempts l (ls, w)).1, (run_attempts l (ls, w)).2).
Proof.
  induction fuel as [|fuel IH]; intros i ls w Hc Hlen; simpl.
  - rewrite drop_ge by lia. reflexivity.
  - destruct (queries w !! i) as [q|] eqn:Hi.
    2:{ apply lookup_ge_None in Hi. rewrite drop_ge by lia. reflexivity. }
    rewrite (drop_S _ _ _ Hi). simpl. unfold save_body.
    destruct (already_saved q). { apply IH; auto; lia. }
    destruct (young q). { reflexivity. }
    destruct (never_stored q). { apply IH; auto; lia. }
    destruct (save_attempt_shape i q ls w Hc)
      as (c & ls' & w' & Heq & Hc' & _ & Hcase).
    rewrite Heq.
    assert (Hstep : attempt_step (ls, w) (i, q) = (ls', w')).
    { unfold attempt_step. simpl. rewrite Heq. reflexivity. }
    destruct (o_step o i =? SQLITE_DONE).
    + destruct Hcase as (-> & He & Hq).
      rewrite IH; [| assumption | rewrite Hq, length_insert; lia].
      rewrite Hq, drop_insert_lt by lia. rewrite He.
      destruct (scan _ _ _) as [stop l]. rewrite run_attempts_cons, Hstep.
      reflexivity.
    + destruct Hcase as (He & Hq & ->).
      destruct (saved_error ls + 1 <? 3).
      * rewrite IH; [| assumption | rewrite Hq; lia].
        rewrite Hq, He. destruct (scan _ _ _) as [stop l].
        rewrite run_attempts_cons, Hstep. reflexivity.
      * rewrite run_attempts_cons, Hstep. reflexivity.
Qed.

End Scan.

(** ** Steps that only log *)

Lemma quiet_refl w : quiet w w.
Proof.
  repeat split. exists []. simpl. by rewrite app_nil_r.
Qed.

Lemma quiet_trans w1 w2 w3 : quiet w1 w2 -> quiet w2 w3 -> quiet w1 w3.
Proof.
  intros (Hq & Hf & Hl & Ha & Hd & Hc & Hfw & l1 & Ht)
         (Hq' & Hf' & Hl' & Ha' & Hd' & Hc' & Hfw' & l2 & Ht').
  repeat split; try congruence.
  exists (l1 ++ l2). rewrite Ht', Ht, fmap_app. by rewrite app_assoc.
Qed.

Lemma quiet_logg m w x : quiet w x -> quiet w (logg m x).
Proof.
  intros H. apply (quiet_trans _ x); [done|].
  repeat split. exists [m]. reflexivity.
Qed.

Lemma quiet_set_conn b w x : quiet w x -> quiet w (set_conn b x).
Proof.
  intros H. apply (quiet_trans _ x); [done|].
  repeat split. exists []. simpl. by rewrite app_nil_r.
Qed.

Lemma quiet_set_txn t w x : quiet w x -> quiet w (set_txn t x).
Proof.
  intros H. apply (quiet_trans _ x); [done|].
  repeat split. exists []. simpl. by rewrite app_nil_r.
Qed.

Lemma quiet_set_database b w x : quiet w x -> quiet w (set_database b x).
Proof.
  intros H. apply (quiet_trans _ x); [done|].
  repeat split. exists []. simpl. by rewrite app_nil_r.
Qed.

Lemma quiet_dbclose w x : quiet w x -> quiet w (dbclose x).
Proof. intros H. unfold dbclose. by apply quiet_set_conn, quiet_set_txn. Qed.

Lemma quiet_check_database rc w x : quiet w x -> quiet w (check_database rc x).
Proof.
  intros H. unfold check_database.
  destruct (_ && _); [|done]. by apply quiet_set_database, quiet_logg.
Qed.

Create HintDb quiet.

#[local] Hint Resolve quiet_refl quiet_logg quiet_set_conn quiet_set_txn
  quiet_set_database quiet_dbclose quiet_check_database : quiet.

Lemma quiet_posts w w' : quiet w w' -> posts (trace w') = posts (trace w).
Proof.
  intros (_ & _ & _ & _ & _ & _ & _ & l & ->). unfold posts.
  rewrite omap_app. induction l as [|m l IH]; simpl in *; [by rewrite app_nil_r|done].
Qed.

Lemma quiet_inserted w w' : quiet w w' -> inserted (trace w') = inserted (trace w).
Proof.
  intros (_ & _ & _ & _ & _ & _ & _ & l & ->). unfold inserted.
  rewrite omap_app. induction l as [|m l IH]; simpl in *; [by rewrite app_nil_r|done].
Qed.

Lemma conn_check_database rc w : conn (check_database rc w) = conn w.
Proof. unfold check_database. by destruct (_ && _). Qed.

Lemma txn_check_database rc w : txn (check_database rc w) = txn w.
Proof. unfold check_database. by destruct (_ && _). Qed.

(** ** Before the loop *)

Section Prologue.

Variable config : ConfigStruct.
Variable o : save_oracle.

Lemma save_prologue_ready w :
  store_ready o = true ->
  save_prologue config o w = inr ((lastID (locals0 w)), loop_entry config w).
Proof.
  unfold store_ready. rewrite !andb_true_iff.
  intros ((((H1 & H2) & H3) & H4) & H5).
  unfold save_prologue, dbopen, last_ID_in_DB, dbquery, on_conn, loop_entry.
  rewrite H1. simpl. rewrite H2, H3. simpl.
  destruct (debug_database config); simpl; rewrite H4; simpl; rewrite H5; simpl;
    unfold visible_rows; simpl; rewrite app_nil_r; reflexivity.
Qed.

Lemma save_prologue_not_ready w :
  store_ready o = false ->
  exists w', save_prologue config o w = inl w' /\ quiet w w'.
Proof.
  unfold store_ready, save_prologue, dbopen, last_ID_in_DB, dbquery, on_conn.
  intros Hr.
  destruct (o_open o =? 0) eqn:E1; simpl.
  2:{ eexists. split; [reflexivity|]. auto 10 with quiet. }
  destruct (o_lastid_prepare o =? 0) eqn:E2; simpl.
  2:{ destruct (debug_database config); simpl;
        rewrite conn_check_database; simpl;
        (eexists; split; [reflexivity|]); auto 20 with quiet. }
  destruct (o_lastid_step o =? SQLITE_ROW) eqn:E3; simpl.
  2:{ destruct (debug_database config); simpl;
        rewrite conn_check_database; simpl;
        (eexists; split; [reflexivity|]); auto 20 with quiet. }
  destruct (o_begin o =? SQLITE_OK) eqn:E4; simpl in Hr.
  2:{ destruct (debug_database config); simpl; rewrite E4; simpl;
        (eexists; split; [reflexivity|]); auto 20 with quiet. }
  destruct (o_prepare o =? 0) eqn:E5; [done|].
  destruct (debug_database config); simpl; rewrite E4; simpl; rewrite E5; simpl;
    (eexists; split; [reflexivity|]); auto 20 with quiet.
Qed.

End Prologue.

(** ** One attempt *)

Lemma max_id_snoc l r :
  max_id (l ++ [r]) =
  Some (match max_id l with None => r_id r | Some m => Z.max m (r_id r) end).
Proof.
  induction l as [|x l IH]; simpl; [done|].
  rewrite IH. f_equal. destruct (max_id l); lia.
Qed.

Lemma omap_snoc {A B} (f : A -> option B) l x :
  omap f (l ++ [x]) = omap f l ++ (match f x with Some y => [y] | None => [] end).
Proof. rewrite omap_app. simpl. by destruct (f x). Qed.

Section Attempt.

Variable getDomainString : nat -> string.
Variable getClientIPString : nat -> string.
Variable getForwardString : Z -> string.
Variable o : save_oracle.

Local Abbreviation attempt :=
  (save_attempt getDomainString getClientIPString getForwardString o).
Local Abbreviation row_of :=
  (bound_row getDomainString getClientIPString getForwardString).
Local Abbreviation post := (post_of getDomainString getClientIPString).

Lemma next_rowid_insert w pending r :
  txn w = Some pending ->
  r_id r = next_rowid w ->
  next_rowid (set_txn (Some (pending ++ [r])) w) = next_rowid w + 1.
Proof.
  unfold next_rowid, visible_rows. intros Ht Hr. simpl. rewrite Ht in *. simpl in *.
  rewrite app_assoc, max_id_snoc.
  destruct (max_id (tbl_queries (file w) ++ pending)); simpl in *; lia.
Qed.

Lemma curl_request_posts i (q : queriesData) w :
  posts (trace (curl_request o i (getDomainString i) (getClientIPString i) w)) =
  posts (trace w) ++ (if o_curl_init o i then [post (i, q)] else []) /\
  inserted (trace (curl_request o i (getDomainString i) (getClientIPString i) w)) =
  inserted (trace w).
Proof.
  unfold curl_request, posts, inserted.
  destruct (o_curl_init o i); simpl; [|by rewrite app_nil_r].
  destruct (negb _); simpl; rewrite ?omap_snoc; simpl; rewrite ?app_nil_r; done.
Qed.

Lemma curl_request_names i w :
  let w' := curl_request o i (getDomainString i) (getClientIPString i) w in
  domains w' = domains w /\ clients w' = clients w /\ forwarded w' = forwarded w.
Proof.
  unfold curl_request. destruct (o_curl_init o i); [|done].
  destruct (negb _); done.
Qed.

(** Everything one attempt does, field by field. *)
Lemma save_attempt_step i q ls w pending c ls' w' :
  conn w = true -> txn w = Some pending ->
  attempt i q ls w = (c, ls', w') ->
  (conn w' = true /\ database w' = database w /\ lastdbindex w' = lastdbindex w /\
   file w' = file w /\ agg w' = agg w /\ domains w' = domains w /\
   clients w' = clients w /\ forwarded w' = forwarded w) /\
  posts (trace w') =
    posts (trace w) ++ (if o_curl_init o i then [post (i, q)] else []) /\
  if step_ok o (i, q) then
    let r := row_of (next_rowid w) (i, q) in
    txn w' = Some (pending ++ [r]) /\
    next_rowid w' = next_rowid w + 1 /\
    inserted (trace w') = inserted (trace w) ++ [(i, r)] /\
    queries w' = <[i := set_db q (lastID ls + 1)]> (queries w) /\
    ls' = mkLocals (saved ls + 1) (saved_error ls) (lastID ls + 1) (total ls + 1)
            (if is_blocked_status (status q) then blocked ls + 1 else blocked ls)
            (if timestamp q >? newlasttimestamp ls
             then timestamp q else newlasttimestamp ls)
  else
    txn w' = Some pending /\ next_rowid w' = next_rowid w /\
    inserted (trace w') = inserted (trace w) /\
    queries w' = queries w /\
    ls' = mkLocals (saved ls) (saved_error ls + 1) (lastID ls) (total ls)
            (blocked ls) (newlasttimestamp ls).
Proof.
  intros Hc Ht. unfold save_attempt, step_ok. simpl.
  pose proof (curl_request_frame o i (getDomainString i) (getClientIPString i) w) as Hf.
  pose proof (curl_request_names i w) as (Hn1 & Hn2 & Hn3).
  pose proof (curl_request_posts i q w) as [Hp Hi].
  set (w1 := curl_request _ _ _ _ _) in *. simpl in Hf.
  destruct Hf as (Hf1 & Hf2 & Hf3 & Hf4 & Hf5 & Hf6 & Hf7).
  assert (Hn : next_rowid w1 = next_rowid w).
  { unfold next_rowid, visible_rows. by rewrite Hf4, Hf5. }
  unfold insert_step, on_conn. rewrite Hf3, Hc.
  destruct (o_step o i =? SQLITE_DONE) eqn:Hs; simpl.
  - rewrite Hf4, Ht. simpl. rewrite Hs. simpl. intros [= <- <- <-]. simpl.
    split; [repeat split; congruence|].
    split. { unfold posts in *. rewrite omap_snoc. simpl. by rewrite app_nil_r. }
    unfold bound_row. simpl. rewrite <- Hn.
    split; [done|]. split.
    { set (r := row_of (next_rowid w1) (i, q)).
      change (next_rowid (set_txn (Some (pending ++ [r])) (emit (EvInsert i r) w1))
              = next_rowid (emit (EvInsert i r) w1) + 1).
      apply next_rowid_insert; [simpl; by rewrite Hf4 | done]. }
    split; [|by rewrite Hf6].
    unfold inserted in *. rewrite omap_snoc. simpl. by rewrite <- Hi.
  - rewrite Hs. simpl.
    destruct (saved_error ls + 1 <? 3); intros [= <- <- <-]; simpl;
      (split; [repeat split; congruence|]);
      (split; [|rewrite Hf4, Hf6, <- Hn; repeat split; try done]).
    + unfold posts in *. rewrite omap_snoc. simpl. by rewrite app_nil_r.
    + unfold inserted in *. rewrite omap_snoc. simpl. by rewrite app_nil_r.
    + unfold posts in *. rewrite !omap_snoc. simpl. by rewrite !app_nil_r.
    + unfold inserted in *. rewrite !omap_snoc. simpl. by rewrite !app_nil_r.
Qed.

End Attempt.

(** ** A run of attempts *)

Section Attempts.

Variable getDomainString : nat -> string.
Variable getClientIPString : nat -> string.
Variable getForwardString : Z -> string.
Variable o : save_oracle.

Local Abbreviation attempt :=
  (save_attempt getDomainString getClientIPString getForwardString o).
Local Abbreviation run :=
  (run_attempts getDomainString getClientIPString getForwardString o).
Local Abbreviation row_of :=
  (bound_row getDomainString getClientIPString getForwardString).
Local Abbreviation post := (post_of getDomainString getClientIPString).

Lemma run_cons a l ls w :
  run (a :: l) (ls, w) =
  run l ((attempt a.1 a.2 ls w).1.2, (attempt a.1 a.2 ls w).2).
Proof.
  unfold run_attempts. simpl. unfold attempt_step at 2. simpl.
  by destruct (attempt a.1 a.2 ls w) as [[c ls'] w'].
Qed.

(** The world after the attempts: only the transaction and the trace
    have grown. *)
Lemma run_attempts_world l : forall ls w pending,
  conn w = true -> txn w = Some pending ->
  let w' := (run l (ls, w)).2 in
  let rows := number_rows row_of (next_rowid w) (successes o l) in
  (conn w' = true /\ database w' = database w /\ lastdbindex w' = lastdbindex w /\
   file w' = file w /\ agg w' = agg w /\ domains w' = domains w /\
   clients w' = clients w /\ forwarded w' = forwarded w) /\
  txn w' = Some (pending ++ rows.*2) /\
  posts (trace w') = posts (trace w) ++ (post <$> posted o l) /\
  inserted (trace w') = inserted (trace w) ++ rows.
Proof.
  induction l as [|[i q] l IH]; intros ls w pending Hc Ht.
  - simpl. rewrite !app_nil_r. by repeat split.
  - cbv zeta. rewrite run_cons. simpl fst. simpl snd.
    destruct (attempt i q ls w) as [[c ls1] w1] eqn:Ha. simpl fst. simpl snd.
    destruct (save_attempt_step _ _ _ _ _ _ _ _ _ _ _ _ Hc Ht Ha)
      as ((Hc1 & Hd1 & Hl1 & Hf1 & Ha1 & Hdo1 & Hcl1 & Hfo1) & Hp1 & Hcase).
    assert (Hpost : (if o_curl_init o i then [post (i, q)] else []) ++
                    (post <$> posted o l) = post <$> posted o ((i, q) :: l)).
    { unfold posted. rewrite filter_cons.
      destruct (decide (o_curl_init o (i, q).1 = true)) as [Hi|Hi]; simpl in Hi.
      - by rewrite Hi.
      - apply not_true_is_false in Hi. by rewrite Hi. }
    rewrite <- Hpost. clear Hpost.
    unfold successes. rewrite filter_cons.
    destruct (decide (step_ok o (i, q) = true)) as [Hs|Hs].
    + rewrite Hs in Hcase. destruct Hcase as (Ht1 & Hn1 & Hi1 & _).
      destruct (IH ls1 w1 _ Hc1 Ht1) as ((? & ? & ? & ? & ? & ? & ? & ?) & Ht2 & Hp2 & Hi2).
      split; [repeat split; congruence|]. unfold successes in *.
      rewrite Ht2, Hp2, Hi2, Hp1, Hi1, Hn1. simpl. rewrite <- !app_assoc. done.
    + apply not_true_is_false in Hs.
      rewrite Hs in Hcase. destruct Hcase as (Ht1 & Hn1 & Hi1 & _).
      destruct (IH ls1 w1 _ Hc1 Ht1) as ((? & ? & ? & ? & ? & ? & ? & ?) & Ht2 & Hp2 & Hi2).
      split; [repeat split; congruence|]. unfold successes in *.
      rewrite Ht2, Hp2, Hi2, Hp1, Hi1, Hn1. rewrite <- ?app_assoc. done.
Qed.

(** The counters of the loop after the attempts. *)
Lemma run_attempts_locals l : forall ls w pending,
  conn w = true -> txn w = Some pending ->
  let ls' := (run l (ls, w)).1 in
  let n := Z.of_nat (length (successes o l)) in
  saved ls' = saved ls + n /\
  saved_error ls' = saved_error ls + (Z.of_nat (length l) - n) /\
  lastID ls' = lastID ls + n /\
  total ls' = total ls + n /\
  blocked ls' = blocked ls + Z.of_nat (length (blocked_rows (successes o l))) /\
  newlasttimestamp ls' = max_timestamp (newlasttimestamp ls) (successes o l).
Proof.
  induction l as [|[i q] l IH]; intros ls w pending Hc Ht; cbv zeta.
  - simpl. repeat split; lia.
  - rewrite run_cons. simpl fst. simpl snd.
    destruct (attempt i q ls w) as [[c ls1] w1] eqn:Ha. simpl fst. simpl snd.
    destruct (save_attempt_step _ _ _ _ _ _ _ _ _ _ _ _ Hc Ht Ha)
      as ((Hc1 & _) & _ & Hcase).
    unfold successes in *. rewrite filter_cons.
    destruct (decide (step_ok o (i, q) = true)) as [Hs|Hs].
    + rewrite Hs in Hcase. destruct Hcase as (Ht1 & _ & _ & _ & Hls1).
      destruct (IH ls1 w1 _ Hc1 Ht1) as (-> & -> & -> & -> & -> & ->).
      rewrite Hls1. unfold blocked_rows. rewrite filter_cons.
      destruct (decide (is_blocked_status (status (i, q).2) = true)) as [Hb|Hb];
        simpl in Hb; [|apply not_true_is_false in Hb]; rewrite Hb; simpl;
        repeat split; lia.
    + apply not_true_is_false in Hs.
      rewrite Hs in Hcase. destruct Hcase as (Ht1 & _ & _ & _ & Hls1).
      destruct (IH ls1 w1 _ Hc1 Ht1) as (-> & -> & -> & -> & -> & ->).
      rewrite Hls1. simpl. repeat split; lia.
Qed.

(** The log after the attempts: untouched except at the indices of
    the successful ones, which carry a marker above the old [lastID]. *)
Lemma run_attempts_queries l : forall ls w pending,
  conn w = true -> txn w = Some pending ->
  let st := run l (ls, w) in
  length (queries st.2) = length (queries w) /\
  (forall j, j ∉ (successes o l).*1 -> queries st.2 !! j = queries w !! j) /\
  (forall j, j ∈ (successes o l).*1 -> (j < length (queries w))%nat ->
     exists q k, queries st.2 !! j = Some (set_db q k) /\
                 lastID ls < k <= lastID st.1).
Proof.
  induction l as [|[i q] l IH]; intros ls w pending Hc Ht; cbv zeta.
  - simpl. split; [done|]. split; [done|]. intros j Hj. by apply elem_of_nil in Hj.
  - pose proof (run_attempts_locals ((i, q) :: l) ls w pending Hc Ht) as HL.
    cbv zeta in HL. destruct HL as (_ & _ & HL & _).
    rewrite run_cons in *. simpl fst in *. simpl snd in *.
    destruct (attempt i q ls w) as [[c ls1] w1] eqn:Ha. simpl fst in *. simpl snd in *.
    destruct (save_attempt_step _ _ _ _ _ _ _ _ _ _ _ _ Hc Ht Ha)
      as ((Hc1 & _) & _ & Hcase).
    unfold successes in *. rewrite filter_cons in *.
    destruct (decide (step_ok o (i, q) = true)) as [Hs|Hs].
    + rewrite Hs in Hcase. destruct Hcase as (Ht1 & _ & _ & Hq1 & Hls1).
      destruct (IH ls1 w1 _ Hc1 Ht1) as (Hlen & Hout & Hin).
      pose proof (run_attempts_locals l ls1 w1 _ Hc1 Ht1) as HL1.
      cbv zeta in HL1. destruct HL1 as (_ & _ & HL1 & _).
      unfold successes in *.
      assert (Hid : lastID ls1 = lastID ls + 1) by (by rewrite Hls1).
      rewrite Hq1, length_insert in *.
      split; [done|]. split.
      * intros j Hj. rewrite fmap_cons, not_elem_of_cons in Hj. simpl in Hj.
        destruct Hj as [Hji Hj]. rewrite (Hout j Hj).
        by apply list_lookup_insert_ne.
      * intros j Hj Hlt.
        destruct (decide (j ∈ (filter (fun a => step_ok o a = true) l).*1)) as [Hjl|Hjl].
        -- destruct (Hin j Hjl Hlt) as (q' & k & Hlk & Hk).
           exists q', k. split; [done|]. lia.
        -- rewrite fmap_cons, elem_of_cons in Hj. simpl in Hj.
           destruct Hj as [->|Hj]; [|done].
           exists q, (lastID ls + 1). rewrite (Hout i Hjl).
           split; [by apply list_lookup_insert_eq|]. lia.
    + apply not_true_is_false in Hs.
      rewrite Hs in Hcase. destruct Hcase as (Ht1 & _ & _ & Hq1 & Hls1).
      destruct (IH ls1 w1 _ Hc1 Ht1) as (Hlen & Hout & Hin).
      assert (Hid : lastID ls1 = lastID ls) by (by rewrite Hls1).
      rewrite Hq1 in *. split; [done|]. split; [done|].
      intros j Hj Hlt. destruct (Hin j Hj Hlt) as (q' & k & Hlk & Hk).
      exists q', k. split; [done|]. lia.
Qed.

End Attempts.

(** ** The scan and the planned batch *)

Lemma index_list_cons i q qs :
  index_list i (q :: qs) = (i, q) :: index_list (S i) qs.
Proof. reflexivity. Qed.

Lemma indexed_from_index_list start qs :
  indexed_from start qs = index_list start (drop start qs).
Proof.
  unfold indexed_from, index_list.
  rewrite zip_with_drop, drop_seq, length_drop. reflexivity.
Qed.

Lemma upto_failures_nil ok n : upto_failures ok n [] = [].
Proof. by destruct n. Qed.

Section ScanPlan.

Variable o : save_oracle.
Variable now : Z.

Lemma plan_from_cons i q qs :
  plan_from now i (q :: qs) =
  if deferred now q then []
  else if eligible q then (i, q) :: plan_from now (S i) qs
       else plan_from now (S i) qs.
Proof.
  unfold plan_from. rewrite index_list_cons. simpl.
  destruct (deferred now q); [done|].
  rewrite filter_cons.
  destruct (decide (eligible (i, q).2 = true)) as [He|He]; simpl in He.
  - by rewrite He.
  - apply not_true_is_false in He. by rewrite He.
Qed.

Lemma scan_plan qs : forall i e,
  0 <= e < 3 ->
  (scan o now qs i e).2 =
  upto_failures (step_ok o) (Z.to_nat (3 - e)) (plan_from now i qs).
Proof.
  induction qs as [|q qs IH]; intros i e He.
  - change (plan_from now i []) with (@nil (nat * queriesData)).
    by rewrite upto_failures_nil.
  - simpl. rewrite plan_from_cons.
    unfold already_saved, too_young, never_stored, deferred, eligible.
    destruct (db q =? 0); simpl; [|apply IH; lia].
    destruct (negb (complete q) && (timestamp q >? now - 2)); simpl.
    { by destruct (Z.to_nat (3 - e)). }
    assert (Hp : (privacylevel q >=? PRIVACY_MAXIMUM) =
                 negb (privacylevel q <? PRIVACY_MAXIMUM))
      by (rewrite Z.geb_leb; apply Z.leb_antisym).
    rewrite Hp. clear Hp.
    destruct (privacylevel q <? PRIVACY_MAXIMUM); simpl; [|apply IH; lia].
    destruct (Z.to_nat (3 - e)) as [|n] eqn:Hn; [lia|]. simpl.
    unfold step_ok at 1. simpl.
    destruct (o_step o i =? SQLITE_DONE).
    + specialize (IH (S i) e He). rewrite Hn in IH.
      destruct (scan _ _ _ _ _) as [stop l]. simpl in *. by rewrite IH.
    + destruct (e + 1 <? 3) eqn:He1.
      * apply Z.ltb_lt in He1.
        specialize (IH (S i) (e + 1) ltac:(lia)).
        replace (Z.to_nat (3 - (e + 1))) with n in IH by lia.
        destruct (scan _ _ _ _ _) as [stop l]. simpl in *. by rewrite IH.
      * apply Z.ltb_ge in He1. replace n with 0%nat by lia. by destruct (plan_from _ _ _).
Qed.

Lemma plan_from_elem qs : forall i j q,
  (j, q) ∈ plan_from now i qs ->
  (i <= j)%nat /\ qs !! (j - i)%nat = Some q /\ eligible q = true.
Proof.
  induction qs as [|q0 qs IH]; intros i j q.
  - intros H. by apply elem_of_nil in H.
  - rewrite plan_from_cons. destruct (deferred now q0).
    { intros H. by apply elem_of_nil in H. }
    assert (Htl : (j, q) ∈ plan_from now (S i) qs ->
                  (i <= j)%nat /\ (q0 :: qs) !! (j - i)%nat = Some q /\ eligible q = true).
    { intros H. destruct (IH _ _ _ H) as (Hle & Hl & He).
      split; [lia|]. split; [|done].
      replace (j - i)%nat with (S (j - S i)) by lia. done. }
    destruct (eligible q0) eqn:He0; [|done].
    rewrite elem_of_cons. intros [[= -> ->]|H]; [|auto].
    split; [lia|]. split; [|done]. by rewrite Nat.sub_diag.
Qed.

Lemma plan_from_NoDup qs : forall i, NoDup (plan_from now i qs).*1.
Proof.
  induction qs as [|q0 qs IH]; intros i.
  - constructor.
  - rewrite plan_from_cons. destruct (deferred now q0); [constructor|].
    destruct (eligible q0); [|apply IH].
    rewrite fmap_cons. constructor; [|apply IH]. simpl.
    intros Hin. apply list_elem_of_fmap in Hin as ([j q] & Hj & Hin).
    simpl in Hj. subst j. apply plan_from_elem in Hin. lia.
Qed.

Lemma upto_failures_prefix ok n l : exists k, upto_failures ok n l = take k l.
Proof.
  revert n. induction l as [|a l IH]; intros n.
  - exists 0%nat. by rewrite upto_failures_nil.
  - destruct n as [|n]; [by exists 0%nat|]. simpl.
    destruct (ok a).
    + destruct (IH (S n)) as [k Hk]. exists (S k). simpl. by rewrite Hk.
    + destruct (IH n) as [k Hk]. exists (S k). simpl. by rewrite Hk.
Qed.

(** The attempts of a scan are eligible records of the log, each at
    its own index, no index twice. *)
Lemma scan_attempts qs i e :
  0 <= e < 3 ->
  NoDup (scan o now qs i e).2.*1 /\
  forall j q, (j, q) ∈ (scan o now qs i e).2 ->
    (i <= j)%nat /\ qs !! (j - i)%nat = Some q /\ eligible q = true.
Proof.
  intros He. rewrite scan_plan by done.
  destruct (upto_failures_prefix (step_ok o) (Z.to_nat (3 - e)) (plan_from now i qs))
    as [k ->].
  split.
  - rewrite fmap_take. eapply sublist_NoDup; [apply plan_from_NoDup|apply sublist_take].
  - intros j q Hin. apply (plan_from_elem qs i j q).
    by apply subseteq_take in Hin.
Qed.

Lemma failures_cons a l :
  failures o (a :: l) = failures o l + (if step_ok o a then 0 else 1).
Proof.
  unfold failures, successes. rewrite filter_cons.
  destruct (decide (step_ok o a = true)) as [H|H].
  - rewrite H. simpl length. lia.
  - apply not_true_is_false in H. rewrite H. simpl length. lia.
Qed.

Lemma failures_nonneg l : 0 <= failures o l.
Proof.
  unfold failures, successes.
  pose proof (length_filter (fun a => step_ok o a = true) l). lia.
Qed.

(** Where the scan stops: at the first deferred record (or the end of
    the log) while fewer than three insertions have failed, at the
    third failed insertion otherwise. *)
Lemma scan_stop qs : forall i e,
  0 <= e < 3 ->
  let r := scan o now qs i e in
  e + failures o r.2 <= 3 /\
  (e + failures o r.2 < 3 ->
   r.1 = (i + length (take_until (fun a => deferred now a.2) (index_list i qs)))%nat) /\
  (e + failures o r.2 = 3 ->
   exists q, last r.2 = Some (r.1, q) /\ step_ok o (r.1, q) = false).
Proof.
  induction qs as [|q qs IH]; intros i e He; cbv zeta.
  - simpl. unfold failures. simpl. split; [lia|]. split; [lia|]. lia.
  - simpl scan. rewrite index_list_cons. simpl take_until. simpl snd.
    assert (Hskip :
      let r := scan o now qs (S i) e in
      e + failures o r.2 <= 3 /\
      (e + failures o r.2 < 3 ->
       r.1 = (i + length ((i, q) ::
                take_until (fun a => deferred now a.2) (index_list (S i) qs)))%nat) /\
      (e + failures o r.2 = 3 ->
       exists q, last r.2 = Some (r.1, q) /\ step_ok o (r.1, q) = false)).
    { cbv zeta. destruct (IH (S i) e He) as (H1 & H2 & H3).
      split; [done|]. split; [|done]. intros H. rewrite (H2 H). simpl. lia. }
    cbv zeta in Hskip.
    assert (Hd : deferred now q = (db q =? 0) && too_young now q)
      by (unfold deferred, too_young; by rewrite andb_assoc).
    rewrite Hd. clear Hd. unfold already_saved.
    destruct (db q =? 0); simpl; [|done].
    destruct (too_young now q); simpl.
    { unfold failures. simpl. split; [lia|]. split; [lia|]. lia. }
    destruct (never_stored q); [done|].
    destruct (o_step o i =? SQLITE_DONE) eqn:Hs.
    + assert (Hok : step_ok o (i, q) = true) by done.
      destruct (scan o now qs (S i) e) as [stop l] eqn:Hsc.
      simpl fst in *. simpl snd in *.
      rewrite failures_cons, Hok, Z.add_0_r. destruct Hskip as (H1 & H2 & H3).
      split; [done|]. split; [done|].
      intros H. destruct (H3 H) as (q' & Hl & Hq'). exists q'.
      split; [|done]. rewrite last_cons, Hl. done.
    + assert (Hok : step_ok o (i, q) = false) by done.
      destruct (e + 1 <? 3) eqn:He1.
      * apply Z.ltb_lt in He1.
        destruct (IH (S i) (e + 1) ltac:(lia)) as (H1 & H2 & H3).
        destruct (scan o now qs (S i) (e + 1)) as [stop l] eqn:Hsc.
        simpl fst in *. simpl snd in *.
        rewrite failures_cons, Hok.
        split; [lia|]. split.
        -- intros H. rewrite H2 by lia. simpl. lia.
        -- intros H. destruct H3 as (q' & Hl & Hq'); [lia|]. exists q'.
           split; [|done]. rewrite last_cons, Hl. done.
      * apply Z.ltb_ge in He1. simpl fst. simpl snd. rewrite failures_cons, Hok.
        unfold failures. simpl.
        split; [lia|]. split; [lia|]. intros _. exists q. split; done.
Qed.

End ScanPlan.

(** ** After the loop *)

Lemma check_database_frame rc w :
  let w' := check_database rc w in
  queries w' = queries w /\ file w' = file w /\ lastdbindex w' = lastdbindex w /\
  agg w' = agg w /\ domains w' = domains w /\ clients w' = clients w /\
  forwarded w' = forwarded w /\ posts (trace w') = posts (trace w) /\
  inserted (trace w') = inserted (trace w).
Proof.
  unfold check_database. destruct (_ && _); simpl; [|by repeat split].
  unfold posts, inserted. rewrite !omap_snoc. simpl. rewrite !app_nil_r.
  by repeat split.
Qed.

Lemma logg_observe m w :
  posts (trace (logg m w)) = posts (trace w) /\
  inserted (trace (logg m w)) = inserted (trace w).
Proof.
  unfold posts, inserted. simpl. rewrite !omap_snoc. simpl.
  by rewrite !app_nil_r.
Qed.

(** What [dbquery] leaves behind: the statement's effect on the file
    and the transaction when SQLite accepted it, log lines otherwise. *)
Lemma dbquery_proj config rc q w :
  let r := dbquery config rc q w in
  r.1 = (on_conn w rc =? SQLITE_OK) /\
  (conn r.2 = conn w /\ queries r.2 = queries w /\
   lastdbindex r.2 = lastdbindex w /\ agg r.2 = agg w /\
   domains r.2 = domains w /\ clients r.2 = clients w /\
   forwarded r.2 = forwarded w /\
   posts (trace r.2) = posts (trace w) /\
   inserted (trace r.2) = inserted (trace w)) /\
  file r.2 = (if r.1 then file (sql_exec q w) else file w) /\
  txn r.2 = (if r.1 then txn (sql_exec q w) else txn w).
Proof.
  unfold dbquery.
  set (w0 := if debug_database config then logg (LogQuery q) w else w).
  assert (H0 : conn w0 = conn w /\ queries w0 = queries w /\
               lastdbindex w0 = lastdbindex w /\ agg w0 = agg w /\
               domains w0 = domains w /\ clients w0 = clients w /\
               forwarded w0 = forwarded w /\
               posts (trace w0) = posts (trace w) /\
               inserted (trace w0) = inserted (trace w) /\
               file w0 = file w /\ txn w0 = txn w).
  { unfold w0. destruct (debug_database config); [|by repeat split].
    destruct (logg_observe (LogQuery q) w). by repeat split. }
  destruct H0 as (Hc & Hq & Hl & Ha & Hd & Hcl & Hf & Hp & Hi & Hfi & Ht).
  cbv zeta. unfold on_conn. rewrite Hc.
  destruct ((if conn w then rc else SQLITE_MISUSE) =? SQLITE_OK); simpl.
  - split; [done|].
    assert (Hx : file (sql_exec q w0) = file (sql_exec q w) /\
                 txn (sql_exec q w0) = txn (sql_exec q w)).
    { destruct q; simpl; rewrite ?Hfi, ?Ht; try done.
      destruct (txn w) eqn:E; simpl; rewrite ?Hfi, ?Ht, ?E; done. }
    destruct Hx as [-> ->]. split; [|done].
    destruct q; simpl; try (by repeat split).
    destruct (txn w0); simpl; by repeat split.
  - split; [done|].
    pose proof (check_database_frame (if conn w then rc else SQLITE_MISUSE)
      (logg (LogQueryFailed q (if conn w then rc else SQLITE_MISUSE)) w0)) as HF.
    cbv zeta in HF. destruct HF as (? & ? & ? & ? & ? & ? & ? & Hp' & Hi').
    destruct (logg_observe (LogQueryFailed q (if conn w then rc else SQLITE_MISUSE)) w0)
      as [Hp'' Hi''].
    rewrite conn_check_database, txn_check_database. simpl in *.
    repeat split; congruence.
Qed.

Lemma same_memory_refl w : same_memory w w.
Proof. by repeat split. Qed.

Lemma same_memory_trans w1 w2 w3 :
  same_memory w1 w2 -> same_memory w2 w3 -> same_memory w1 w3.
Proof.
  intros (? & ? & ? & ? & ? & ? & ?) (? & ? & ? & ? & ? & ? & ?).
  repeat split; congruence.
Qed.

Lemma quiet_same_memory w w' : quiet w w' -> same_memory w w'.
Proof.
  intros H. pose proof (quiet_posts _ _ H). pose proof (quiet_inserted _ _ H).
  destruct H as (? & ? & ? & ? & ? & ? & ? & _). by repeat split.
Qed.

Lemma same_memory_dbquery config rc q w :
  same_memory w (dbquery config rc q w).2.
Proof.
  pose proof (dbquery_proj config rc q w) as H. cbv zeta in H.
  destruct H as (_ & (? & ? & ? & ? & ? & ? & ? & ? & ?) & _). by repeat split.
Qed.

Lemma db_update_counters_proj config rc1 rc2 t b w :
  conn w = true ->
  let r := db_update_counters config rc1 rc2 t b w in
  same_memory w r.2 /\ conn r.2 = true /\ lastdbindex r.2 = lastdbindex w /\
  tbl_queries (file r.2) = tbl_queries (file w) /\
  tbl_ftl (file r.2) = tbl_ftl (file w) /\
  tbl_counters (file r.2) = updated_counters rc1 rc2 t b (tbl_counters (file w)).
Proof.
  intros Hc. unfold db_update_counters, updated_counters.
  pose proof (dbquery_proj config rc1 (SqlUpdateCounter t DB_TOTALQUERIES) w) as H1.
  pose proof (same_memory_dbquery config rc1 (SqlUpdateCounter t DB_TOTALQUERIES) w) as M1.
  destruct (dbquery config rc1 _ w) as [r1 w1]. cbv zeta in H1. simpl in H1, M1.
  destruct H1 as (Hr1 & (Hc1 & _ & Hl1 & _) & Hf1 & _).
  unfold on_conn in Hr1. rewrite Hc in Hr1. subst r1.
  destruct (rc1 =? SQLITE_OK); simpl.
  2:{ rewrite Hf1. split; [done|]. repeat split; congruence. }
  pose proof (dbquery_proj config rc2 (SqlUpdateCounter b DB_BLOCKEDQUERIES) w1) as H2.
  pose proof (same_memory_dbquery config rc2 (SqlUpdateCounter b DB_BLOCKEDQUERIES) w1) as M2.
  destruct (dbquery config rc2 _ w1) as [r2 w2]. cbv zeta in H2. simpl in H2, M2.
  destruct H2 as (Hr2 & (Hc2 & _ & Hl2 & _) & Hf2 & _).
  unfold on_conn in Hr2. rewrite Hc1, Hc in Hr2. subst r2.
  pose proof (same_memory_trans _ _ _ M1 M2) as M.
  destruct (rc2 =? SQLITE_OK); simpl; rewrite Hf2, ?Hf1; simpl;
    (split; [done|]); repeat split; congruence.
Qed.

Section Epilogue.

Variable config : ConfigStruct.
Variable o : save_oracle.

Lemma same_memory_final_logs ls w0 w :
  same_memory w0 (dbclose w) ->
  same_memory w0
    (if debug_database config
     then (if saved_error ls >? 0
           then logg LogNotAllSaved (logg (LogStored (saved ls) (lastID ls)) (dbclose w))
           else logg (LogStored (saved ls) (lastID ls)) (dbclose w))
     else dbclose w).
Proof.
  intros H. destruct (debug_database config); [|done].
  eapply same_memory_trans; [exact H|]. apply quiet_same_memory.
  destruct (saved_error ls >? 0); auto with quiet.
Qed.

(** The end of [save_to_DB]: what is committed, where the cursor goes,
    which property and counters are written. *)
Lemma save_epilogue_spec i ls w pending :
  conn w = true -> txn w = Some pending ->
  let w' := save_epilogue config o i ls w in
  same_memory w w' /\
  lastdbindex w' =
    (if commit_ok o && (saved ls >? 0) && (saved_error ls =? 0)
     then Z.of_nat i else lastdbindex w) /\
  tbl_queries (file w') =
    (if o_end o =? SQLITE_OK then tbl_queries (file w) ++ pending
     else tbl_queries (file w)) /\
  tbl_ftl (file w') =
    (if commit_ok o && (saved ls >? 0) && (saved_error ls =? 0) &&
        (o_setprop o =? SQLITE_OK)
     then <[DB_LASTTIMESTAMP := to_int (newlasttimestamp ls)]> (tbl_ftl (file w))
     else tbl_ftl (file w)) /\
  tbl_counters (file w') =
    (if commit_ok o && (saved ls >? 0)
     then updated_counters (o_upd_total o) (o_upd_blocked o) (total ls) (blocked ls)
            (tbl_counters (file w))
     else tbl_counters (file w)).
Proof.
  intros Hc Ht. unfold save_epilogue, commit_ok.
  pose proof (dbquery_proj config (o_end o) SqlEnd w) as H1.
  pose proof (same_memory_dbquery config (o_end o) SqlEnd w) as M1.
  destruct (dbquery config (o_end o) SqlEnd w) as [r1 w1]. cbv zeta in H1.
  simpl in H1, M1. rewrite Ht in H1. simpl in H1.
  destruct H1 as (Hr1 & (Hc1 & _ & Hl1 & _) & Hf1 & Ht1).
  unfold on_conn in *. rewrite Hc in Hr1. subst r1. rewrite Hc1, Hc.
  destruct (o_end o =? SQLITE_OK) eqn:E1; simpl.
  2:{ rewrite Hf1. split; [|by repeat split].
      eapply same_memory_trans; [exact M1|]. apply quiet_same_memory.
      auto with quiet. }
  destruct (o_finalize o =? SQLITE_OK) eqn:E2; simpl.
  2:{ rewrite Hf1. simpl. split; [|by repeat split].
      eapply same_memory_trans; [exact M1|]. apply quiet_same_memory.
      auto with quiet. }
  set (w2 := if (saved ls >? 0) && (saved_error ls =? 0)
             then (db_set_FTL_property config (o_setprop o) DB_LASTTIMESTAMP
                     (to_int (newlasttimestamp ls))
                     (set_lastdbindex (Z.of_nat i) w1)).2
             else w1).
  assert (H2 : same_memory w w2 /\ conn w2 = true /\
               lastdbindex w2 = (if (saved ls >? 0) && (saved_error ls =? 0)
                                 then Z.of_nat i else lastdbindex w) /\
               tbl_queries (file w2) = tbl_queries (file w) ++ pending /\
               tbl_counters (file w2) = tbl_counters (file w) /\
               tbl_ftl (file w2) =
                 (if (saved ls >? 0) && (saved_error ls =? 0) &&
                     (o_setprop o =? SQLITE_OK)
                  then <[DB_LASTTIMESTAMP := to_int (newlasttimestamp ls)]>
                         (tbl_ftl (file w))
                  else tbl_ftl (file w))).
  { unfold w2. destruct ((saved ls >? 0) && (saved_error ls =? 0)); simpl.
    2:{ rewrite Hf1. simpl. split; [exact M1|]. repeat split; congruence. }
    unfold db_set_FTL_property.
    pose proof (dbquery_proj config (o_setprop o)
      (SqlSetProperty DB_LASTTIMESTAMP (to_int (newlasttimestamp ls)))
      (set_lastdbindex (Z.of_nat i) w1)) as H.
    pose proof (same_memory_dbquery config (o_setprop o)
      (SqlSetProperty DB_LASTTIMESTAMP (to_int (newlasttimestamp ls)))
      (set_lastdbindex (Z.of_nat i) w1)) as M.
    destruct (dbquery config (o_setprop o) _ _) as [r w3]. cbv zeta in H.
    simpl in H, M. destruct H as (Hr & (Hc3 & _ & Hl3 & _) & Hf3 & _).
    unfold on_conn in Hr. simpl in Hr. rewrite Hc1, Hc in Hr. subst r.
    split. { eapply same_memory_trans; [exact M1|]. exact M. }
    simpl. split; [congruence|]. split; [done|].
    destruct (o_setprop o =? SQLITE_OK); rewrite Hf3, Hf1; simpl; done. }
  clearbody w2. destruct H2 as (M2 & Hc2 & Hl2 & Hq2 & Hcn2 & Hp2).
  destruct (saved ls >? 0) eqn:E3; simpl in *.
  - pose proof (db_update_counters_proj config (o_upd_total o) (o_upd_blocked o)
                  (total ls) (blocked ls) w2 Hc2) as H3.
    destruct (db_update_counters config _ _ _ _ w2) as [r3 w3]. cbv zeta in H3.
    simpl in H3. destruct H3 as (M3 & Hc3 & Hl3 & Hq3 & Hp3 & Hcn3).
    assert (M : same_memory w (dbclose w3)).
    { eapply same_memory_trans; [exact M2|].
      eapply same_memory_trans; [exact M3|]. apply quiet_same_memory.
      auto with quiet. }
    destruct r3; simpl.
    + split. { apply same_memory_final_logs. exact M. }
      destruct (debug_database config); [destruct (saved_error ls >? 0)|]; simpl;
        rewrite ?Hq3, ?Hp3, ?Hcn3, ?Hl3; repeat split; congruence.
    + split; [exact M|]. simpl.
      rewrite ?Hq3, ?Hp3, ?Hcn3, ?Hl3; repeat split; congruence.
  - assert (M : same_memory w (dbclose w2)).
    { eapply same_memory_trans; [exact M2|]. apply quiet_same_memory.
      auto with quiet. }
    split. { apply same_memory_final_logs. exact M. }
    destruct (debug_database config); [destruct (saved_error ls >? 0)|]; simpl;
      repeat split; congruence.
Qed.

End Epilogue.

(** ** One call of save_to_DB *)

Section Flush.

Variable config : ConfigStruct.
Variable getDomainString : nat -> string.
Variable getClientIPString : nat -> string.
Variable getForwardString : Z -> string.
Variable o : save_oracle.
Variable now : Z.

Local Abbreviation flush :=
  (save_to_DB config getDomainString getClientIPString getForwardString o now).
Local Abbreviation run :=
  (run_attempts getDomainString getClientIPString getForwardString o).
Local Abbreviation rows_of :=
  (flush_rows getDomainString getClientIPString getForwardString config o now).
Local Abbreviation post := (post_of getDomainString getClientIPString).

Lemma loop_entry_facts w :
  let w0 := loop_entry config w in
  conn w0 = true /\ txn w0 = Some [] /\ file w0 = file w /\
  queries w0 = queries w /\ lastdbindex w0 = lastdbindex w /\
  next_rowid w0 = first_rowid w /\ same_memory w w0.
Proof.
  unfold loop_entry, next_rowid, first_rowid, visible_rows.
  destruct (debug_database config); simpl; rewrite app_nil_r;
    repeat split; try done.
  all: unfold posts, inserted; simpl; rewrite omap_snoc; simpl; by rewrite app_nil_r.
Qed.

Lemma save_to_DB_blocked w :
  flush_blocked config o = true -> quiet w (flush w).
Proof.
  unfold flush_blocked, save_to_DB. intros H.
  destruct (cfg_privacylevel config >=? PRIVACY_NOSTATS); [apply quiet_refl|].
  simpl in H. apply negb_true_iff in H.
  destruct (save_prologue_not_ready config o w H) as (w' & -> & Hq). exact Hq.
Qed.

Lemma save_to_DB_run w :
  flush_blocked config o = false ->
  let r := flush_scan config o now w in
  let st := run r.2 (locals0 w, loop_entry config w) in
  flush w = save_epilogue config o r.1 st.1 st.2.
Proof.
  unfold flush_blocked, save_to_DB, flush_scan. intros H. rewrite H.
  apply orb_false_iff in H as [-> H]. apply negb_false_iff in H.
  rewrite (save_prologue_ready config o w H).
  destruct (loop_entry_facts w) as (Hc & _ & _ & Hq & Hl & _).
  rewrite save_loop_scan; [| exact Hc | lia].
  rewrite Hq, Hl. unfold loop_start. simpl saved_error.
  fold (locals0 w).
  change (mkLocals 0 0 (lastID (locals0 w)) 0 0 0) with (locals0 w).
  cbv zeta. by destruct (scan _ _ _ _ _) as [stop l].
Qed.

Lemma flush_scan_run w :
  flush_blocked config o = false ->
  flush_scan config o now w =
  scan o now (drop (loop_start w) (queries w)) (loop_start w) 0.
Proof. unfold flush_scan, flush_blocked. by intros ->. Qed.

(** The attempts of a flush are records of the log that carry no
    marker yet, each at its own index. *)
Lemma flush_scan_attempts w :
  NoDup (flush_scan config o now w).2.*1 /\
  forall j q, (j, q) ∈ (flush_scan config o now w).2 ->
    (loop_start w <= j)%nat /\ queries w !! j = Some q /\ eligible q = true.
Proof.
  unfold flush_scan. destruct (_ || _).
  { simpl. split; [constructor|]. intros j q H. by apply elem_of_nil in H. }
  destruct (scan_attempts o now (drop (loop_start w) (queries w)) (loop_start w) 0
              ltac:(lia)) as [Hnd Hin].
  split; [done|]. intros j q H. destruct (Hin j q H) as (Hle & Hl & He).
  split; [done|]. split; [|done]. rewrite lookup_drop in Hl.
  by replace (loop_start w + (j - loop_start w))%nat with j in Hl by lia.
Qed.

(** One call of [save_to_DB] whose loop runs, observed from outside. *)
Lemma save_to_DB_summary w :
  flush_blocked config o = false ->
  let r := flush_scan config o now w in
  let succ := successes o r.2 in
  let n := Z.of_nat (length succ) in
  let w' := flush w in
  posts (trace w') = posts (trace w) ++ (post <$> posted o r.2) /\
  inserted (trace w') = inserted (trace w) ++ rows_of w /\
  (agg w' = agg w /\ domains w' = domains w /\ clients w' = clients w /\
   forwarded w' = forwarded w) /\
  (length (queries w') = length (queries w) /\
   (forall j, j ∉ succ.*1 -> queries w' !! j = queries w !! j) /\
   (forall j, j ∈ succ.*1 ->
      exists q k, queries w' !! j = Some (set_db q k) /\ lastID (locals0 w) < k)) /\
  lastdbindex w' =
    (if commit_ok o && (n >? 0) && (failures o r.2 =? 0)
     then Z.of_nat r.1 else lastdbindex w) /\
  tbl_queries (file w') =
    (if o_end o =? SQLITE_OK then tbl_queries (file w) ++ (rows_of w).*2
     else tbl_queries (file w)) /\
  tbl_ftl (file w') =
    (if commit_ok o && (n >? 0) && (failures o r.2 =? 0) &&
        (o_setprop o =? SQLITE_OK)
     then <[DB_LASTTIMESTAMP := to_int (max_timestamp 0 succ)]> (tbl_ftl (file w))
     else tbl_ftl (file w)) /\
  tbl_counters (file w') =
    (if commit_ok o && (n >? 0)
     then updated_counters (o_upd_total o) (o_upd_blocked o) n
            (Z.of_nat (length (blocked_rows succ))) (tbl_counters (file w))
     else tbl_counters (file w)).
Proof.
  intros Hb. cbv zeta. rewrite (save_to_DB_run w Hb). cbv zeta.
  unfold flush_rows.
  pose proof (flush_scan_attempts w) as [_ Hatt].
  destruct (flush_scan config o now w) as [stop l]. simpl fst in *. simpl snd in *.
  destruct (loop_entry_facts w) as (Hc & Ht & Hf & Hq & Hl & Hn & Hm).
  set (w0 := loop_entry config w) in *.
  destruct (run_attempts_world getDomainString getClientIPString getForwardString
              o l (locals0 w) w0 [] Hc Ht)
    as ((Hc1 & _ & Hl1 & Hf1 & _) & Ht1 & Hp1 & Hi1).
  destruct (run_attempts_locals getDomainString getClientIPString getForwardString
              o l (locals0 w) w0 [] Hc Ht)
    as (Hs & He & Hid & Htot & Hblk & Hts).
  destruct (run_attempts_queries getDomainString getClientIPString getForwardString
              o l (locals0 w) w0 [] Hc Ht)
    as (Hlen & Hout & Hin).
  set (st := run l (locals0 w, w0)) in *.
  rewrite Hn in Ht1, Hi1. rewrite app_nil_l in Ht1.
  destruct (save_epilogue_spec config o stop st.1 st.2 _ Hc1 Ht1)
    as (M & Hl2 & Hq2 & Hp2 & Hcn2).
  destruct Hm as (Hm1 & Hm2 & Hm3 & Hm4 & Hm5 & Hm6 & Hm7).
  pose proof (run_attempts_world getDomainString getClientIPString getForwardString
              o l (locals0 w) w0 [] Hc Ht) as ((_ & _ & _ & _ & Ha1 & Hd1 & Hcl1 & Hfo1) & _).
  fold st in Ha1, Hd1, Hcl1, Hfo1.
  destruct M as (M1 & M2 & M3 & M4 & M5 & M6 & M7).
  simpl in Hs, He, Hid, Htot, Hblk, Hts.
  assert (Hfail : saved_error st.1 = failures o l) by (unfold failures; lia).
  split. { rewrite M6, Hp1. f_equal. exact Hm6. }
  split. { rewrite M7, Hi1. f_equal. exact Hm7. }
  split. { repeat split; congruence. }
  split.
  { rewrite M1. split; [congruence|]. split.
    - intros j Hj. rewrite (Hout j Hj). f_equal. exact Hq.
    - intros j Hj.
      assert (Hlt : (j < length (queries w0))%nat).
      { apply list_elem_of_fmap in Hj as ([j' q] & -> & Hj). simpl.
        apply list_elem_of_filter in Hj as [_ Hj].
        destruct (Hatt _ _ Hj) as (_ & Hlk & _).
        apply lookup_lt_Some in Hlk. by rewrite <- Hq in Hlk. }
      destruct (Hin j Hj Hlt) as (q & k & Hlk & Hk). exists q, k.
      split; [done|]. lia. }
  rewrite Hl2, Hq2, Hp2, Hcn2, Hs, Hfail, Htot, Hblk, Hts, Hf1, Hl1, Hf, Hl.
  rewrite !Z.add_0_l. done.
Qed.

End Flush.

(** * The claims *)

(** ** C10: the privacy gate *)

(** C10: when the configured privacy level is PRIVACY_NOSTATS or
    stricter, [save_to_DB] and [read_data_from_DB] return at once and
    leave the whole world as it was: connection, file, log, aggregates,
    cursor and trace. *)
Theorem privacy_nostats_gate config getDomainString getClientIPString
    getForwardString o now getOverTimeID io now' w :
  cfg_privacylevel config >= PRIVACY_NOSTATS ->
  save_to_DB config getDomainString getClientIPString getForwardString o now w = w /\
  read_data_from_DB config getOverTimeID io now' w = w.
Proof.
  intros H. unfold save_to_DB, read_data_from_DB.
  assert (E : (cfg_privacylevel config >=? PRIVACY_NOSTATS) = true).
  { rewrite Z.geb_leb. apply Z.leb_le. lia. }
  by rewrite E.
Qed.

(** C10 at PRIVACY_NOSTATS, over the log of seven queries. *)
Lemma privacy_nostats_gate_witness :
  cfg_privacylevel Fixtures.config_nostats >= PRIVACY_NOSTATS /\
  Fixtures.flush Fixtures.config_nostats Fixtures.oracle_ok Examples.t0
    Examples.world_seven = Examples.world_seven /\
  Fixtures.import Fixtures.config_nostats Fixtures.import_ok Examples.t0
    Examples.world_seven = Examples.world_seven.
Proof.
  split; [vm_compute; discriminate|].
  apply (privacy_nostats_gate Fixtures.config_nostats). vm_compute. discriminate.
Defined.

(** ** C1: the HTTP request of the write-back *)



(** ** C3: the scan of one flush *)

Lemma upto_failures_all_ok ok n l :
  Forall (fun a => ok a = true) l -> upto_failures ok (S n) l = l.
Proof.
  induction 1 as [|a l Ha _ IH]; [done|]. simpl. by rewrite Ha, IH.
Qed.

Lemma successes_all_ok o l :
  Forall (fun a => step_ok o a = true) l -> successes o l = l.
Proof.
  unfold successes. induction 1 as [|a l Ha _ IH]; [done|].
  by rewrite filter_cons_True, IH.
Qed.

Lemma flush_plan_plan_from now start qs :
  flush_plan now start qs = plan_from now start (drop start qs).
Proof. unfold flush_plan, plan_from. by rewrite indexed_from_index_list. Qed.

Lemma number_rows_fst mk id l : (number_rows mk id l).*1 = l.*1.
Proof. revert id. induction l as [|a l IH]; intros id; simpl; [done|]. by rewrite IH. Qed.

(** C3: in a flush whose store answers and whose INSERTs all succeed,
    the rows inserted are, in index order from the cursor, those of
    the records before the first incomplete record younger than two
    seconds that are neither saved already nor at the strictest
    privacy level; every other record keeps its place and content;
    and the batch is one transaction: END TRANSACTION commits all of
    its rows, a failing END TRANSACTION none. *)
Theorem save_to_DB_scan config getDomainString getClientIPString
    getForwardString o now w :
  cfg_privacylevel config < PRIVACY_NOSTATS ->
  store_ready o = true ->
  (forall i, o_step o i = SQLITE_DONE) ->
  let w' := save_to_DB config getDomainString getClientIPString
              getForwardString o now w in
  let batch := flush_plan now (loop_start w) (queries w) in
  let rows := number_rows
                (bound_row getDomainString getClientIPString getForwardString)
                (first_rowid w) batch in
  inserted (trace w') = inserted (trace w) ++ rows /\
  (forall j, j ∉ batch.*1 -> queries w' !! j = queries w !! j) /\
  tbl_queries (file w') =
    (if o_end o =? SQLITE_OK then tbl_queries (file w) ++ rows.*2
     else tbl_queries (file w)).
Proof.
  intros Hp Hr Hs. cbv zeta.
  assert (Hb : flush_blocked config o = false).
  { unfold flush_blocked. rewrite Hr. simpl. rewrite orb_false_r.
    rewrite Z.geb_leb. apply Z.leb_gt. lia. }
  assert (Hscan : (flush_scan config o now w).2 =
                  flush_plan now (loop_start w) (queries w)).
  { rewrite flush_scan_run by done. rewrite scan_plan by lia.
    rewrite flush_plan_plan_from. apply upto_failures_all_ok.
    apply Forall_forall. intros a _. unfold step_ok. rewrite Hs. done. }
  assert (Hsucc : successes o (flush_scan config o now w).2 =
                  flush_plan now (loop_start w) (queries w)).
  { rewrite Hscan. apply successes_all_ok.
    apply Forall_forall. intros a _. unfold step_ok. rewrite Hs. done. }
  destruct (save_to_DB_summary config getDomainString getClientIPString
              getForwardString o now w Hb)
    as (_ & Hi & _ & (_ & Hout & _) & _ & Hq & _).
  unfold flush_rows in *. rewrite Hsucc in *. done.
Qed.

(** C3 on the log of seven queries, SQLite never failing. *)
Lemma save_to_DB_scan_witness :
  cfg_privacylevel Fixtures.config0 < PRIVACY_NOSTATS /\
  store_ready Fixtures.oracle_ok = true /\
  (forall i, o_step Fixtures.oracle_ok i = SQLITE_DONE) /\
  inserted (trace (Fixtures.flush Fixtures.config0 Fixtures.oracle_ok
                     (Examples.t0 + 10) Examples.world_seven)) =
  inserted (trace Examples.world_seven) ++
  number_rows
    (bound_row Fixtures.domain_of Fixtures.client_of Fixtures.forward_of)
    (first_rowid Examples.world_seven)
    (flush_plan (Examples.t0 + 10) (loop_start Examples.world_seven)
       (queries Examples.world_seven)).
Proof.
  split; [reflexivity|]. split; [reflexivity|]. split; [reflexivity|].
  apply (save_to_DB_scan Fixtures.config0 Fixtures.domain_of Fixtures.client_of
           Fixtures.forward_of Fixtures.oracle_ok (Examples.t0 + 10)
           Examples.world_seven); reflexivity.
Defined.

(** The scenario of the specification: five eligible records, one
    saved already, one incomplete and one second old; four rows are
    inserted, from the indices 0, 2, 3 and 4. *)
Example save_to_DB_scan_seven :
  (inserted (trace (Fixtures.flush Fixtures.config0 Fixtures.oracle_ok
                      (Examples.t0 + 10) Examples.world_seven))).*1 =
  [0; 2; 3; 4]%nat.
Proof. vm_compute. reflexivity. Qed.

(** ** C6: failing insertions *)

Lemma first_deferred_index_list now start qs :
  first_deferred now start qs =
  (start + length (take_until (fun a => deferred now a.2)
                     (index_list start (drop start qs))))%nat.
Proof. unfold first_deferred. by rewrite indexed_from_index_list. Qed.

(** C6: in a flush whose store answers, the records tried are those
    of the planned batch up to and including the third failing INSERT:
    a failure is counted and the scan goes on, the third one ends it at
    that record.  Whatever the number of failures, the rows of the
    successful INSERTs are the ones in the transaction, and END
    TRANSACTION commits them. *)
Theorem save_to_DB_failures config getDomainString getClientIPString
    getForwardString o now w :
  cfg_privacylevel config < PRIVACY_NOSTATS ->
  store_ready o = true ->
  let r := flush_scan config o now w in
  let w' := save_to_DB config getDomainString getClientIPString
              getForwardString o now w in
  let rows := number_rows
                (bound_row getDomainString getClientIPString getForwardString)
                (first_rowid w) (successes o r.2) in
  r.2 = upto_failures (step_ok o) 3 (flush_plan now (loop_start w) (queries w)) /\
  0 <= failures o r.2 <= 3 /\
  (failures o r.2 < 3 -> r.1 = first_deferred now (loop_start w) (queries w)) /\
  (failures o r.2 = 3 ->
   exists q, last r.2 = Some (r.1, q) /\ step_ok o (r.1, q) = false) /\
  inserted (trace w') = inserted (trace w) ++ rows /\
  (o_end o = SQLITE_OK -> tbl_queries (file w') = tbl_queries (file w) ++ rows.*2).
Proof.
  intros Hp Hr. cbv zeta.
  assert (Hb : flush_blocked config o = false).
  { unfold flush_blocked. rewrite Hr. simpl. rewrite orb_false_r.
    rewrite Z.geb_leb. apply Z.leb_gt. lia. }
  destruct (save_to_DB_summary config getDomainString getClientIPString
              getForwardString o now w Hb)
    as (_ & Hi & _ & _ & _ & Hq & _).
  unfold flush_rows in *. rewrite flush_scan_run in * by done.
  pose proof (scan_stop o now (drop (loop_start w) (queries w)) (loop_start w) 0
                ltac:(lia)) as Hstop.
  cbv zeta in Hstop. rewrite !Z.add_0_l in Hstop. destruct Hstop as (H1 & H2 & H3).
  split. { rewrite scan_plan by lia. by rewrite flush_plan_plan_from. }
  split. { split; [apply failures_nonneg|done]. }
  split. { rewrite first_deferred_index_list. exact H2. }
  split; [exact H3|]. split; [exact Hi|].
  intros He. rewrite Hq, He. done.
Qed.

(** C6 on the log of seven queries, the INSERTs for the indices 0, 2
    and 3 failing. *)
Lemma save_to_DB_failures_witness :
  cfg_privacylevel Fixtures.config0 < PRIVACY_NOSTATS /\
  store_ready (Fixtures.oracle_failing [0; 2; 3]%nat) = true /\
  (flush_scan Fixtures.config0 (Fixtures.oracle_failing [0; 2; 3]%nat)
     (Examples.t0 + 10) Examples.world_seven).2 =
  upto_failures (step_ok (Fixtures.oracle_failing [0; 2; 3]%nat)) 3
    (flush_plan (Examples.t0 + 10) (loop_start Examples.world_seven)
       (queries Examples.world_seven)).
Proof.
  split; [reflexivity|]. split; [reflexivity|].
  apply (save_to_DB_failures Fixtures.config0 Fixtures.domain_of Fixtures.client_of
           Fixtures.forward_of (Fixtures.oracle_failing [0; 2; 3]%nat)
           (Examples.t0 + 10) Examples.world_seven); reflexivity.
Defined.

(** Three failing INSERTs (indices 0, 2 and 3) end the scan at index 3;
    nothing was inserted before, and index 4 is not tried. *)
Example save_to_DB_three_failures :
  (flush_scan Fixtures.config0 (Fixtures.oracle_failing [0; 2; 3]%nat)
     (Examples.t0 + 10) Examples.world_seven).1 = 3%nat /\
  inserted (trace (Fixtures.flush Fixtures.config0
                     (Fixtures.oracle_failing [0; 2; 3]%nat)
                     (Examples.t0 + 10) Examples.world_seven)) = [].
Proof. vm_compute. done. Qed.

(** With the failures at 2, 3 and 4 the row of index 0 is in the
    batch when the scan is given up, and it is committed. *)
Example save_to_DB_partial_batch :
  tbl_queries (file (Fixtures.flush Fixtures.config0
                       (Fixtures.oracle_failing [2; 3; 4]%nat)
                       (Examples.t0 + 10) Examples.world_seven))
  = [mkRow 1 Examples.t0 TYPE_A QUERY_GRAVITY (Some "example.com")
           (Some "10.0.0.1") None].
Proof. vm_compute. reflexivity. Qed.

(** ** C4: the cursor *)


Lemma loop_start_ge w : lastdbindex w <= Z.of_nat (loop_start w).
Proof. unfold loop_start. lia. Qed.



(** In the scenario the cursor goes from 0 to 5, the index of the
    young incomplete record, and the property holds the timestamp of
    the row saved last. *)
Example save_to_DB_cursor_seven :
  lastdbindex (Fixtures.flush Fixtures.config0 Fixtures.oracle_ok
                 (Examples.t0 + 10) Examples.world_seven) = 5 /\
  tbl_ftl (file (Fixtures.flush Fixtures.config0 Fixtures.oracle_ok
                   (Examples.t0 + 10) Examples.world_seven)) !! DB_LASTTIMESTAMP
  = Some (Examples.t0 + 4).
Proof. vm_compute. done. Qed.

(** ** The retention collector *)

Section Collector.

Variable config : ConfigStruct.

Lemma delete_old_queries_in_DB_frame rc_open rc_delete now w :
  let w' := delete_old_queries_in_DB config rc_open rc_delete now w in
  same_memory w w' /\ lastdbindex w' = lastdbindex w /\
  tbl_counters (file w') = tbl_counters (file w) /\
  tbl_ftl (file w') = tbl_ftl (file w) /\
  tbl_queries (file w') =
    (if (rc_open =? 0) && (rc_delete =? SQLITE_OK)
     then filter (fun r => older_than (oldest_kept config now) r = false)
                 (tbl_queries (file w))
     else tbl_queries (file w)).
Proof.
  unfold delete_old_queries_in_DB, dbopen, oldest_kept. cbv zeta.
  destruct (rc_open =? 0) eqn:E0; simpl.
  2:{ split; [apply quiet_same_memory; auto 10 with quiet|].
      pose proof (check_database_frame rc_open
                    (dbclose (logg (LogOpenFailed rc_open) w))) as HF.
      cbv zeta in HF. destruct HF as (_ & HF & HL & _). simpl in HF, HL.
      rewrite HF, HL. done. }
  set (w0 := set_conn true (set_txn None w)).
  set (q := SqlDeleteOlder _).
  pose proof (dbquery_proj config rc_delete q w0) as H.
  pose proof (same_memory_dbquery config rc_delete q w0) as M.
  destruct (dbquery config rc_delete q w0) as [r w1]. cbv zeta in H. simpl in H, M.
  destruct H as (Hr & (Hc1 & _ & Hl1 & _) & Hf1 & _).
  unfold on_conn, w0 in Hr. simpl in Hr. subst r.
  assert (M0 : same_memory w w1) by exact M.
  destruct (rc_delete =? SQLITE_OK); simpl.
  - split.
    { destruct (_ || _).
      + eapply same_memory_trans; [exact M0|]. apply quiet_same_memory.
        auto 10 with quiet.
      + eapply same_memory_trans; [exact M0|]. apply quiet_same_memory.
        auto 10 with quiet. }
    destruct (_ || _); simpl; rewrite Hf1; simpl; repeat split; congruence.
  - split.
    { eapply same_memory_trans; [exact M0|]. apply quiet_same_memory.
      auto 10 with quiet. }
    simpl. rewrite Hf1. repeat split; congruence.
Qed.

End Collector.

(** ** C7: the retention collector *)

Lemma to_int_small v : - 2 ^ 31 <= v < 2 ^ 31 -> to_int v = v.
Proof. intros H. unfold to_int. rewrite Z.mod_small; lia. Qed.

Lemma kept_rows_older_than T rows :
  filter (fun r => older_than T r = false) rows = kept_rows T rows.
Proof.
  unfold kept_rows. apply list_filter_iff. intros r. unfold older_than.
  rewrite Z.leb_gt. done.
Qed.

(** C7 as stated fails twice: with no row to remove and debugging off
    nothing is reported; and when the store cannot be opened the
    persistence flag is not set. *)
Lemma delete_old_queries_in_DB_counterexample :
  ~ collect_claim Fixtures.config0 0 0 (Examples.t0 + 10)
      CollectExamples.world_empty /\
  ~ collect_claim Fixtures.config0 14 0 (Examples.t0 + 10)
      CollectExamples.world_old_row.
Proof.
  split.
  - intros [H _]. destruct (H eq_refl eq_refl) as [_ Hin].
    vm_compute in Hin. by apply elem_of_nil in Hin.
  - intros [_ H]. vm_compute in H. discriminate.
Qed.

(** C7 (amended): when the store can be opened and the threshold
    now - retention_days * 86400 fits a C int, the collector sets the
    persistence flag whether or not the DELETE succeeded; a DELETE
    that succeeds removes exactly the rows with a timestamp at or
    below the threshold and leaves the others, in their order; the
    number of rows removed is reported when it is not zero or when
    database debugging is on, and not otherwise; a DELETE that fails
    removes nothing.  When the store cannot be opened nothing is
    removed and a flag that was off stays off.  The other tables are
    never touched. *)
Theorem delete_old_queries_in_DB_spec config rc_open rc_delete now w :
  0 <= cfg_maxDBdays config * 86400 < 2 ^ 31 ->
  - 2 ^ 31 <= now - cfg_maxDBdays config * 86400 < 2 ^ 31 ->
  let w' := delete_old_queries_in_DB config rc_open rc_delete now w in
  let rows := tbl_queries (file w) in
  let kept := kept_rows (now - cfg_maxDBdays config * 86400) rows in
  let removed := Z.of_nat (length rows) - Z.of_nat (length kept) in
  (rc_open = 0 ->
   database w' = true /\
   (rc_delete = SQLITE_OK ->
    tbl_queries (file w') = kept /\
    (debug_database config = true \/ removed <> 0 ->
     LogDeleted removed ∈ logged (new_events w w')) /\
    (debug_database config = false -> removed = 0 ->
     forall n, LogDeleted n ∉ logged (new_events w w'))) /\
   (rc_delete <> SQLITE_OK -> tbl_queries (file w') = rows)) /\
  (rc_open <> 0 ->
   tbl_queries (file w') = rows /\ (database w = false -> database w' = false)) /\
  tbl_counters (file w') = tbl_counters (file w) /\
  tbl_ftl (file w') = tbl_ftl (file w).
Proof.
  intros Hd HT. cbv zeta.
  destruct (delete_old_queries_in_DB_frame config rc_open rc_delete now w)
    as (_ & _ & Hc & Hf & Hq).
  assert (Hold : oldest_kept config now = now - cfg_maxDBdays config * 86400).
  { unfold oldest_kept. rewrite (to_int_small (_ * _)) by lia.
    by rewrite to_int_small. }
  rewrite Hold, kept_rows_older_than in Hq.
  split; [|split; [|done]].
  - intros ->. split; [|split].
    + unfold delete_old_queries_in_DB, dbopen. simpl.
      destruct (dbquery _ _ _ _) as [r w1]. destruct r; simpl; done.
    + intros ->. split; [exact Hq|].
      unfold delete_old_queries_in_DB, dbopen, dbquery, on_conn, new_events.
      simpl. fold (oldest_kept config now). rewrite Hold.
      destruct (debug_database config); simpl;
        rewrite kept_rows_older_than;
        set (removed := Z.of_nat _ - Z.of_nat _);
        destruct (removed =? 0) eqn:Hr; simpl.
      * rewrite <- app_assoc, drop_app_length. simpl.
        split; [intros _; repeat constructor|]. done.
      * rewrite <- app_assoc, drop_app_length. simpl.
        split; [intros _; repeat constructor|]. done.
      * rewrite drop_all. apply Z.eqb_eq in Hr. split; [intros [|]; done|].
        intros _ _ n Hn. by apply elem_of_nil in Hn.
      * rewrite drop_app_length. simpl.
        apply Z.eqb_neq in Hr. split; [intros _; repeat constructor|]. done.
    + intros Hrc. rewrite Hq. apply Z.eqb_neq in Hrc. rewrite Hrc. done.
  - intros Hrc. apply Z.eqb_neq in Hrc. rewrite Hq, Hrc. simpl. split; [done|].
    unfold delete_old_queries_in_DB, dbopen. rewrite Hrc. simpl.
    intros Hdb. unfold check_database.
    destruct (negb _ && negb _ && negb _ && negb _); simpl; [done|exact Hdb].
Qed.

(** C7 (amended) on a store with one row past the retention time. *)
Lemma delete_old_queries_in_DB_spec_witness :
  0 <= cfg_maxDBdays Fixtures.config0 * 86400 < 2 ^ 31 /\
  - 2 ^ 31 <= (Examples.t0 + 10) - cfg_maxDBdays Fixtures.config0 * 86400 < 2 ^ 31 /\
  database (delete_old_queries_in_DB Fixtures.config0 0 0
              (Examples.t0 + 10) CollectExamples.world_old_row) = true.
Proof.
  assert (H1 : 0 <= cfg_maxDBdays Fixtures.config0 * 86400 < 2 ^ 31)
    by (simpl; unfold Examples.t0; lia).
  assert (H2 : - 2 ^ 31 <=
               (Examples.t0 + 10) - cfg_maxDBdays Fixtures.config0 * 86400 < 2 ^ 31)
    by (simpl; unfold Examples.t0; lia).
  split; [exact H1|]. split; [exact H2|].
  exact (proj1 (proj1 (delete_old_queries_in_DB_spec Fixtures.config0 0 0
           (Examples.t0 + 10) CollectExamples.world_old_row H1 H2) eq_refl)).
Defined.

(** With a retention of 365 days the row of 2017 goes, the row of 2020
    stays, one removed row is reported and persistence is on again. *)
Example delete_old_queries_in_DB_old_row :
  let w' := delete_old_queries_in_DB Fixtures.config0 0 0 (Examples.t0 + 10)
              CollectExamples.world_old_row in
  r_id <$> tbl_queries (file w') = [2] /\
  logged (trace w') = [LogDeleted 1] /\ database w' = true.
Proof. vm_compute. done. Qed.

(** ** C8: the filter of the import *)

Section ImportRow.

Variable config : ConfigStruct.
Variable getOverTimeID : Z -> Z.
Variable io : import_oracle.
Variable now : Z.

Local Abbreviation import_one := (import_row config getOverTimeID io now).
Local Abbreviation store := (store_query getOverTimeID io).

(** The status switch only counts and logs. *)
Lemma count_status_frame st ts ti d c w :
  let w' := count_status st ts ti d c w in
  queries w' = queries w /\ file w' = file w /\ lastdbindex w' = lastdbindex w /\
  conn w' = conn w /\ txn w' = txn w /\ database w' = database w /\
  posts (trace w') = posts (trace w) /\ inserted (trace w') = inserted (trace w).
Proof.
  unfold count_status.
  destruct (st =? QUERY_UNKNOWN); [by repeat split|].
  destruct (is_blocked_status st); [by repeat split|].
  destruct (st =? QUERY_FORWARDED); [by repeat split|].
  destruct (st =? QUERY_CACHE); [by repeat split|].
  destruct (logg_observe (LogUnknownStatus st ts) w). by repeat split.
Qed.

(** A row that passed the filter becomes one new record at the end of
    the log: complete, and marked with the row's own id. *)
Lemma store_query_spec dbid ts ty st fid domain client w :
  let w' := store dbid ts ty st fid domain client w in
  (exists q, queries w' = queries w ++ [q] /\ db q = dbid /\ complete q = true /\
             timestamp q = ts /\ type q = ty /\ status q = st /\ forwardID q = fid) /\
  file w' = file w /\ lastdbindex w' = lastdbindex w /\
  conn w' = conn w /\ txn w' = txn w /\ database w' = database w /\
  posts (trace w') = posts (trace w) /\ inserted (trace w') = inserted (trace w).
Proof.
  unfold store_query, findDomainID, findClientID.
  destruct (intern domain (domains w)) as [d tbl1]. simpl.
  destruct (intern client _) as [c tbl2]. simpl.
  match goal with |- context [count_status st ts ?ti ?d ?c ?x] =>
    pose proof (count_status_frame st ts ti d c x) as H; cbv zeta in H;
    destruct H as (-> & -> & -> & -> & -> & -> & -> & ->) end.
  destruct ((ty >=? TYPE_A) && (ty <? TYPE_MAX)); simpl;
    (split; [eexists; split; [reflexivity|]; by repeat split|by repeat split]).
Qed.

(** What one turn of the loop does with its row. *)
Lemma import_row_cases r w :
  let w' := import_one r w in
  (skipped_by_code config now r = true /\
   w' = match diagnostic config now r with Some m => logg m w | None => w end) \/
  (skipped_by_code config now r = false /\
   exists w1, (w1 = w \/ exists f, r_forward r = Some f /\
                                  w1 = (findForwardID f w).2) /\
     exists fid, w' = store (r_id r) (to_int (r_timestamp r)) (to_int (r_type r))
                        (to_int (r_status r)) fid
                        (default "" (r_domain r)) (default "" (r_client r)) w1).
Proof.
  unfold import_row, skipped_by_code, diagnostic. cbv zeta.
  destruct (to_int (r_timestamp r) <? 1483228800); simpl; [by left|].
  destruct (to_int (r_timestamp r) >? now); simpl.
  { left. by destruct (debug_database config). }
  destruct ((to_int (r_type r) <? TYPE_A) || (to_int (r_type r) >=? TYPE_MAX))
    eqn:Hty; simpl; [by left|].
  destruct ((to_int (r_type r) =? TYPE_AAAA) && negb (cfg_analyze_AAAA config));
    simpl; [by left|].
  destruct ((to_int (r_status r) <? QUERY_UNKNOWN) ||
            (to_int (r_status r) >? QUERY_EXTERNAL_BLOCKED_NXRA)) eqn:Hst; simpl;
    [by left|].
  destruct (r_domain r) as [domain|]; simpl; [|by left].
  destruct (r_client r) as [client|]; simpl; [|by left].
  destruct (cfg_ignore_localhost config && is_loopback client); simpl; [by left|].
  destruct (to_int (r_status r) =? QUERY_FORWARDED); simpl.
  - destruct (r_forward r) as [f|]; simpl; [|by left].
    right. split; [done|].
    destruct (findForwardID f w) as [fid w1] eqn:Hf.
    exists w1. split.
    + right. exists f. split; [done|]. by rewrite Hf.
    + by exists fid.
  - right. split; [done|]. exists w. split; [by left|]. by exists 0.
Qed.

Lemma import_loop_all rows : forall k w,
  (forall j, i_step io j = None) ->
  import_loop config getOverTimeID io now rows k w =
  (SQLITE_DONE, foldl (fun w r => import_one r w) w rows).
Proof.
  induction rows as [|r rows IH]; intros k w Hs; simpl;
    unfold step_error; rewrite Hs; [done|]. by apply IH.
Qed.

(** C8 (amended): a row the import scans is passed over if and only
    if, with its integer columns read as C ints: its timestamp is
    below 1483228800 or above now; or its type is outside
    [TYPE_A, TYPE_MAX), or is AAAA while AAAA analysis is off; or its
    status is outside [QUERY_UNKNOWN, QUERY_EXTERNAL_BLOCKED_NXRA]; or
    its domain or client is NULL; or ignore-localhost is set and the
    client is 127.0.0.1 or ::1; or its status is forwarded and the
    forward destination is NULL.  A row passed over changes nothing but
    the log, which receives the line of the first failed test: none
    for the AAAA filter and for loopback clients, and one for a future
    timestamp only when database debugging is on.  Every other row
    becomes one new record at the end of the log, complete and marked
    with the row's id.  In either case the loop goes on with the next
    row, to the last one when no step fails. *)
Theorem import_row_filter r w :
  let w' := import_one r w in
  (skipped_by_code config now r = true <-> queries w' = queries w) /\
  (skipped_by_code config now r = true ->
   w' = match diagnostic config now r with Some m => logg m w | None => w end) /\
  (skipped_by_code config now r = false ->
   exists q, queries w' = queries w ++ [q] /\ db q = r_id r /\ complete q = true /\
             timestamp q = to_int (r_timestamp r) /\ type q = to_int (r_type r) /\
             status q = to_int (r_status r)) /\
  (forall rows k, (forall j, i_step io j = None) ->
     import_loop config getOverTimeID io now rows k w =
     (SQLITE_DONE, foldl (fun w r => import_one r w) w rows)).
Proof.
  cbv zeta.
  assert (Himp : skipped_by_code config now r = false ->
    exists q, queries (import_one r w) = queries w ++ [q] /\ db q = r_id r /\
              complete q = true /\ timestamp q = to_int (r_timestamp r) /\
              type q = to_int (r_type r) /\ status q = to_int (r_status r)).
  { intros Hs. destruct (import_row_cases r w) as [[Hs' _]|(_ & w1 & Hw1 & fid & ->)];
      [congruence|].
    destruct (store_query_spec (r_id r) (to_int (r_timestamp r)) (to_int (r_type r))
                (to_int (r_status r)) fid (default "" (r_domain r))
                (default "" (r_client r)) w1)
      as ((q & Hq & Hdb & Hc & Hts & Hty & Hst & _) & _).
    exists q. split; [|done]. rewrite Hq. f_equal.
    destruct Hw1 as [->|(f & _ & ->)]; [done|].
    unfold findForwardID. by destruct (intern f (forwarded w)). }
  assert (Hskip : skipped_by_code config now r = true ->
    import_one r w =
    match diagnostic config now r with Some m => logg m w | None => w end).
  { intros Hs. destruct (import_row_cases r w) as [[_ H]|[Hs' _]]; [done|congruence]. }
  split; [|split; [done|split; [done|]]].
  - split.
    + intros Hs. rewrite (Hskip Hs). by destruct (diagnostic config now r).
    + intros Hq. destruct (skipped_by_code config now r) eqn:Hs; [done|].
      destruct (Himp eq_refl) as (q & Hq' & _). rewrite Hq in Hq'.
      apply (f_equal length) in Hq'. rewrite length_app in Hq'. simpl in Hq'. lia.
  - intros rows k. apply import_loop_all.
Qed.

End ImportRow.

(** C8 as stated fails twice: a row whose domain is the empty string
    is imported; and a row from the loopback address is passed over
    without a log line. *)
Lemma import_row_counterexample :
  ~ import_claim Fixtures.config0 Fixtures.slot_of Fixtures.import_ok
      (Examples.t0 + 10) ImportExamples.row_empty_domain
      CollectExamples.world_empty /\
  ~ import_claim ImportExamples.config_ignore_localhost Fixtures.slot_of
      Fixtures.import_ok (Examples.t0 + 10) ImportExamples.row_loopback
      CollectExamples.world_empty.
Proof.
  split.
  - intros [[H _] _]. specialize (H eq_refl). vm_compute in H. discriminate.
  - intros [_ H]. apply H; reflexivity.
Qed.

(** The scenario of the specification: the row of type 99 is passed
    over with its log line, the rows before and after it are imported. *)
Example import_type99 :
  let w' := Fixtures.import Fixtures.config0 Fixtures.import_ok (Examples.t0 + 10)
              ImportExamples.world_type99 in
  db <$> queries w' = [1; 3] /\
  logged (trace w') = [LogWarnType 99; LogImported 2] /\
  lastdbindex w' = 2.
Proof. vm_compute. done. Qed.

(** ** C9: import, then flush *)

Lemma import_frame_refl w : import_frame w w.
Proof. by repeat split. Qed.

Lemma import_frame_trans w1 w2 w3 :
  import_frame w1 w2 -> import_frame w2 w3 -> import_frame w1 w3.
Proof.
  intros (? & ? & ? & ? & ? & ? & ?) (? & ? & ? & ? & ? & ? & ?).
  repeat split; congruence.
Qed.

Lemma import_frame_logg m w : import_frame w (logg m w).
Proof. destruct (logg_observe m w). by repeat split. Qed.

Section ImportFlush.

Variable config : ConfigStruct.
Variable getOverTimeID : Z -> Z.
Variable io : import_oracle.
Variable now : Z.

Local Abbreviation import_one := (import_row config getOverTimeID io now).
Local Abbreviation import_all := (read_data_from_DB config getOverTimeID io now).

Lemma import_row_frame r w :
  import_frame w (import_one r w) /\
  exists new, queries (import_one r w) = queries w ++ new /\
              imported_from [r] new.
Proof.
  destruct (import_row_cases config getOverTimeID io now r w)
    as [[_ ->]|(_ & w1 & Hw1 & fid & ->)].
  - destruct (diagnostic config now r) as [m|].
    + split; [apply import_frame_logg|]. exists []. rewrite app_nil_r. split; [done|constructor].
    + split; [apply import_frame_refl|]. exists []. rewrite app_nil_r. split; [done|constructor].
  - assert (H1 : import_frame w w1 /\ queries w1 = queries w).
    { destruct Hw1 as [->|(f & _ & ->)]; [split; [apply import_frame_refl|done]|].
      unfold findForwardID. destruct (intern f (forwarded w)).
      by repeat split. }
    destruct H1 as [H1 Hq1].
    destruct (store_query_spec getOverTimeID io (r_id r) (to_int (r_timestamp r))
                (to_int (r_type r)) (to_int (r_status r)) fid
                (default "" (r_domain r)) (default "" (r_client r)) w1)
      as ((q & Hq & Hdb & Hc & _) & H2).
    split. { eapply import_frame_trans; [exact H1|]. exact H2. }
    exists [q]. rewrite Hq, Hq1. split; [done|].
    constructor; [|constructor]. split; [done|]. exists r.
    split; [apply list_elem_of_here|done].
Qed.

Lemma import_loop_frame rows : forall k w,
  let r := import_loop config getOverTimeID io now rows k w in
  import_frame w r.2 /\
  exists new, queries r.2 = queries w ++ new /\ imported_from rows new.
Proof.
  induction rows as [|r rows IH]; intros k w; cbv zeta; simpl.
  - destruct (step_error io k); simpl;
      (split; [apply import_frame_refl|]; exists []; rewrite app_nil_r;
       split; [done|constructor]).
  - destruct (step_error io k); simpl.
    { split; [apply import_frame_refl|]. exists []. rewrite app_nil_r. split; [done|constructor]. }
    destruct (import_row_frame r w) as (F1 & new1 & Hq1 & Hn1).
    destruct (IH (S k) (import_one r w)) as (F2 & new2 & Hq2 & Hn2).
    split. { eapply import_frame_trans; [exact F1|exact F2]. }
    exists (new1 ++ new2). rewrite Hq2, Hq1, app_assoc. split; [done|].
    apply Forall_app. split.
    + eapply Forall_impl; [exact Hn1|]. intros q (Hc & r' & Hr' & Hdb).
      split; [done|]. exists r'. split; [|done].
      apply list_elem_of_singleton in Hr'. subst. apply list_elem_of_here.
    + eapply Forall_impl; [exact Hn2|]. intros q (Hc & r' & Hr' & Hdb).
      split; [done|]. exists r'. split; [|done]. by apply list_elem_of_further.
Qed.

Lemma read_data_from_DB_blocked w :
  import_ready config io = false -> quiet w (import_all w).
Proof.
  unfold import_ready, read_data_from_DB, dbopen, on_conn. intros H.
  rewrite Z.geb_leb, Z.leb_antisym.
  destruct (cfg_privacylevel config <? PRIVACY_NOSTATS); simpl in *;
    [|apply quiet_refl].
  destruct (i_open io =? 0); simpl in *; [|auto 10 with quiet].
  destruct (debug_database config); simpl; rewrite H; simpl;
    auto 10 with quiet.
Qed.

(** An import whose loop runs: the cursor ends at the end of the log,
    and the log has grown by records that are complete and marked. *)
Lemma read_data_from_DB_ready w :
  import_ready config io = true ->
  let w' := import_all w in
  lastdbindex w' = Z.of_nat (length (queries w')) /\
  file w' = file w /\
  inserted (trace w') = inserted (trace w) /\
  exists new, queries w' = queries w ++ new /\
              imported_from (tbl_queries (file w)) new.
Proof.
  unfold import_ready, read_data_from_DB, dbopen, on_conn. intros H.
  apply andb_true_iff in H as [H H3]. apply andb_true_iff in H as [H1 H2].
  rewrite Z.geb_leb, Z.leb_antisym, H1, H2. simpl.
  set (w0 := if debug_database config
             then logg (LogImportSelect (now - cfg_maxlogage config))
                       (set_conn true (set_txn None w))
             else set_conn true (set_txn None w)).
  assert (H0 : conn w0 = true /\ file w0 = file w /\ queries w0 = queries w /\
               inserted (trace w0) = inserted (trace w) /\ txn w0 = None).
  { unfold w0. destruct (debug_database config); [|by repeat split].
    destruct (logg_observe (LogImportSelect (now - cfg_maxlogage config))
                (set_conn true (set_txn None w))). by repeat split. }
  destruct H0 as (Hc0 & Hf0 & Hq0 & Hi0 & Ht0). rewrite Hc0, H3. simpl.
  pose proof (import_loop_frame (selected_rows (now - cfg_maxlogage config) w0) 0 w0)
    as HL.
  destruct (import_loop _ _ _ _ _ _ _) as [rc w1]. cbv zeta in HL. simpl in HL.
  destruct HL as ((Hf1 & _ & _ & _ & _ & _ & Hi1) & new & Hq1 & Hn).
  assert (Hnew : imported_from (tbl_queries (file w)) new).
  { eapply Forall_impl; [exact Hn|]. intros q (Hc & r & Hr & Hdb).
    split; [done|]. exists r. split; [|done].
    unfold selected_rows, visible_rows in Hr. rewrite Ht0, Hf0 in Hr. simpl in Hr.
    rewrite app_nil_r in Hr. by apply list_elem_of_filter in Hr as [_ Hr]. }
  set (w2 := set_lastdbindex _ _).
  assert (H2' : lastdbindex w2 = Z.of_nat (length (queries w2)) /\
                file w2 = file w /\
                inserted (trace w2) = inserted (trace w) /\
                queries w2 = queries w ++ new).
  { unfold w2. simpl.
    destruct (logg_observe (LogImported (Z.of_nat (length (queries w1)))) w1)
      as [_ Hi2]. simpl in Hi2.
    repeat split; congruence. }
  clearbody w2. destruct H2' as (Hl2 & Hf2 & Hi2 & Hq2).
  destruct (negb (rc =? SQLITE_DONE)).
  - pose proof (check_database_frame rc (dbclose (logg (LogImportStepFailed rc) w2)))
      as HF. cbv zeta in HF. destruct HF as (Hq & Hf & Hl & _ & _ & _ & _ & _ & Hi).
    destruct (logg_observe (LogImportStepFailed rc) w2) as [_ Hi'].
    simpl in *. rewrite Hq, Hf, Hl, Hi, Hi'.
    split; [done|]. split; [done|]. split; [done|]. by exists new.
  - simpl. split; [done|]. split; [done|]. split; [done|]. by exists new.
Qed.

End ImportFlush.

(** A flush whose cursor is at or past the end of the log inserts
    nothing and leaves the log and the rows of the file as they are. *)
Lemma save_to_DB_at_end config getDomainString getClientIPString getForwardString
    o now w :
  drop (loop_start w) (queries w) = [] ->
  let w' := save_to_DB config getDomainString getClientIPString getForwardString
              o now w in
  inserted (trace w') = inserted (trace w) /\
  tbl_queries (file w') = tbl_queries (file w) /\
  queries w' = queries w.
Proof.
  intros Hd. cbv zeta. destruct (flush_blocked config o) eqn:Hb.
  { pose proof (save_to_DB_blocked config getDomainString getClientIPString
                  getForwardString o now w Hb) as Hq.
    rewrite (quiet_inserted _ _ Hq). destruct Hq as (-> & -> & _). done. }
  destruct (save_to_DB_summary config getDomainString getClientIPString
              getForwardString o now w Hb)
    as (_ & Hi & _ & (Hlen & Hout & _) & _ & Hq & _).
  unfold flush_rows in *. rewrite flush_scan_run, Hd in * by done.
  simpl in *. rewrite app_nil_r in *.
  split; [done|]. split; [by destruct (o_end o =? SQLITE_OK)|].
  apply list_eq. intros j. apply Hout. apply not_elem_of_nil.
Qed.

(** Whatever SQLite answers, the import leaves the file alone, inserts
    nothing, and only appends to the log. *)
Lemma read_data_from_DB_frame config getOverTimeID io now w :
  let w' := read_data_from_DB config getOverTimeID io now w in
  file w' = file w /\ inserted (trace w') = inserted (trace w) /\
  exists new, queries w' = queries w ++ new.
Proof.
  cbv zeta. destruct (import_ready config io) eqn:Hr.
  - destruct (read_data_from_DB_ready config getOverTimeID io now w Hr)
      as (_ & Hf & Hi & new & Hq & _).
    split; [done|]. split; [done|]. by exists new.
  - pose proof (read_data_from_DB_blocked config getOverTimeID io now w Hr) as Hq.
    rewrite (quiet_inserted _ _ Hq). destruct Hq as (-> & -> & _).
    split; [done|]. split; [done|]. exists []. by rewrite app_nil_r.
Qed.

(** C9: an import whose loop runs sets the cursor to the end of the
    log, and every record it appended is complete and carries the id
    of a row of the file as its marker.  A flush that follows the
    import directly (at start-up, when the log held nothing before, or
    after any import whose loop ran) inserts no row: the trace gains
    no insertion, the rows of the file and the log stay as they are. *)
Theorem import_then_flush config getOverTimeID io now
    config' getDomainString getClientIPString getForwardString o now' w :
  let w1 := read_data_from_DB config getOverTimeID io now w in
  let w2 := save_to_DB config' getDomainString getClientIPString
              getForwardString o now' w1 in
  (import_ready config io = true ->
   lastdbindex w1 = Z.of_nat (length (queries w1)) /\
   exists new, queries w1 = queries w ++ new /\
               imported_from (tbl_queries (file w)) new) /\
  (import_ready config io = true \/ queries w = [] ->
   inserted (trace w2) = inserted (trace w1) /\
   tbl_queries (file w2) = tbl_queries (file w1) /\
   queries w2 = queries w1).
Proof.
  cbv zeta. split.
  - intros H.
    by destruct (read_data_from_DB_ready config getOverTimeID io now w H)
      as (? & _ & _ & ?).
  - intros H. apply save_to_DB_at_end.
    destruct (import_ready config io) eqn:Hr.
    + destruct (read_data_from_DB_ready config getOverTimeID io now w Hr)
        as (Hl & _). apply drop_ge. unfold loop_start. rewrite Hl. lia.
    + destruct H as [H|H]; [done|].
      destruct (read_data_from_DB_blocked config getOverTimeID io now w Hr)
        as (-> & _). rewrite H. by destruct (loop_start _).
Qed.

(** C9 on the store with three rows. *)
Lemma import_then_flush_witness :
  (import_ready Fixtures.config0 Fixtures.import_ok = true \/
   queries ImportExamples.world_type99 = []) /\
  inserted (trace (Fixtures.flush Fixtures.config0 Fixtures.oracle_ok
                     (Examples.t0 + 20)
                     (Fixtures.import Fixtures.config0 Fixtures.import_ok
                        (Examples.t0 + 10) ImportExamples.world_type99))) =
  inserted (trace (Fixtures.import Fixtures.config0 Fixtures.import_ok
                     (Examples.t0 + 10) ImportExamples.world_type99)).
Proof.
  assert (H : import_ready Fixtures.config0 Fixtures.import_ok = true \/
              queries ImportExamples.world_type99 = []) by (left; reflexivity).
  split; [exact H|].
  exact (proj1 (proj2 (import_then_flush Fixtures.config0 Fixtures.slot_of
           Fixtures.import_ok (Examples.t0 + 10) Fixtures.config0
           Fixtures.domain_of Fixtures.client_of Fixtures.forward_of
           Fixtures.oracle_ok (Examples.t0 + 20) ImportExamples.world_type99) H)).
Defined.

(** After the import of the example the flush finds the cursor at 2,
    the end of the log, and the file keeps its three rows. *)
Example import_then_flush_type99 :
  let w2 := Fixtures.flush Fixtures.config0 Fixtures.oracle_ok (Examples.t0 + 20)
              (Fixtures.import Fixtures.config0 Fixtures.import_ok
                 (Examples.t0 + 10) ImportExamples.world_type99) in
  inserted (trace w2) = [] /\ r_id <$> tbl_queries (file w2) = [1; 2; 3] /\
  lastdbindex w2 = 2.
Proof. vm_compute. done. Qed.

(** C8 (amended) on the row whose domain is the empty string. *)
Lemma import_row_filter_witness :
  skipped_by_code Fixtures.config0 (Examples.t0 + 10)
    ImportExamples.row_empty_domain = false /\
  exists q,
    queries (import_row Fixtures.config0 Fixtures.slot_of Fixtures.import_ok
               (Examples.t0 + 10) ImportExamples.row_empty_domain
               CollectExamples.world_empty) =
    queries CollectExamples.world_empty ++ [q] /\
    db q = r_id ImportExamples.row_empty_domain /\ complete q = true /\
    timestamp q = to_int (r_timestamp ImportExamples.row_empty_domain) /\
    type q = to_int (r_type ImportExamples.row_empty_domain) /\
    status q = to_int (r_status ImportExamples.row_empty_domain).
Proof.
  assert (H : skipped_by_code Fixtures.config0 (Examples.t0 + 10)
                ImportExamples.row_empty_domain = false) by reflexivity.
  split; [exact H|].
  exact (proj1 (proj2 (proj2 (import_row_filter Fixtures.config0 Fixtures.slot_of
           Fixtures.import_ok (Examples.t0 + 10) ImportExamples.row_empty_domain
           CollectExamples.world_empty))) H).
Defined.

(** ** C5: the counters *)

Lemma delta_at_zero k : delta_at (0, 0) k = 0.
Proof. unfold delta_at. by repeat case_decide. Qed.

Lemma delta_at_add d1 d2 k :
  delta_at (d1.1 + d2.1, d1.2 + d2.2) k = delta_at d1 k + delta_at d2 k.
Proof. unfold delta_at. simpl. repeat case_decide; lia. Qed.

Lemma fmap_add_zero (mx : option Z) : (fun v => v + 0) <$> mx = mx.
Proof. destruct mx; simpl; [f_equal; lia|done]. Qed.

Lemma updated_counters_lookup t b (c : gmap Z Z) k :
  updated_counters SQLITE_OK SQLITE_OK t b c !! k =
  (fun v => v + delta_at (t, b) k) <$> (c !! k).
Proof.
  unfold updated_counters, delta_at. simpl.
  destruct (decide (k = DB_TOTALQUERIES)) as [->|H1].
  - rewrite lookup_alter_ne by done. by rewrite lookup_alter_eq.
  - destruct (decide (k = DB_BLOCKEDQUERIES)) as [->|H2].
    + rewrite lookup_alter_eq. by rewrite lookup_alter_ne.
    + rewrite !lookup_alter_ne by done. by rewrite fmap_add_zero.
Qed.

(** Whatever SQLite answers, an UPDATE of the counters adds a delta
    that is not negative. *)
Lemma updated_counters_mono rc1 rc2 t b (c : gmap Z Z) k v :
  0 <= t -> 0 <= b -> c !! k = Some v ->
  exists v', updated_counters rc1 rc2 t b c !! k = Some v' /\ v <= v'.
Proof.
  intros Ht Hb Hk. unfold updated_counters.
  destruct (rc1 =? SQLITE_OK); simpl.
  2:{ exists v. split; [done|lia]. }
  assert (H1 : exists v1, alter (fun v => v + t) DB_TOTALQUERIES c !! k = Some v1 /\ v <= v1).
  { destruct (decide (k = DB_TOTALQUERIES)) as [->|H].
    - rewrite lookup_alter_eq, Hk. simpl. eexists. split; [done|lia].
    - rewrite lookup_alter_ne by done. exists v. split; [done|lia]. }
  destruct H1 as (v1 & Hv1 & Hle).
  destruct (rc2 =? SQLITE_OK); [|by exists v1].
  destruct (decide (k = DB_BLOCKEDQUERIES)) as [->|H].
  - rewrite lookup_alter_eq, Hv1. simpl. eexists. split; [done|lia].
  - rewrite lookup_alter_ne by done. exists v1. done.
Qed.

Section Counters.

Variable getDomainString : nat -> string.
Variable getClientIPString : nat -> string.
Variable getForwardString : Z -> string.
Variable getOverTimeID : Z -> Z.

Local Abbreviation step :=
  (apply_op getDomainString getClientIPString getForwardString getOverTimeID).
Local Abbreviation run :=
  (run_ops getDomainString getClientIPString getForwardString getOverTimeID).
Local Abbreviation deltas :=
  (run_deltas getDomainString getClientIPString getForwardString getOverTimeID).

(** The counters table after one flush. *)
Lemma save_to_DB_counters_table config o now w :
  let succ := successes o (flush_scan config o now w).2 in
  tbl_counters (file (save_to_DB config getDomainString getClientIPString
                        getForwardString o now w)) =
  if commit_ok o && negb (bool_decide (succ = []))
  then updated_counters (o_upd_total o) (o_upd_blocked o)
         (Z.of_nat (length succ)) (Z.of_nat (length (blocked_rows succ)))
         (tbl_counters (file w))
  else tbl_counters (file w).
Proof.
  cbv zeta. destruct (flush_blocked config o) eqn:Hb.
  - pose proof (save_to_DB_blocked config getDomainString getClientIPString
                  getForwardString o now w Hb) as (_ & -> & _).
    unfold flush_scan. fold (flush_blocked config o). rewrite Hb. simpl.
    by rewrite andb_false_r.
  - destruct (save_to_DB_summary config getDomainString getClientIPString
                getForwardString o now w Hb) as (_ & _ & _ & _ & _ & _ & _ & ->).
    destruct (successes o _) as [|a l].
    + rewrite bool_decide_true by done. simpl.
      change (Z.of_nat 0 >? 0) with false. by rewrite andb_false_r.
    + rewrite bool_decide_false by done.
      replace (Z.of_nat (length (a :: l)) >? 0) with true; [done|].
      symmetry. rewrite Z.gtb_ltb. apply Z.ltb_lt. simpl length. lia.
Qed.

Lemma apply_op_counters op w k :
  counters_answer op ->
  tbl_counters (file (step w op)) !! k =
  (fun v => v + delta_at (op_delta op w) k) <$> (tbl_counters (file w) !! k).
Proof.
  destruct op as [config io now|config o now|config rc1 rc2 now|q|j q]; simpl.
  - intros _.
    destruct (read_data_from_DB_frame config getOverTimeID io now w) as (-> & _).
    by rewrite delta_at_zero, fmap_add_zero.
  - intros [H1 H2]. rewrite save_to_DB_counters_table. unfold flush_delta.
    destruct (commit_ok o); simpl.
    + destruct (successes o _) as [|a l] eqn:Hs.
      * rewrite bool_decide_true by done. simpl.
        by rewrite delta_at_zero, fmap_add_zero.
      * rewrite bool_decide_false by done. simpl negb. cbv iota.
        rewrite H1, H2. apply updated_counters_lookup.
    + by rewrite delta_at_zero, fmap_add_zero.
  - intros _.
    destruct (delete_old_queries_in_DB_frame config rc1 rc2 now w) as (_ & _ & -> & _).
    by rewrite delta_at_zero, fmap_add_zero.
  - intros _. by rewrite delta_at_zero, fmap_add_zero.
  - intros _. rewrite delta_at_zero, fmap_add_zero. by destruct (queries w !! j).
Qed.

Lemma apply_op_counters_mono op w k v :
  tbl_counters (file w) !! k = Some v ->
  exists v', tbl_counters (file (step w op)) !! k = Some v' /\ v <= v'.
Proof.
  intros Hk. destruct op as [config io now|config o now|config rc1 rc2 now|q|j q]; simpl.
  - destruct (read_data_from_DB_frame config getOverTimeID io now w) as (-> & _).
    exists v. split; [done|lia].
  - rewrite save_to_DB_counters_table.
    destruct (_ && _); [|exists v; split; [done|lia]].
    apply updated_counters_mono; [lia|lia|done].
  - destruct (delete_old_queries_in_DB_frame config rc1 rc2 now w) as (_ & _ & -> & _).
    exists v. split; [done|lia].
  - exists v. split; [done|lia].
  - exists v. split; [by destruct (queries w !! j)|lia].
Qed.


End Counters.

(** ** C2: the persisted marker *)

Lemma max_id_nonneg rows :
  Forall (fun r => 0 < r_id r) rows -> 0 <= default 0 (max_id rows).
Proof.
  induction 1 as [|r rows Hr _ IH]; simpl; [lia|].
  destruct (max_id rows); simpl in *; lia.
Qed.

Lemma number_rows_ids gd gc gf id l :
  Forall (fun r => id <= r_id r) (number_rows (bound_row gd gc gf) id l).*2.
Proof.
  revert id. induction l as [|a l IH]; intros id; simpl; constructor.
  - simpl. lia.
  - eapply Forall_impl; [apply IH|]. simpl. intros; lia.
Qed.

Lemma NoDup_filter_fst {A B} (P : A * B -> Prop) `{!forall x, Decision (P x)}
    (l : list (A * B)) :
  NoDup l.*1 -> NoDup (filter P l).*1.
Proof.
  induction l as [|a l IH]; [done|]. rewrite fmap_cons, NoDup_cons.
  intros [Hn Hnd]. rewrite filter_cons. destruct (decide (P a)); [|by apply IH].
  rewrite fmap_cons. apply NoDup_cons. split; [|by apply IH].
  intros Hin. apply Hn. apply list_elem_of_fmap in Hin as (x & -> & Hin).
  apply list_elem_of_filter in Hin as [_ Hin]. by apply list_elem_of_fmap_2.
Qed.

Section Marker.

Variable getDomainString : nat -> string.
Variable getClientIPString : nat -> string.
Variable getForwardString : Z -> string.
Variable getOverTimeID : Z -> Z.

Local Abbreviation step :=
  (apply_op getDomainString getClientIPString getForwardString getOverTimeID).
Local Abbreviation run :=
  (run_ops getDomainString getClientIPString getForwardString getOverTimeID).
Local Abbreviation flush config :=
  (save_to_DB config getDomainString getClientIPString getForwardString).
Local Abbreviation rows_of :=
  (flush_rows getDomainString getClientIPString getForwardString).

(** A flush passes over a record that is marked: it is not inserted
    and keeps its content. *)
Lemma save_to_DB_skips_marked config o now w j q :
  queries w !! j = Some q -> db q <> 0 ->
  queries (flush config o now w) !! j = Some q /\
  j ∉ (rows_of config o now w).*1.
Proof.
  intros Hj Hdb.
  assert (Hnot : j ∉ (successes o (flush_scan config o now w).2).*1).
  { intros Hin. apply list_elem_of_fmap in Hin as ([j' q'] & -> & Hin).
    apply list_elem_of_filter in Hin as [_ Hin].
    destruct (flush_scan_attempts config o now w) as [_ H].
    destruct (H _ _ Hin) as (_ & Hl & He). simpl in Hj.
    rewrite Hj in Hl. injection Hl as <-.
    unfold eligible in He. apply andb_true_iff in He as [He _].
    apply Z.eqb_eq in He. done. }
  split.
  - destruct (flush_blocked config o) eqn:Hb.
    + pose proof (save_to_DB_blocked config getDomainString getClientIPString
                    getForwardString o now w Hb) as (-> & _). done.
    + destruct (save_to_DB_summary config getDomainString getClientIPString
                  getForwardString o now w Hb) as (_ & _ & _ & (_ & Hout & _) & _).
      by rewrite (Hout j Hnot).
  - unfold flush_rows. by rewrite number_rows_fst.
Qed.

Lemma apply_op_marker_kept op w j q :
  queries w !! j = Some q -> db q <> 0 ->
  exists q', queries (step w op) !! j = Some q' /\ db q' = db q.
Proof.
  intros Hj Hdb.
  destruct op as [config io now|config o now|config rc1 rc2 now|q0|j0 q0]; simpl.
  - destruct (read_data_from_DB_frame config getOverTimeID io now w)
      as (_ & _ & new & ->).
    exists q. split; [|done]. by apply lookup_app_l_Some.
  - exists q. split; [|done]. by apply save_to_DB_skips_marked.
  - destruct (delete_old_queries_in_DB_frame config rc1 rc2 now w) as ((-> & _) & _).
    by exists q.
  - exists q. split; [|done]. by apply lookup_app_l_Some.
  - destruct (queries w !! j0) as [old|] eqn:Hj0; [|by exists q]. simpl.
    destruct (decide (j0 = j)) as [->|Hne].
    + rewrite Hj in Hj0. injection Hj0 as <-.
      exists (set_db q0 (db q)). split; [|done].
      apply list_lookup_insert_eq. by apply lookup_lt_Some in Hj.
    + exists q. split; [|done]. by rewrite list_lookup_insert_ne.
Qed.

Lemma apply_op_marked op w j : marked w j -> marked (step w op) j.
Proof.
  intros (q & Hq & Hdb).
  destruct (apply_op_marker_kept op w j q Hq Hdb) as (q' & Hq' & He).
  exists q'. split; [done|]. by rewrite He.
Qed.

Lemma save_to_DB_written_once config o now w :
  written_once w -> written_once (flush config o now w).
Proof.
  intros (Hids & Hnd & Hm).
  pose proof (fun j Hj => apply_op_marked (OpFlush config o now) w j (Hm j Hj))
    as Hm'.
  simpl in Hm'.
  destruct (flush_blocked config o) eqn:Hb.
  { pose proof (save_to_DB_blocked config getDomainString getClientIPString
                  getForwardString o now w Hb) as Hq.
    pose proof (quiet_inserted _ _ Hq) as Hi. destruct Hq as (_ & Hf & _).
    unfold written_once, ids_positive. rewrite Hi, Hf. done. }
  destruct (save_to_DB_summary config getDomainString getClientIPString
              getForwardString o now w Hb)
    as (_ & Hi & _ & (_ & _ & Hin) & _ & Hq & _).
  fold (rows_of config o now w) in Hi, Hq.
  pose proof (flush_scan_attempts config o now w) as [Hnd2 Hatt].
  assert (Hfst : (rows_of config o now w).*1 =
                 (successes o (flush_scan config o now w).2).*1)
    by (unfold flush_rows; apply number_rows_fst).
  pose proof (max_id_nonneg _ Hids) as Hpos.
  split; [|split].
  - unfold ids_positive. rewrite Hq. destruct (o_end o =? SQLITE_OK); [|done].
    apply Forall_app. split; [done|].
    eapply Forall_impl; [apply number_rows_ids|]. simpl. intros r Hr.
    unfold first_rowid in Hr. lia.
  - rewrite Hi, fmap_app. apply NoDup_app. split; [done|]. split.
    + intros j Hj Hj2. rewrite Hfst in Hj2.
      destruct (Hm j Hj) as (q & Hlk & Hdb).
      by destruct (save_to_DB_skips_marked config o now w j q Hlk Hdb) as [_ []];
        rewrite Hfst.
    + rewrite Hfst. by apply NoDup_filter_fst.
  - intros j. rewrite Hi, fmap_app, elem_of_app. intros [Hj|Hj]; [by apply Hm'|].
    rewrite Hfst in Hj. destruct (Hin j Hj) as (q & k & Hlk & Hk).
    exists (set_db q k). split; [done|]. simpl in *. lia.
Qed.

Lemma apply_op_written_once op w : written_once w -> written_once (step w op).
Proof.
  intros Hw. destruct op as [config io now|config o now|config rc1 rc2 now|q0|j0 q0].
  - destruct Hw as (Hids & Hnd & Hm).
    pose proof (fun j Hj => apply_op_marked (OpImport config io now) w j
                              (Hm j Hj)) as Hm'.
    simpl in *.
    destruct (read_data_from_DB_frame config getOverTimeID io now w)
      as (Hf & Hi & _).
    unfold written_once, ids_positive. rewrite Hi, Hf. done.
  - by apply save_to_DB_written_once.
  - destruct Hw as (Hids & Hnd & Hm).
    pose proof (fun j Hj => apply_op_marked (OpCollect config rc1 rc2 now) w j
                              (Hm j Hj)) as Hm'.
    simpl in *.
    destruct (delete_old_queries_in_DB_frame config rc1 rc2 now w)
      as ((_ & _ & _ & _ & _ & _ & Hi) & _ & _ & _ & Hq).
    unfold written_once, ids_positive. rewrite Hi, Hq.
    split; [|done]. destruct (_ && _); [|done].
    apply Forall_forall. intros r Hr. apply list_elem_of_filter in Hr as [_ Hr].
    revert r Hr. by apply Forall_forall.
  - destruct Hw as (Hids & Hnd & Hm).
    pose proof (fun j Hj => apply_op_marked (OpAppend q0) w j (Hm j Hj)) as Hm'.
    done.
  - destruct Hw as (Hids & Hnd & Hm).
    pose proof (fun j Hj => apply_op_marked (OpUpdate j0 q0) w j (Hm j Hj)) as Hm'.
    simpl in *. destruct (queries w !! j0); done.
Qed.

Lemma run_ops_written_once ops : forall w, written_once w -> written_once (run ops w).
Proof.
  induction ops as [|op ops IH]; intros w Hw; [done|].
  simpl. apply IH. by apply apply_op_written_once.
Qed.

Lemma run_ops_marker_kept ops : forall w j q,
  queries w !! j = Some q -> db q <> 0 ->
  exists q', queries (run ops w) !! j = Some q' /\ db q' = db q.
Proof.
  induction ops as [|op ops IH]; intros w j q Hj Hdb; [by exists q|].
  simpl. destruct (apply_op_marker_kept op w j q Hj Hdb) as (q1 & Hq1 & He1).
  destruct (IH _ j q1 Hq1 ltac:(congruence)) as (q2 & Hq2 & He2).
  exists q2. split; [done|congruence].
Qed.


End Marker.


(** In the example run the failed INSERT keeps the cursor at 5, the
    third flush starts there again, passes over index 6, which it
    finds marked, and every index is inserted once. *)
Example example_run_inserted :
  (inserted (trace (example_run example_ops Examples.world_seven))).*1 =
  [0; 2; 3; 4; 6; 5; 7]%nat /\
  db <$> queries (example_run example_ops Examples.world_seven) =
  [1; 7; 2; 3; 4; 6; 5; 7] ++ [1; 2; 3; 4; 5; 6; 7].
Proof. vm_compute. done. Qed.


(** In the example run seven rows are saved, three of them blocked. *)
Example example_run_counters :
  tbl_counters (file (example_run example_ops Examples.world_seven))
    !! DB_TOTALQUERIES = Some 7 /\
  tbl_counters (file (example_run example_ops Examples.world_seven))
    !! DB_BLOCKEDQUERIES = Some 3.
Proof. vm_compute. done. Qed.

(** When [last_ID_in_DB] fails it releases the handle, BEGIN
    TRANSACTION is refused and the flush returns before its loop:
    nothing is posted, inserted or marked. *)
Example save_to_DB_lastid_busy :
  let w' := Fixtures.flush Fixtures.config0 Fixtures.oracle_lastid_busy
              (Examples.t0 + 10) Examples.world_seven in
  queries w' = queries Examples.world_seven /\
  posts (trace w') = [] /\ inserted (trace w') = [] /\
  logged (trace w') =
    [LogLastIDFailed SQLITE_BUSY; LogQueryFailed SqlBegin SQLITE_MISUSE;
     LogDisabling SQLITE_MISUSE; LogBeginFailed].
Proof. vm_compute. done. Qed.



(** * Further properties *)

(** ** The persistence flag and the connection *)

Lemma database_check_database rc w :
  database (check_database rc w) = database w && tolerated rc.
Proof.
  unfold check_database, tolerated.
  destruct (rc =? SQLITE_OK), (rc =? SQLITE_DONE), (rc =? SQLITE_ROW),
    (rc =? SQLITE_BUSY); simpl; by rewrite ?andb_true_r, ?andb_false_r.
Qed.

Lemma database_sql_exec q w : database (sql_exec q w) = database w.
Proof. destruct q; simpl; try done. by destruct (txn w). Qed.

Lemma database_dbquery config rc q w :
  database (dbquery config rc q w).2 =
  if on_conn w rc =? SQLITE_OK then database w
  else database w && tolerated (on_conn w rc).
Proof.
  unfold dbquery, on_conn.
  destruct (debug_database config); simpl;
    destruct ((if conn w then rc else SQLITE_MISUSE) =? SQLITE_OK); simpl;
    by rewrite ?database_sql_exec, ?database_check_database.
Qed.

(** X1: a statement SQLite refuses (or one issued on a released
    handle) changes neither the file nor the pending transaction nor
    the shared memory; [dbquery] answers false, and persistence is
    switched off unless the code is one of OK, DONE, ROW, BUSY. *)
Theorem dbquery_refused config rc q w :
  on_conn w rc <> SQLITE_OK ->
  let r := dbquery config rc q w in
  r.1 = false /\ file r.2 = file w /\ txn r.2 = txn w /\ conn r.2 = conn w /\
  lastdbindex r.2 = lastdbindex w /\ same_memory w r.2 /\
  database r.2 = database w && tolerated (on_conn w rc).
Proof.
  intros H. cbv zeta.
  pose proof (dbquery_proj config rc q w) as P. cbv zeta in P.
  pose proof (same_memory_dbquery config rc q w) as M.
  pose proof (database_dbquery config rc q w) as D.
  apply Z.eqb_neq in H. rewrite H in D.
  destruct P as (Hr & (Hc & _ & Hl & _) & Hf & Ht).
  rewrite Hr, H in Hf, Ht. rewrite H in Hr.
  split; [exact Hr|]. split; [exact Hf|]. split; [exact Ht|].
  split; [exact Hc|]. split; [exact Hl|]. split; [exact M|exact D].
Qed.

Lemma dbquery_refused_witness :
  let w := set_conn true Examples.world_one in
  on_conn w SQLITE_BUSY <> SQLITE_OK /\
  (dbquery Fixtures.config0 SQLITE_BUSY SqlBegin w).1 = false /\
  database (dbquery Fixtures.config0 SQLITE_BUSY SqlBegin w).2 = true.
Proof.
  cbv zeta.
  assert (H : on_conn (set_conn true Examples.world_one) SQLITE_BUSY <> SQLITE_OK)
    by (vm_compute; discriminate).
  split; [exact H|].
  pose proof (dbquery_refused Fixtures.config0 SQLITE_BUSY SqlBegin
                (set_conn true Examples.world_one) H) as P.
  cbv zeta in P. destruct P as (P1 & _ & _ & _ & _ & _ & P2).
  split; [exact P1|]. rewrite P2. reflexivity.
Defined.

Lemma dbopen_flag rc w :
  database w = false -> database (dbopen rc w).2 = false.
Proof.
  intros H. unfold dbopen. destruct (negb _); simpl; [|done].
  rewrite database_check_database. simpl. by rewrite H.
Qed.

Lemma dbquery_flag config rc q w :
  database w = false -> database (dbquery config rc q w).2 = false.
Proof.
  intros H. rewrite database_dbquery, H. by destruct (_ =? _).
Qed.

Lemma last_ID_in_DB_flag rc1 rc2 w :
  database w = false -> database (last_ID_in_DB rc1 rc2 w).2 = false.
Proof.
  intros H. unfold last_ID_in_DB.
  destruct (negb _); simpl; [rewrite database_check_database; simpl; by rewrite H|].
  destruct (negb _); simpl; [rewrite database_check_database; simpl; by rewrite H|done].
Qed.

Lemma db_update_counters_flag config rc1 rc2 t b w :
  database w = false ->
  database (db_update_counters config rc1 rc2 t b w).2 = false.
Proof.
  intros H. unfold db_update_counters.
  pose proof (dbquery_flag config rc1 (SqlUpdateCounter t DB_TOTALQUERIES) w H) as H1.
  destruct (dbquery config rc1 _ w) as [r1 w1]. simpl in H1.
  destruct r1; simpl; [|done].
  pose proof (dbquery_flag config rc2 (SqlUpdateCounter b DB_BLOCKEDQUERIES) w1 H1) as H2.
  destruct (dbquery config rc2 _ w1) as [r2 w2]. simpl in H2.
  by destruct r2.
Qed.

Lemma save_prologue_flag config o w :
  database w = false ->
  match save_prologue config o w with
  | inl w' => database w' = false
  | inr (_, w') => database w' = false
  end.
Proof.
  intros H. unfold save_prologue.
  pose proof (dbopen_flag (o_open o) w H) as H1.
  destruct (dbopen _ w) as [opened w1]. simpl in H1.
  destruct opened; simpl; [|done].
  pose proof (last_ID_in_DB_flag (o_lastid_prepare o) (o_lastid_step o) w1 H1) as H2.
  destruct (last_ID_in_DB _ _ w1) as [m w2]. simpl in H2.
  pose proof (dbquery_flag config (o_begin o) SqlBegin w2 H2) as H3.
  destruct (dbquery config _ _ w2) as [ret w3]. simpl in H3.
  destruct ret; simpl; [|done].
  destruct (negb _); [|done].
  rewrite database_check_database. simpl. by rewrite H3.
Qed.

Lemma save_epilogue_flag config o i ls w :
  database w = false -> database (save_epilogue config o i ls w) = false.
Proof.
  intros H. unfold save_epilogue.
  pose proof (dbquery_flag config (o_end o) SqlEnd w H) as H1.
  destruct (dbquery config _ _ w) as [ret w1]. simpl in H1.
  destruct (negb ret || _); [done|].
  set (w2 := if (saved ls >? 0) && (saved_error ls =? 0) then _ else w1).
  assert (H2 : database w2 = false).
  { unfold w2. destruct (_ && _); [|done].
    unfold db_set_FTL_property. by apply dbquery_flag. }
  clearbody w2.
  set (p := if saved ls >? 0 then _ else (true, w2)).
  assert (H3 : database p.2 = false).
  { unfold p. destruct (saved ls >? 0); [|done].
    by apply db_update_counters_flag. }
  clearbody p. destruct p as [updated w3]. simpl in H3.
  destruct (negb updated); [done|].
  destruct (debug_database config); [|done].
  by destruct (saved_error ls >? 0).
Qed.

Lemma run_attempts_flag gd gc gf o l : forall ls w,
  database (run_attempts gd gc gf o l (ls, w)).2 = database w.
Proof.
  induction l as [|[i q] l IH]; intros ls w; [done|].
  rewrite run_attempts_cons. unfold attempt_step. simpl fst. simpl snd.
  destruct (save_attempt gd gc gf o i q ls w) as [[c ls1] w1] eqn:E.
  rewrite IH. unfold save_attempt in E.
  pose proof (curl_request_frame o i (gd i) (gc i) w) as (D1 & _).
  pose proof (insert_step_frame o i (to_int (timestamp q)) (type q) (status q)
                (gd i) (gc i) (bound_forward gf q)
                (curl_request o i (gd i) (gc i) w)) as (D2 & _).
  destruct (insert_step _ _ _ _ _ _ _ _ _) as [rc w2]. simpl in D2.
  destruct (negb _).
  - destruct (_ <? 3); injection E as _ _ <-; simpl; congruence.
  - injection E as _ _ <-. simpl. congruence.
Qed.

Lemma save_loop_flag gd gc gf o now fuel : forall i ls w,
  database (save_loop gd gc gf o now fuel i ls w).2 = database w.
Proof.
  induction fuel as [|fuel IH]; intros i ls w; simpl; [done|].
  destruct (queries w !! i) as [q|]; [|done].
  unfold save_body.
  destruct (already_saved q); [apply IH|].
  destruct (too_young now q); [done|].
  destruct (never_stored q); [apply IH|].
  pose proof (run_attempts_flag gd gc gf o [(i, q)] ls w) as R.
  unfold run_attempts, attempt_step in R. simpl in R.
  destruct (save_attempt gd gc gf o i q ls w) as [[c ls1] w1]. simpl in R.
  destruct c; [rewrite IH|]; done.
Qed.

Lemma save_to_DB_flag config gd gc gf o now w :
  database w = false -> database (save_to_DB config gd gc gf o now w) = false.
Proof.
  intros H. unfold save_to_DB.
  destruct (_ >=? _); [done|].
  pose proof (save_prologue_flag config o w H) as P.
  destruct (save_prologue config o w) as [w1|[m w1]]; [done|].
  pose proof (save_loop_flag gd gc gf o now (length (queries w1))
                (Z.to_nat (Z.max 0 (lastdbindex w1))) (mkLocals 0 0 m 0 0 0) w1) as L.
  destruct (save_loop _ _ _ _ _ _ _ _ _) as [[i ls] w2]. simpl in L.
  apply save_epilogue_flag. congruence.
Qed.

Lemma read_data_from_DB_flag config getOverTimeID io now w :
  database w = false ->
  database (read_data_from_DB config getOverTimeID io now w) = false.
Proof.
  intros H. unfold read_data_from_DB.
  destruct (_ >=? _); [done|].
  pose proof (dbopen_flag (i_open io) w H) as H1.
  destruct (dbopen _ w) as [opened w1]. simpl in H1.
  destruct opened; simpl; [|done].
  set (w2 := if debug_database config then _ else w1).
  assert (H2 : database w2 = false) by (unfold w2; by destruct (debug_database config)).
  clearbody w2.
  destruct (negb _).
  { rewrite database_check_database. simpl. by rewrite H2. }
  pose proof (import_loop_frame config getOverTimeID io now
                (selected_rows (now - cfg_maxlogage config) w2) 0 w2) as L.
  destruct (import_loop _ _ _ _ _ _ _) as [rc w3]. cbv zeta in L. simpl in L.
  destruct L as ((_ & _ & _ & _ & D & _) & _).
  destruct (negb _); [|simpl; congruence].
  rewrite database_check_database. simpl. by rewrite D, H2.
Qed.

(** X2: neither the write-back nor the import ever switches
    persistence back on: started with the flag off, both return with
    the flag off, whatever SQLite answers. *)
Theorem flush_import_never_enable config getDomainString getClientIPString
    getForwardString o now getOverTimeID io now' w :
  database w = false ->
  database (save_to_DB config getDomainString getClientIPString
              getForwardString o now w) = false /\
  database (read_data_from_DB config getOverTimeID io now' w) = false.
Proof.
  intros H. split; [by apply save_to_DB_flag|by apply read_data_from_DB_flag].
Qed.

Lemma flush_import_never_enable_witness :
  database CollectExamples.world_old_row = false /\
  database (Fixtures.flush Fixtures.config0 Fixtures.oracle_ok Examples.t0
              CollectExamples.world_old_row) = false /\
  database (Fixtures.import Fixtures.config0 Fixtures.import_ok Examples.t0
              CollectExamples.world_old_row) = false.
Proof.
  split; [reflexivity|].
  apply (flush_import_never_enable Fixtures.config0). reflexivity.
Defined.

(** ** Every path releases the handle *)

Lemma closed_dbclose w : closed (dbclose w).
Proof. done. Qed.

Lemma closed_logg m w : closed w -> closed (logg m w).
Proof. done. Qed.

Lemma closed_check_database rc w : closed w -> closed (check_database rc w).
Proof.
  intros [H1 H2]. split; [by rewrite conn_check_database|by rewrite txn_check_database].
Qed.

Lemma closed_set_database b w : closed w -> closed (set_database b w).
Proof. done. Qed.

Create HintDb closed.

#[local] Hint Resolve closed_dbclose closed_logg closed_check_database
  closed_set_database : closed.

Lemma dbopen_closed rc w : (dbopen rc w).1 = false -> closed (dbopen rc w).2.
Proof.
  unfold dbopen. destruct (negb _); simpl; [|done]. auto with closed.
Qed.

Lemma save_prologue_closed config o w :
  match save_prologue config o w with
  | inl w' => closed w'
  | inr _ => True
  end.
Proof.
  unfold save_prologue.
  pose proof (dbopen_closed (o_open o) w) as H1.
  destruct (dbopen _ w) as [opened w1]. simpl in H1.
  destruct opened; simpl; [|auto with closed].
  destruct (last_ID_in_DB _ _ w1) as [m w2].
  destruct (dbquery config _ _ w2) as [ret w3].
  destruct ret; simpl; [|auto with closed].
  destruct (negb _); [auto with closed|done].
Qed.

Lemma save_epilogue_closed config o i ls w :
  closed (save_epilogue config o i ls w).
Proof.
  unfold save_epilogue.
  destruct (dbquery config _ _ w) as [ret w1].
  destruct (negb ret || _); [auto with closed|].
  match goal with |- context [db_update_counters ?c ?a ?b ?t ?bl ?x] =>
    destruct (if saved ls >? 0 then db_update_counters c a b t bl x else (true, x))
      as [updated w3] end.
  destruct (negb updated); [auto with closed|].
  destruct (debug_database config); [|auto with closed].
  destruct (saved_error ls >? 0); auto with closed.
Qed.

Lemma save_to_DB_closed config gd gc gf o now w :
  cfg_privacylevel config < PRIVACY_NOSTATS ->
  closed (save_to_DB config gd gc gf o now w).
Proof.
  intros H. unfold save_to_DB.
  rewrite Z.geb_leb. destruct (Z.leb_spec PRIVACY_NOSTATS (cfg_privacylevel config));
    [lia|].
  pose proof (save_prologue_closed config o w) as P.
  destruct (save_prologue config o w) as [w1|[m w1]]; [done|].
  destruct (save_loop _ _ _ _ _ _ _ _ _) as [[i ls] w2].
  apply save_epilogue_closed.
Qed.

Lemma read_data_from_DB_closed config getOverTimeID io now w :
  cfg_privacylevel config < PRIVACY_NOSTATS ->
  closed (read_data_from_DB config getOverTimeID io now w).
Proof.
  intros H. unfold read_data_from_DB.
  rewrite Z.geb_leb. destruct (Z.leb_spec PRIVACY_NOSTATS (cfg_privacylevel config));
    [lia|].
  pose proof (dbopen_closed (i_open io) w) as H1.
  destruct (dbopen _ w) as [opened w1]. simpl in H1.
  destruct opened; simpl; [|auto with closed].
  destruct (negb _); [auto with closed|].
  destruct (import_loop _ _ _ _ _ _ _) as [rc w3].
  destruct (negb _); auto with closed.
Qed.

Lemma delete_old_queries_in_DB_closed config rc_open rc_delete now w :
  closed (delete_old_queries_in_DB config rc_open rc_delete now w).
Proof.
  unfold delete_old_queries_in_DB.
  pose proof (dbopen_closed rc_open w) as H1.
  destruct (dbopen _ w) as [opened w1]. simpl in H1.
  destruct opened; simpl; [|auto with closed].
  destruct (dbquery config _ _ w1) as [deleted w2].
  destruct deleted; simpl; auto with closed.
Qed.



(** ** Properties of table "ftl" *)

Lemma db_query_int_ok answer w :
  conn w = true ->
  db_query_int 0 None answer w =
  (match answer with Some v => to_int v | None => DB_NODATA end, w, []).
Proof.
  intros H. unfold db_query_int, on_conn, step_code. rewrite H. simpl.
  by destruct answer.
Qed.

(** X4: a property written by [db_set_FTL_property] is what
    [db_get_FTL_property] reads back on the same connection, and the
    properties under every other key read as before. *)
Theorem property_round_trip config ID ID' value w :
  conn w = true -> - 2 ^ 31 <= value < 2 ^ 31 ->
  let r := db_set_FTL_property config SQLITE_OK ID value w in
  r.1 = true /\
  db_get_FTL_property 0 None ID r.2 = (value, r.2, []) /\
  (ID' <> ID ->
   (db_get_FTL_property 0 None ID' r.2).1.1 =
   (db_get_FTL_property 0 None ID' w).1.1).
Proof.
  intros Hc Hv. cbv zeta. unfold db_set_FTL_property.
  pose proof (dbquery_proj config SQLITE_OK (SqlSetProperty ID value) w) as P.
  cbv zeta in P. destruct P as (Hr & (Hc1 & _) & Hf & _).
  unfold on_conn in Hr. rewrite Hc in Hr. simpl in Hr. rewrite Hr in Hf.
  destruct (dbquery config SQLITE_OK _ w) as [ret w1]. simpl in *.
  split; [done|]. unfold db_get_FTL_property.
  rewrite !db_query_int_ok by congruence. rewrite Hf. simpl.
  split.
  - by rewrite lookup_insert_eq, to_int_small.
  - intros Hne. by rewrite lookup_insert_ne.
Qed.

Lemma property_round_trip_witness :
  let w := set_conn true Examples.world_one in
  conn w = true /\
  db_get_FTL_property 0 None DB_LASTTIMESTAMP
    (db_set_FTL_property Fixtures.config0 SQLITE_OK DB_LASTTIMESTAMP
       Examples.t0 w).2 =
  (Examples.t0,
   (db_set_FTL_property Fixtures.config0 SQLITE_OK DB_LASTTIMESTAMP
      Examples.t0 w).2, []).
Proof.
  cbv zeta. split; [reflexivity|].
  refine (proj1 (proj2 (property_round_trip Fixtures.config0 DB_LASTTIMESTAMP
                          DB_VERSION Examples.t0
                          (set_conn true Examples.world_one) _ _))).
  - reflexivity.
  - unfold Examples.t0. lia.
Defined.


(** ** Counting the rows *)

Lemma stored_count_rows w :
  stored_count w = to_int (Z.of_nat (length (tbl_queries (file w)))).
Proof.
  unfold stored_count, get_number_of_queries_in_DB, number_of_queries_in_DB,
    dbopen, on_conn, visible_rows. simpl. by rewrite app_nil_r.
Qed.



(** X7: the rows of a batch are in the file as soon as END TRANSACTION
    succeeds: the count [get_number_of_queries_in_DB] reports after a
    flush is the count before plus the number of successful INSERTs;
    when END TRANSACTION fails the count is the one before. *)
Theorem count_after_flush config getDomainString getClientIPString
    getForwardString o now w :
  flush_blocked config o = false ->
  let n := Z.of_nat (length (successes o (flush_scan config o now w).2)) in
  Z.of_nat (length (tbl_queries (file w))) + n < 2 ^ 31 ->
  stored_count (save_to_DB config getDomainString getClientIPString
                  getForwardString o now w) =
  stored_count w + (if o_end o =? SQLITE_OK then n else 0).
Proof.
  intros Hb n Hn. rewrite !stored_count_rows.
  pose proof (save_to_DB_summary config getDomainString getClientIPString
                getForwardString o now w Hb) as S. cbv zeta in S.
  destruct S as (_ & _ & _ & _ & _ & Hrows & _). rewrite Hrows.
  destruct (o_end o =? SQLITE_OK).
  - rewrite length_app, length_fmap. unfold flush_rows.
    assert (L : forall mk id l, length (number_rows mk id l) = length l).
    { intros mk id l. revert id. induction l as [|a l IH]; intros id; simpl;
        [done|by rewrite IH]. }
    rewrite L. fold n. rewrite !to_int_small; lia.
  - rewrite Z.add_0_r. done.
Qed.

Lemma count_after_flush_witness :
  flush_blocked Fixtures.config0 Fixtures.oracle_ok = false /\
  stored_count (Fixtures.flush Fixtures.config0 Fixtures.oracle_ok
                  (Examples.t0 + 10) Examples.world_seven) = 4.
Proof.
  split; [reflexivity|]. unfold Fixtures.flush.
  rewrite (count_after_flush Fixtures.config0 Fixtures.domain_of
             Fixtures.client_of Fixtures.forward_of Fixtures.oracle_ok
             (Examples.t0 + 10) Examples.world_seven);
    [reflexivity|reflexivity|vm_compute; reflexivity].
Defined.

(** ** The transaction and the markers *)

(** X8: when END TRANSACTION fails the batch is rolled back, but the
    markers the loop has set stay: no row reaches the file, the cursor
    and the counters stay where they were, and every record whose
    INSERT had succeeded is marked, so that no later flush writes it. *)
Theorem save_to_DB_rollback_keeps_markers config getDomainString
    getClientIPString getForwardString o now w :
  flush_blocked config o = false -> o_end o <> SQLITE_OK -> ids_positive w ->
  let w' := save_to_DB config getDomainString getClientIPString
              getForwardString o now w in
  tbl_queries (file w') = tbl_queries (file w) /\
  tbl_counters (file w') = tbl_counters (file w) /\
  lastdbindex w' = lastdbindex w /\
  forall j, j ∈ (successes o (flush_scan config o now w).2).*1 ->
    marked w' j /\
    forall config' o' now',
      j ∉ (flush_rows getDomainString getClientIPString getForwardString
             config' o' now' w').*1.
Proof.
  intros Hb He Hpos. cbv zeta.
  pose proof (save_to_DB_summary config getDomainString getClientIPString
                getForwardString o now w Hb) as S. cbv zeta in S.
  destruct S as (_ & _ & _ & (_ & _ & Hin) & Hl & Hrows & _ & Hcnt).
  apply Z.eqb_neq in He. unfold commit_ok in *. rewrite He in *. simpl in *.
  split; [done|]. split; [done|]. split; [done|].
  intros j Hj. destruct (Hin j Hj) as (q & k & Hq & Hk).
  pose proof (max_id_nonneg _ Hpos) as Hm. simpl in Hk.
  assert (Hdb : db (set_db q k) <> 0) by (simpl; lia).
  split; [by exists (set_db q k)|].
  intros config' o' now'.
  exact (proj2 (save_to_DB_skips_marked getDomainString getClientIPString
                  getForwardString config' o' now' _ j _ Hq Hdb)).
Qed.

Lemma save_to_DB_rollback_keeps_markers_witness :
  let o := mkSaveOracle 0 0 SQLITE_ROW 0 0 (fun _ => true) (fun _ => 0)
             (fun _ => SQLITE_DONE) SQLITE_BUSY 0 0 0 0 in
  let w' := Fixtures.flush Fixtures.config0 o (Examples.t0 + 10)
              Examples.world_seven in
  o_end o <> SQLITE_OK /\ tbl_queries (file w') = [] /\ marked w' 0.
Proof.
  cbv zeta.
  set (o := mkSaveOracle 0 0 SQLITE_ROW 0 0 (fun _ => true) (fun _ => 0)
              (fun _ => SQLITE_DONE) SQLITE_BUSY 0 0 0 0).
  assert (He : o_end o <> SQLITE_OK) by (vm_compute; discriminate).
  split; [exact He|].
  pose proof (save_to_DB_rollback_keeps_markers Fixtures.config0
                Fixtures.domain_of Fixtures.client_of Fixtures.forward_of o
                (Examples.t0 + 10) Examples.world_seven eq_refl He
                ltac:(constructor)) as P.
  cbv zeta in P. destruct P as (P1 & _ & _ & P2).
  split; [exact P1|].
  apply (P2 0%nat). vm_compute. repeat constructor.
Defined.

Section Markers.

Variable getDomainString : nat -> string.
Variable getClientIPString : nat -> string.
Variable getForwardString : Z -> string.
Variable o : save_oracle.

Local Abbreviation attempt :=
  (save_attempt getDomainString getClientIPString getForwardString o).
Local Abbreviation run :=
  (run_attempts getDomainString getClientIPString getForwardString o).
Local Abbreviation row_of :=
  (bound_row getDomainString getClientIPString getForwardString).

(** The marker of each record of the batch against the id of its row:
    the two sequences run in step, [lastID + 1] against the store's
    next row id. *)
Lemma run_attempts_markers l : forall ls w pending,
  conn w = true -> txn w = Some pending -> NoDup l.*1 ->
  (forall j q, (j, q) ∈ l -> (j < length (queries w))%nat) ->
  forall j r, (j, r) ∈ number_rows row_of (next_rowid w) (successes o l) ->
    exists q, queries (run l (ls, w)).2 !! j = Some q /\
              db q = r_id r + (lastID ls + 1 - next_rowid w).
Proof.
  induction l as [|[i q0] l IH]; intros ls w pending Hc Ht Hnd Hlen j r Hjr.
  { by apply elem_of_nil in Hjr. }
  rewrite run_cons. simpl fst. simpl snd.
  destruct (attempt i q0 ls w) as [[c ls1] w1] eqn:Ha. simpl fst. simpl snd.
  destruct (save_attempt_step _ _ _ _ _ _ _ _ _ _ _ _ Hc Ht Ha)
    as ((Hc1 & _) & _ & Hcase).
  rewrite fmap_cons in Hnd. apply NoDup_cons in Hnd as [Hni Hnd].
  assert (Hlen' : forall j q, (j, q) ∈ l -> (j < length (queries w))%nat).
  { intros j' q' H. apply (Hlen j' q'). by apply list_elem_of_further. }
  unfold successes in Hjr. rewrite filter_cons in Hjr.
  destruct (decide (step_ok o (i, q0) = true)) as [Hs|Hs].
  - rewrite Hs in Hcase. destruct Hcase as (Ht1 & Hn1 & _ & Hq1 & Hls1).
    assert (Hlq : length (queries w1) = length (queries w))
      by (by rewrite Hq1, length_insert).
    simpl in Hjr. apply elem_of_cons in Hjr as [Hjr|Hjr].
    + injection Hjr as -> ->.
      destruct (run_attempts_queries getDomainString getClientIPString
                  getForwardString o l ls1 w1 _ Hc1 Ht1) as (_ & Hout & _).
      assert (Hno : i ∉ (successes o l).*1).
      { intros Hin. apply Hni. apply list_elem_of_fmap in Hin as (x & -> & Hin).
        apply list_elem_of_filter in Hin as [_ Hin].
        apply list_elem_of_fmap. by exists x. }
      rewrite (Hout i Hno), Hq1.
      exists (set_db q0 (lastID ls + 1)). split.
      * apply list_lookup_insert_eq. apply (Hlen i q0), list_elem_of_here.
      * simpl. lia.
    + destruct (IH ls1 w1 _ Hc1 Ht1 Hnd
                  ltac:(intros j' q' H; rewrite Hlq; by apply (Hlen' j' q'))
                  j r ltac:(by rewrite Hn1)) as (q & Hq & Hdb).
      exists q. split; [done|]. rewrite Hdb, Hn1, Hls1. simpl. lia.
  - apply not_true_is_false in Hs. rewrite Hs in Hcase.
    destruct Hcase as (Ht1 & Hn1 & _ & Hq1 & Hls1).
    destruct (IH ls1 w1 _ Hc1 Ht1 Hnd
                ltac:(intros j' q' H; rewrite Hq1; by apply (Hlen' j' q'))
                j r ltac:(by rewrite Hn1)) as (q & Hq & Hdb).
    exists q. split; [done|]. rewrite Hdb, Hn1, Hls1. simpl. lia.
Qed.

End Markers.

(** X9: the marker a flush writes into a record and the id the store
    gives the record's row run in step, the marker from MAX(ID) + 1,
    the row id from the AUTOINCREMENT memory: they differ by the
    amount the memory is ahead of MAX(ID), so they are equal unless
    the rows with the highest ids have been deleted. *)
Theorem marker_and_row_id config getDomainString getClientIPString
    getForwardString o now w :
  flush_blocked config o = false ->
  let m := default 0 (max_id (tbl_queries (file w))) in
  forall j r,
    (j, r) ∈ flush_rows getDomainString getClientIPString getForwardString
               config o now w ->
    exists q,
      queries (save_to_DB config getDomainString getClientIPString
                 getForwardString o now w) !! j = Some q /\
      r_id r - db q = Z.max (tbl_seq (file w)) m - m.
Proof.
  intros Hb m j r Hjr.
  rewrite (save_to_DB_run config getDomainString getClientIPString
             getForwardString o now w Hb). cbv zeta.
  destruct (flush_scan_attempts config o now w) as [Hnd Hatt].
  unfold flush_rows in Hjr.
  destruct (flush_scan config o now w) as [stop l]. simpl fst in *. simpl snd in *.
  destruct (loop_entry_facts config w) as (Hc & Ht & Hf & Hq & Hl & Hn & Hm).
  set (w0 := loop_entry config w) in *.
  destruct (run_attempts_world getDomainString getClientIPString getForwardString
              o l (locals0 w) w0 [] Hc Ht) as ((Hc1 & _) & Ht1 & _).
  destruct (run_attempts_markers getDomainString getClientIPString
              getForwardString o l (locals0 w) w0 [] Hc Ht Hnd
              ltac:(intros j' q' H; rewrite Hq;
                    destruct (Hatt j' q' H) as (_ & Hlk & _);
                    by apply lookup_lt_Some in Hlk)
              j r ltac:(by rewrite Hn)) as (q & Hlk & Hdb).
  destruct (save_epilogue_spec config o stop
              (run_attempts getDomainString getClientIPString getForwardString
                 o l (locals0 w, w0)).1 _ _ Hc1 Ht1) as ((Hq2 & _) & _).
  exists q. rewrite Hq2. split; [exact Hlk|].
  rewrite Hdb, Hn. unfold first_rowid, locals0. simpl. fold m. lia.
Qed.

Lemma marker_and_row_id_witness :
  let w := Fixtures.world_of
             (mkFile [] 5 (tbl_ftl Fixtures.file0) (tbl_counters Fixtures.file0))
             [Fixtures.query Examples.t0 QUERY_CACHE true 0 0] in
  let r := mkRow 6 Examples.t0 TYPE_A QUERY_CACHE (Some "example.com")
             (Some "10.0.0.1") None in
  (0%nat, r) ∈ flush_rows Fixtures.domain_of Fixtures.client_of
                 Fixtures.forward_of Fixtures.config0 Fixtures.oracle_ok
                 (Examples.t0 + 10) w /\
  exists q, queries (Fixtures.flush Fixtures.config0 Fixtures.oracle_ok
                       (Examples.t0 + 10) w) !! 0%nat = Some q /\
            r_id r - db q = 5.
Proof.
  cbv zeta.
  set (w := Fixtures.world_of _ _).
  set (r := mkRow _ _ _ _ _ _ _).
  assert (H : (0%nat, r) ∈ flush_rows Fixtures.domain_of Fixtures.client_of
                 Fixtures.forward_of Fixtures.config0 Fixtures.oracle_ok
                 (Examples.t0 + 10) w) by (vm_compute; repeat constructor).
  split; [exact H|].
  exact (marker_and_row_id Fixtures.config0 Fixtures.domain_of Fixtures.client_of
           Fixtures.forward_of Fixtures.oracle_ok (Examples.t0 + 10) w eq_refl
           0%nat r H).
Defined.

(** ** The import as a fold over the rows *)

Section ImportRun.

Variable config : ConfigStruct.
Variable getOverTimeID : Z -> Z.
Variable io : import_oracle.
Variable now : Z.

Local Abbreviation import_one := (import_row config getOverTimeID io now).
Local Abbreviation import_all := (read_data_from_DB config getOverTimeID io now).

Lemma import_loop_seen rows : forall k w,
  import_loop config getOverTimeID io now rows k w =
  (import_code io k rows,
   foldl (fun w r => import_one r w) w (rows_seen io k rows)).
Proof.
  induction rows as [|r rows IH]; intros k w; simpl;
    destruct (step_error io k); try done; apply IH.
Qed.

Lemma rows_seen_prefix rows : forall k, rows_seen io k rows `prefix_of` rows.
Proof.
  induction rows as [|r rows IH]; intros k; simpl.
  - destruct (step_error io k); apply prefix_nil.
  - destruct (step_error io k); [apply prefix_nil|]. by apply prefix_cons.
Qed.

Lemma rows_seen_all rows : forall k,
  (forall j, step_error io j = None) -> rows_seen io k rows = rows.
Proof.
  induction rows as [|r rows IH]; intros k H; simpl; rewrite H; [done|].
  by rewrite IH.
Qed.

Lemma read_data_from_DB_run w :
  import_ready config io = true ->
  import_all w =
  import_exit (import_code io 0 (import_rows config now w))
    (foldl (fun w r => import_one r w) (import_entry config now w)
       (rows_seen io 0 (import_rows config now w))).
Proof.
  unfold import_ready, read_data_from_DB, dbopen, on_conn. intros H.
  apply andb_true_iff in H as [H H3]. apply andb_true_iff in H as [H1 H2].
  rewrite Z.geb_leb, Z.leb_antisym, H1, H2. simpl.
  fold (import_entry config now w).
  assert (H0 : conn (import_entry config now w) = true /\
               visible_rows (import_entry config now w) = tbl_queries (file w)).
  { unfold import_entry, visible_rows.
    destruct (debug_database config); simpl; by rewrite app_nil_r. }
  destruct H0 as [Hc Hv]. rewrite Hc, H3. simpl.
  unfold selected_rows. rewrite Hv. fold (import_rows config now w).
  rewrite import_loop_seen. reflexivity.
Qed.

End ImportRun.

(** ** What the import counts *)

Section ImportCounts.

Variable config : ConfigStruct.
Variable getOverTimeID : Z -> Z.
Variable io : import_oracle.
Variable now : Z.

Local Abbreviation import_one := (import_row config getOverTimeID io now).
Local Abbreviation import_all := (read_data_from_DB config getOverTimeID io now).
Local Abbreviation store := (store_query getOverTimeID io).

Lemma count_status_total st ts ti d c w :
  QUERY_UNKNOWN <= st <= QUERY_EXTERNAL_BLOCKED_NXRA ->
  let w' := count_status st ts ti d c w in
  status_total w' = status_total w + 1 /\ trace w' = trace w /\
  forall t, agg w' (CntQuerytype t) = agg w (CntQuerytype t).
Proof.
  intros H.
  assert (Hst : st = 0 \/ st = 1 \/ st = 2 \/ st = 3 \/ st = 4 \/ st = 5 \/
                st = 6 \/ st = 7 \/ st = 8)
    by (unfold QUERY_UNKNOWN, QUERY_EXTERNAL_BLOCKED_NXRA in H; lia).
  unfold status_total.
  repeat (destruct Hst as [->|Hst]); try subst st; simpl;
    (split; [lia|done]).
Qed.

Lemma store_query_counts dbid ts ty st fid domain client w :
  TYPE_A <= ty < TYPE_MAX ->
  QUERY_UNKNOWN <= st <= QUERY_EXTERNAL_BLOCKED_NXRA ->
  let w' := store dbid ts ty st fid domain client w in
  status_total w' = status_total w + 1 /\
  type_total w' = type_total w + 1 /\
  trace w' = trace w.
Proof.
  intros Hty Hst. unfold store_query, findDomainID, findClientID.
  destruct (intern domain (domains w)) as [d tbl1]. simpl.
  destruct (intern client _) as [c tbl2]. simpl.
  match goal with |- context [count_status st ts ?ti ?d ?c ?x] =>
    pose proof (count_status_total st ts ti d c x Hst) as H; cbv zeta in H;
    destruct H as (H1 & H2 & H3) end.
  rewrite H1, H2. unfold type_total. simpl. rewrite !H3.
  assert (Ht : ty = 1 \/ ty = 2 \/ ty = 3 \/ ty = 4 \/ ty = 5 \/ ty = 6 \/ ty = 7)
    by (unfold TYPE_A, TYPE_MAX in Hty; lia).
  unfold status_total.
  repeat (destruct Ht as [->|Ht]); try subst ty; simpl; (split; [lia|]);
    (split; [lia|done]).
Qed.

Lemma diagnostic_known r m :
  diagnostic config now r = Some m -> forall st ts, m <> LogUnknownStatus st ts.
Proof.
  unfold diagnostic. intros H st ts ->.
  repeat match type of H with
         | (if ?b then _ else _) = _ => destruct b
         end; discriminate.
Qed.

Lemma skipped_by_code_false r :
  skipped_by_code config now r = false ->
  1483228800 <= to_int (r_timestamp r) <= now /\
  TYPE_A <= to_int (r_type r) < TYPE_MAX /\
  QUERY_UNKNOWN <= to_int (r_status r) <= QUERY_EXTERNAL_BLOCKED_NXRA.
Proof.
  unfold skipped_by_code. cbv zeta. rewrite !orb_false_iff.
  intros ((((((((((H1 & H2) & H3) & H4) & _) & H5) & H6) & _) & _) & _) & _).
  rewrite Z.ltb_ge in H1, H3, H5. rewrite Z.gtb_ltb, Z.ltb_ge in H2, H6.
  rewrite Z.geb_leb, Z.leb_gt in H4. lia.
Qed.

(** One turn of the loop, by what the tests say of its row. *)
Lemma import_row_effect r w :
  let w' := import_one r w in
  if skipped_by_code config now r then
    queries w' = queries w /\ agg w' = agg w /\
    (trace w' = trace w \/
     exists m, diagnostic config now r = Some m /\ trace w' = trace w ++ [EvLogg m])
  else
    exists q, queries w' = queries w ++ [q] /\ record_of_row q r /\
              status_total w' = status_total w + 1 /\
              type_total w' = type_total w + 1 /\ trace w' = trace w.
Proof.
  cbv zeta.
  destruct (import_row_cases config getOverTimeID io now r w)
    as [[Hs ->]|(Hs & w1 & Hw1 & fid & ->)]; rewrite Hs.
  - destruct (diagnostic config now r) as [m|] eqn:Hd.
    + split; [done|]. split; [done|]. right. by exists m.
    + split; [done|]. split; [done|]. by left.
  - destruct (skipped_by_code_false r Hs) as (_ & Hty & Hst).
    assert (H1 : queries w1 = queries w /\ agg w1 = agg w /\ trace w1 = trace w).
    { destruct Hw1 as [->|(f & _ & ->)]; [done|].
      unfold findForwardID. by destruct (intern f (forwarded w)). }
    destruct H1 as (Hq1 & Ha1 & Ht1).
    destruct (store_query_spec getOverTimeID io (r_id r) (to_int (r_timestamp r))
                (to_int (r_type r)) (to_int (r_status r)) fid
                (default "" (r_domain r)) (default "" (r_client r)) w1)
      as ((q & Hq & Hdb & Hc & Hts & Hty' & Hst' & _) & _).
    destruct (store_query_counts (r_id r) (to_int (r_timestamp r))
                (to_int (r_type r)) (to_int (r_status r)) fid
                (default "" (r_domain r)) (default "" (r_client r)) w1 Hty Hst)
      as (Hs1 & Hs2 & Hs3).
    exists q. rewrite Hq, Hq1, Hs1, Hs2, Hs3, Ht1.
    unfold status_total, type_total. simpl. rewrite !Ha1.
    split; [done|]. split; [by repeat split|]. done.
Qed.

Lemma no_unknown_status_snoc tr m :
  no_unknown_status tr -> (forall st ts, m <> LogUnknownStatus st ts) ->
  no_unknown_status (tr ++ [EvLogg m]).
Proof.
  intros H Hm st ts Hin. apply elem_of_app in Hin as [Hin|Hin].
  - by apply (H st ts).
  - apply list_elem_of_singleton in Hin. injection Hin as Hin.
    by apply (Hm st ts).
Qed.

(** The loop over a list of rows. *)
Lemma import_fold rows : forall w,
  let w' := foldl (fun w r => import_one r w) w rows in
  exists new,
    queries w' = queries w ++ new /\
    Forall2 record_of_row new (accepted config now rows) /\
    status_total w' = status_total w + Z.of_nat (length new) /\
    type_total w' = type_total w + Z.of_nat (length new) /\
    (no_unknown_status (trace w) -> no_unknown_status (trace w')).
Proof.
  induction rows as [|r rows IH]; intros w; cbv zeta.
  { exists []. simpl. rewrite app_nil_r, !Z.add_0_r.
    split; [done|]. split; [constructor|]. by repeat split. }
  simpl. destruct (IH (import_one r w)) as (new & Hq & Hf & Hs & Hy & Hn).
  pose proof (import_row_effect r w) as E. cbv zeta in E.
  unfold accepted. rewrite filter_cons.
  destruct (skipped_by_code config now r) eqn:Hsk.
  - destruct E as (Eq & Ea & Et).
    destruct (decide (true = false)) as [?|_]; [done|].
    exists new. rewrite Hq, Eq, Hs, Hy. unfold status_total, type_total.
    simpl. rewrite !Ea.
    split; [done|]. split; [exact Hf|]. split; [done|]. split; [done|].
    intros H. apply Hn. destruct Et as [->|(m & Hm & ->)]; [done|].
    apply no_unknown_status_snoc; [done|]. by apply (diagnostic_known r).
  - destruct E as (q & Eq & Er & Es & Ey & Et).
    destruct (decide (false = false)) as [_|?]; [|done].
    exists (q :: new). rewrite Hq, Eq, Hs, Hy, Es, Ey, <- app_assoc.
    split; [done|]. split; [by constructor|].
    rewrite length_cons, Nat2Z.inj_succ.
    split; [lia|]. split; [lia|]. intros H. apply Hn. by rewrite Et.
Qed.

Lemma import_entry_frame w :
  let w0 := import_entry config now w in
  queries w0 = queries w /\ agg w0 = agg w /\ database w0 = database w /\
  (no_unknown_status (trace w) -> no_unknown_status (trace w0)).
Proof.
  unfold import_entry. destruct (debug_database config); simpl.
  - split; [done|]. split; [done|]. split; [done|]. intros H.
    by apply no_unknown_status_snoc.
  - split; [done|]. split; [done|]. split; done.
Qed.

Lemma import_exit_frame rc w :
  let w' := import_exit rc w in
  queries w' = queries w /\ agg w' = agg w /\
  lastdbindex w' = Z.of_nat (length (queries w)) /\
  database w' = database w && tolerated rc /\
  (no_unknown_status (trace w) -> no_unknown_status (trace w')).
Proof.
  unfold import_exit. cbv zeta.
  destruct (rc =? SQLITE_DONE) eqn:E; simpl.
  - apply Z.eqb_eq in E. subst rc.
    split; [done|]. split; [done|]. split; [done|].
    split; [by rewrite andb_true_r|]. intros H.
    by apply no_unknown_status_snoc.
  - set (x := dbclose _).
    pose proof (check_database_frame rc x) as C. cbv zeta in C.
    destruct C as (Hq & _ & Hl & Ha & _).
    rewrite Hq, Hl, Ha, database_check_database.
    split; [done|]. split; [done|]. split; [done|]. split; [done|].
    intros H. unfold check_database.
    assert (Hx : no_unknown_status (trace x)).
    { unfold x. simpl. by repeat apply no_unknown_status_snoc. }
    destruct (_ && _); [|done]. simpl. by apply no_unknown_status_snoc.
Qed.

End ImportCounts.





Lemma no_unknown_status_check_database rc w :
  no_unknown_status (trace w) -> no_unknown_status (trace (check_database rc w)).
Proof.
  intros H. unfold check_database. destruct (_ && _); [|done].
  simpl. by apply no_unknown_status_snoc.
Qed.

Lemma read_data_from_DB_not_ready config getOverTimeID io now w :
  import_ready config io = false ->
  no_unknown_status (trace w) ->
  no_unknown_status (trace (read_data_from_DB config getOverTimeID io now w)).
Proof.
  unfold import_ready, read_data_from_DB, dbopen, on_conn. intros H Hn.
  rewrite Z.geb_leb, Z.leb_antisym.
  destruct (cfg_privacylevel config <? PRIVACY_NOSTATS); simpl in *; [|done].
  destruct (i_open io =? 0); simpl in *.
  2:{ apply no_unknown_status_snoc; [|done].
      apply no_unknown_status_check_database. simpl.
      by apply no_unknown_status_snoc. }
  destruct (debug_database config); simpl; rewrite H; simpl;
    apply no_unknown_status_check_database; simpl;
    by repeat apply no_unknown_status_snoc.
Qed.

(** X12: the import counts every record it adds exactly once in the
    status counters and once in the query-type counters: after it,
    the sum of the four status counters and the sum of the seven type
    counters have both grown by the number of records added; and it
    never reaches the "unknown status" branch of its switch. *)
Theorem import_counters config getOverTimeID io now w :
  let w' := read_data_from_DB config getOverTimeID io now w in
  let added := Z.of_nat (length (queries w')) - Z.of_nat (length (queries w)) in
  status_total w' = status_total w + added /\
  type_total w' = type_total w + added /\
  (no_unknown_status (trace w) -> no_unknown_status (trace w')).
Proof.
  cbv zeta. destruct (import_ready config io) eqn:Hr.
  - rewrite (read_data_from_DB_run config getOverTimeID io now w Hr).
    destruct (import_exit_frame
                (import_code io 0 (import_rows config now w))
                (foldl (fun w r => import_row config getOverTimeID io now r w)
                   (import_entry config now w)
                   (rows_seen io 0 (import_rows config now w))))
      as (Hq & Ha & _ & _ & Hn).
    destruct (import_fold config getOverTimeID io now
                (rows_seen io 0 (import_rows config now w))
                (import_entry config now w)) as (new & Hq1 & _ & Hs & Hy & Hn1).
    destruct (import_entry_frame config now w) as (Hq0 & Ha0 & _ & Hn0).
    unfold status_total, type_total in *. simpl in *.
    rewrite Hq, !Ha, Hq1, Hq0, length_app, Hs, Hy, !Ha0.
    split; [lia|]. split; [lia|]. auto.
  - pose proof (read_data_from_DB_blocked config getOverTimeID io now w Hr)
      as (Hq & _ & _ & Ha & _).
    unfold status_total, type_total. simpl. rewrite Hq, !Ha.
    split; [lia|]. split; [lia|].
    by apply read_data_from_DB_not_ready.
Qed.

Lemma import_counters_witness :
  let w' := Fixtures.import Fixtures.config0 Fixtures.import_ok
              (Examples.t0 + 10) ImportExamples.world_type99 in
  no_unknown_status (trace ImportExamples.world_type99) /\
  status_total w' = 2 /\ no_unknown_status (trace w').
Proof.
  cbv zeta.
  assert (H : no_unknown_status (trace ImportExamples.world_type99)).
  { intros st ts Hin. by apply elem_of_nil in Hin. }
  split; [exact H|]. unfold Fixtures.import.
  destruct (import_counters Fixtures.config0 Fixtures.slot_of Fixtures.import_ok
              (Examples.t0 + 10) ImportExamples.world_type99) as (Hs & _ & Hn).
  split; [rewrite Hs; reflexivity|exact (Hn H)].
Defined.

Lemma Forall2_Forall_elem {A B} (R : A -> B -> Prop) (P : A -> Prop) l k :
  Forall2 R l k -> (forall a b, b ∈ k -> R a b -> P a) -> Forall P l.
Proof.
  induction 1 as [|a b l k HR _ IH]; intros H; constructor.
  - apply (H a b); [apply list_elem_of_here|done].
  - apply IH. intros a' b' Hb. apply H. by apply list_elem_of_further.
Qed.

(** X13: whatever SQLite answers, every record an import adds is
    complete, has a timestamp between 1 January 2017 and the time of
    the import, a known type and a known status, and is marked with
    the id of a row of the file that is no older than [maxlogage]. *)
Theorem import_bounds config getOverTimeID io now w :
  exists new,
    queries (read_data_from_DB config getOverTimeID io now w) = queries w ++ new /\
    Forall (well_imported config now w) new.
Proof.
  destruct (import_ready config io) eqn:Hr.
  2:{ exists []. rewrite app_nil_r. split; [|constructor].
      by destruct (read_data_from_DB_blocked config getOverTimeID io now w Hr)
        as (-> & _). }
  rewrite (read_data_from_DB_run config getOverTimeID io now w Hr).
  destruct (import_exit_frame
              (import_code io 0 (import_rows config now w))
              (foldl (fun w r => import_row config getOverTimeID io now r w)
                 (import_entry config now w)
                 (rows_seen io 0 (import_rows config now w)))) as (-> & _).
  destruct (import_fold config getOverTimeID io now
              (rows_seen io 0 (import_rows config now w))
              (import_entry config now w)) as (new & Hq & Hf & _).
  destruct (import_entry_frame config now w) as (Hq0 & _).
  exists new. split; [by rewrite Hq, Hq0|].
  apply (Forall2_Forall_elem _ _ _ _ Hf).
  intros q r Hin (Hdb & Hts & Hty & Hst & Hc).
  unfold accepted in Hin. apply list_elem_of_filter in Hin as [Hsk Hin].
  destruct (skipped_by_code_false config now r Hsk) as (B1 & B2 & B3).
  pose proof (rows_seen_prefix io (import_rows config now w) 0) as [rest Hp].
  assert (Hin' : r ∈ import_rows config now w).
  { rewrite Hp. apply elem_of_app. by left. }
  unfold import_rows in Hin'. apply list_elem_of_filter in Hin' as [Hage Hin'].
  unfold well_imported. rewrite Hts, Hty, Hst.
  split; [done|]. split; [done|]. split; [done|]. split; [done|].
  exists r. by repeat split.
Qed.

(** ** From the log to the file and back *)



(** X15: a record with status "forwarded" whose [forwardID] is
    negative is written with a NULL forward column, and a row like
    that is passed over by the import: such a record never comes back
    from the file. *)
Theorem forwarded_without_upstream_lost config getDomainString
    getClientIPString getForwardString getOverTimeID io now id a w :
  status a.2 = QUERY_FORWARDED -> forwardID a.2 <= -1 ->
  let r := bound_row getDomainString getClientIPString getForwardString id a in
  let w' := import_row config getOverTimeID io now r w in
  r_forward r = None /\ queries w' = queries w /\ agg w' = agg w.
Proof.
  intros Hst Hfw r. cbv zeta.
  assert (Hn : r_forward r = None).
  { unfold r, bound_row, bound_forward. simpl. rewrite Hst. simpl.
    assert (G : (forwardID a.2 >? -1) = false).
    { rewrite Z.gtb_ltb. apply Z.ltb_ge. lia. }
    by rewrite G. }
  split; [exact Hn|].
  assert (Hsk : skipped_by_code config now r = true).
  { unfold skipped_by_code. cbv zeta. rewrite Hn.
    assert (T : to_int (r_status r) = QUERY_FORWARDED).
    { unfold r, bound_row. simpl. rewrite Hst. reflexivity. }
    rewrite T. simpl. by rewrite !orb_true_r. }
  pose proof (import_row_effect config getOverTimeID io now r w) as E.
  cbv zeta in E. rewrite Hsk in E. destruct E as (Hq & Ha & _). done.
Qed.

Lemma forwarded_without_upstream_lost_witness :
  let a := (0%nat, Fixtures.query Examples.t0 QUERY_FORWARDED true 0 0) in
  let r := bound_row Fixtures.domain_of Fixtures.client_of Fixtures.forward_of 7 a in
  status a.2 = QUERY_FORWARDED /\ forwardID a.2 <= -1 /\
  queries (import_row Fixtures.config0 Fixtures.slot_of Fixtures.import_ok
             (Examples.t0 + 10) r CollectExamples.world_empty) = [].
Proof.
  cbv zeta. split; [reflexivity|]. split; [simpl; lia|].
  refine (proj1 (proj2 (forwarded_without_upstream_lost Fixtures.config0
            Fixtures.domain_of Fixtures.client_of Fixtures.forward_of
            Fixtures.slot_of Fixtures.import_ok (Examples.t0 + 10) 7
            (0%nat, Fixtures.query Examples.t0 QUERY_FORWARDED true 0 0)
            CollectExamples.world_empty _ _))).
  - reflexivity.
  - simpl. lia.
Defined.

(** ** The database thread *)

Lemma aligned_spec tconfig t :
  0 < cfg_DBinterval tconfig -> 0 <= t < 2 ^ 31 ->
  aligned tconfig t t = cfg_DBinterval tconfig * (t / cfg_DBinterval tconfig).
Proof.
  intros Hd Ht. unfold aligned. rewrite Z.rem_mod_nonneg by lia.
  pose proof (Z.div_mod t (cfg_DBinterval tconfig) ltac:(lia)) as E.
  pose proof (Z.mod_pos_bound t (cfg_DBinterval tconfig) Hd) as B.
  pose proof (Z.mod_le t (cfg_DBinterval tconfig) ltac:(lia) Hd) as L.
  rewrite to_int_small; lia.
Qed.

Section ThreadProps.

Variable config : ConfigStruct.
Variable tconfig : ThreadConfig.
Variable getDomainString : nat -> string.
Variable getClientIPString : nat -> string.
Variable getForwardString : Z -> string.
Variable parse_arp_cache : world -> world.

Local Abbreviation turn :=
  (DB_thread_turn config tconfig getDomainString getClientIPString
     getForwardString parse_arp_cache).
Local Abbreviation interval := (cfg_DBinterval tconfig).

Lemma DB_thread_turn_runs ti s :
  interval <= in_time_check ti - lastDBsave s ->
  lastDBsave (turn ti s) = aligned tconfig (in_time_align ti) (in_time_rem ti) /\
  DBdeleteoldqueries (turn ti s) = false.
Proof.
  intros H. unfold DB_thread_turn.
  assert (E : (in_time_check ti - lastDBsave s >=? interval) = true).
  { rewrite Z.geb_leb. apply Z.leb_le. lia. }
  rewrite E. destruct (DBdeleteoldqueries s) eqn:G; simpl; by rewrite ?G.
Qed.

Lemma DB_thread_turn_waits ti s :
  in_time_check ti - lastDBsave s < interval -> turn ti s = s.
Proof.
  intros H. unfold DB_thread_turn.
  assert (E : (in_time_check ti - lastDBsave s >=? interval) = false).
  { rewrite Z.geb_leb. apply Z.leb_gt. lia. }
  by rewrite E.
Qed.

End ThreadProps.

(** X16: a turn of the thread that flushes at clock reading [t] moves
    [lastDBsave] to the start of the interval [t] lies in: a multiple
    of the interval, at most [t] and less than one interval before
    it; and it clears the collection request. *)
Theorem DB_thread_turn_aligns config tconfig getDomainString getClientIPString
    getForwardString parse_arp_cache ti s t :
  0 < cfg_DBinterval tconfig -> 0 <= t < 2 ^ 31 ->
  in_time_align ti = t -> in_time_rem ti = t ->
  cfg_DBinterval tconfig <= in_time_check ti - lastDBsave s ->
  let s' := DB_thread_turn config tconfig getDomainString getClientIPString
              getForwardString parse_arp_cache ti s in
  lastDBsave s' mod cfg_DBinterval tconfig = 0 /\
  lastDBsave s' <= t < lastDBsave s' + cfg_DBinterval tconfig /\
  DBdeleteoldqueries s' = false.
Proof.
  intros Hd Ht Ha Hr Hrun. cbv zeta.
  destruct (DB_thread_turn_runs config tconfig getDomainString getClientIPString
              getForwardString parse_arp_cache ti s Hrun) as [-> ->].
  rewrite Ha, Hr, (aligned_spec tconfig t Hd Ht).
  pose proof (Z.div_mod t (cfg_DBinterval tconfig) ltac:(lia)) as E.
  pose proof (Z.mod_pos_bound t (cfg_DBinterval tconfig) Hd) as B.
  split; [|split; [lia|done]].
  rewrite Z.mul_comm. apply Z.mod_mul. lia.
Qed.

Lemma DB_thread_turn_aligns_witness :
  let s' := ThreadExamples.turn (ThreadExamples.turn_at (Examples.t0 + 10))
              ThreadExamples.thread0 in
  lastDBsave s' mod 60 = 0 /\
  lastDBsave s' <= Examples.t0 + 10 < lastDBsave s' + 60 /\
  DBdeleteoldqueries s' = false.
Proof.
  apply (DB_thread_turn_aligns Fixtures.config0 ThreadExamples.tconfig0
           Fixtures.domain_of Fixtures.client_of Fixtures.forward_of
           (fun w => w) (ThreadExamples.turn_at (Examples.t0 + 10))
           ThreadExamples.thread0 (Examples.t0 + 10)).
  - reflexivity.
  - unfold Examples.t0. lia.
  - reflexivity.
  - reflexivity.
  - simpl. unfold Examples.t0. lia.
Defined.

(** X17: the thread flushes at most once per interval: after a turn
    that flushed at clock reading [t], a turn whose clock reading lies
    in the same interval changes nothing, and a turn at or after the
    next multiple of the interval flushes again. *)
Theorem DB_thread_once_per_interval config tconfig getDomainString
    getClientIPString getForwardString parse_arp_cache ti ti' s t :
  0 < cfg_DBinterval tconfig -> 0 <= t < 2 ^ 31 ->
  in_time_align ti = t -> in_time_rem ti = t ->
  cfg_DBinterval tconfig <= in_time_check ti - lastDBsave s ->
  let turn := DB_thread_turn config tconfig getDomainString getClientIPString
                getForwardString parse_arp_cache in
  let next := cfg_DBinterval tconfig * (t / cfg_DBinterval tconfig + 1) in
  (in_time_check ti' < next -> turn ti' (turn ti s) = turn ti s) /\
  (next <= in_time_check ti' ->
   lastDBsave (turn ti' (turn ti s)) =
   aligned tconfig (in_time_align ti') (in_time_rem ti')).
Proof.
  intros Hd Ht Ha Hr Hrun. cbv zeta.
  destruct (DB_thread_turn_runs config tconfig getDomainString getClientIPString
              getForwardString parse_arp_cache ti s Hrun) as [HL _].
  rewrite Ha, Hr, (aligned_spec tconfig t Hd Ht) in HL.
  split; intros H.
  - apply DB_thread_turn_waits. rewrite HL. lia.
  - apply DB_thread_turn_runs. rewrite HL. lia.
Qed.

Lemma DB_thread_once_per_interval_witness :
  let s1 := ThreadExamples.turn (ThreadExamples.turn_at (Examples.t0 + 10))
              ThreadExamples.thread0 in
  ThreadExamples.turn (ThreadExamples.turn_at (Examples.t0 + 19)) s1 = s1.
Proof.
  cbv zeta.
  refine (proj1 (DB_thread_once_per_interval Fixtures.config0
            ThreadExamples.tconfig0 Fixtures.domain_of Fixtures.client_of
            Fixtures.forward_of (fun w => w)
            (ThreadExamples.turn_at (Examples.t0 + 10))
            (ThreadExamples.turn_at (Examples.t0 + 19))
            ThreadExamples.thread0 (Examples.t0 + 10) _ _ _ _ _) _).
  - reflexivity.
  - unfold Examples.t0. lia.
  - reflexivity.
  - reflexivity.
  - simpl. unfold Examples.t0. lia.
  - vm_compute. reflexivity.
Defined.

Lemma save_to_DB_open_error config gd gc gf o now w :
  cfg_privacylevel config < PRIVACY_NOSTATS -> o_open o <> 0 ->
  database (save_to_DB config gd gc gf o now w) =
  database w && tolerated (o_open o).
Proof.
  intros Hp Ho. unfold save_to_DB, save_prologue, dbopen.
  rewrite Z.geb_leb. destruct (Z.leb_spec PRIVACY_NOSTATS (cfg_privacylevel config));
    [lia|].
  apply Z.eqb_neq in Ho. rewrite Ho. simpl.
  by rewrite database_check_database.
Qed.

Lemma delete_old_queries_in_DB_enables config rc_delete now w :
  database (delete_old_queries_in_DB config 0 rc_delete now w) = true.
Proof.
  unfold delete_old_queries_in_DB, dbopen. simpl.
  destruct (dbquery config rc_delete _ _) as [deleted w1].
  by destruct deleted.
Qed.



(** X19: with no collection pending, a turn whose write-back cannot
    open the file, with a code [check_database] does not let pass,
    ends the thread: persistence is off after the turn, log and file
    are as they were, and no later turn is run. *)
Theorem DB_thread_ends_on_error config tconfig getDomainString
    getClientIPString getForwardString parse_arp_cache ti rest s :
  cfg_DBinterval tconfig <= in_time_check ti - lastDBsave s ->
  DBdeleteoldqueries s = false -> cfg_parse_arp_cache tconfig = false ->
  cfg_privacylevel config < PRIVACY_NOSTATS ->
  o_open (in_save ti) <> 0 -> tolerated (o_open (in_save ti)) = false ->
  in_killed ti = false -> database (th_world s) = true ->
  let s' := DB_thread_turn config tconfig getDomainString getClientIPString
              getForwardString parse_arp_cache ti s in
  DB_thread_loop config tconfig getDomainString getClientIPString
    getForwardString parse_arp_cache (ti :: rest) s = s' /\
  database (th_world s') = false /\
  queries (th_world s') = queries (th_world s) /\
  file (th_world s') = file (th_world s).
Proof.
  intros Hrun Hgc Harp Hp Ho Htol Hk Hdb. cbv zeta.
  assert (E : (in_time_check ti - lastDBsave s >=? cfg_DBinterval tconfig) = true).
  { rewrite Z.geb_leb. apply Z.leb_le. lia. }
  assert (W : th_world (DB_thread_turn config tconfig getDomainString
                          getClientIPString getForwardString parse_arp_cache ti s)
              = save_to_DB config getDomainString getClientIPString
                  getForwardString (in_save ti) (in_time_save ti) (th_world s)).
  { unfold DB_thread_turn. by rewrite E, Hgc, Harp. }
  assert (D : database (th_world (DB_thread_turn config tconfig getDomainString
                          getClientIPString getForwardString parse_arp_cache ti s))
              = false).
  { rewrite W, save_to_DB_open_error by done. by rewrite Htol, andb_false_r. }
  split.
  { simpl. rewrite Hk, Hdb. simpl. destruct rest as [|ti2 rest]; [done|].
    simpl. by rewrite D, andb_false_r. }
  split; [exact D|]. rewrite W.
  assert (B : flush_blocked config (in_save ti) = true).
  { unfold flush_blocked, store_ready. apply Z.eqb_neq in Ho. rewrite Ho.
    simpl. by rewrite orb_true_r. }
  pose proof (save_to_DB_blocked config getDomainString getClientIPString
                getForwardString (in_save ti) (in_time_save ti) (th_world s) B)
    as (Hq & Hf & _).
  done.
Qed.

Lemma DB_thread_ends_on_error_witness :
  let s' := ThreadExamples.turn (ThreadExamples.turn_cantopen (Examples.t0 + 10))
              ThreadExamples.thread0 in
  ThreadExamples.loop [ThreadExamples.turn_cantopen (Examples.t0 + 10);
                       ThreadExamples.turn_at (Examples.t0 + 70)]
    ThreadExamples.thread0 = s' /\
  database (th_world s') = false.
Proof.
  cbv zeta.
  destruct (DB_thread_ends_on_error Fixtures.config0
            ThreadExamples.tconfig0 Fixtures.domain_of Fixtures.client_of
            Fixtures.forward_of (fun w => w)
            (ThreadExamples.turn_cantopen (Examples.t0 + 10))
            [ThreadExamples.turn_at (Examples.t0 + 70)]
            ThreadExamples.thread0) as (H1 & H2 & _).
  - simpl. unfold Examples.t0. lia.
  - reflexivity.
  - reflexivity.
  - reflexivity.
  - simpl. discriminate.
  - reflexivity.
  - reflexivity.
  - reflexivity.
  - split; [exact H1|exact H2].
Defined.

(** ** The counters and the properties after a flush *)

Lemma db_update_counters_result config rc1 rc2 t b w :
  conn w = true ->
  (db_update_counters config rc1 rc2 t b w).1 =
  (rc1 =? SQLITE_OK) && (rc2 =? SQLITE_OK).
Proof.
  intros Hc. unfold db_update_counters.
  pose proof (dbquery_proj config rc1 (SqlUpdateCounter t DB_TOTALQUERIES) w) as H1.
  destruct (dbquery config rc1 _ w) as [r1 w1]. cbv zeta in H1. simpl in H1.
  destruct H1 as (Hr1 & (Hc1 & _) & _).
  unfold on_conn in Hr1. rewrite Hc in Hr1. subst r1.
  destruct (rc1 =? SQLITE_OK); simpl; [|done].
  pose proof (dbquery_proj config rc2 (SqlUpdateCounter b DB_BLOCKEDQUERIES) w1) as H2.
  destruct (dbquery config rc2 _ w1) as [r2 w2]. cbv zeta in H2. simpl in H2.
  destruct H2 as (Hr2 & _).
  unfold on_conn in Hr2. rewrite Hc1, Hc in Hr2. subst r2.
  by destruct (rc2 =? SQLITE_OK).
Qed.

(** X20: [db_update_counters] is not atomic and never creates a
    counter: when its second UPDATE is refused the total has already
    been raised and stays raised while the blocked counter keeps its
    value; when the first is refused nothing changes; a counter that
    is not in the table stays absent, with no error; counters under
    other keys are never touched. *)
Theorem db_update_counters_partial config rc1 rc2 t b w :
  conn w = true ->
  let r := db_update_counters config rc1 rc2 t b w in
  let c := tbl_counters (file w) in
  let c' := tbl_counters (file r.2) in
  r.1 = (rc1 =? SQLITE_OK) && (rc2 =? SQLITE_OK) /\
  c' !! DB_TOTALQUERIES =
    (if rc1 =? SQLITE_OK then (fun v => v + t) <$> c !! DB_TOTALQUERIES
     else c !! DB_TOTALQUERIES) /\
  c' !! DB_BLOCKEDQUERIES =
    (if (rc1 =? SQLITE_OK) && (rc2 =? SQLITE_OK)
     then (fun v => v + b) <$> c !! DB_BLOCKEDQUERIES
     else c !! DB_BLOCKEDQUERIES) /\
  (forall k, k <> DB_TOTALQUERIES -> k <> DB_BLOCKEDQUERIES -> c' !! k = c !! k) /\
  (forall k, c !! k = None -> c' !! k = None).
Proof.
  intros Hc. cbv zeta.
  split; [by apply db_update_counters_result|].
  destruct (db_update_counters_proj config rc1 rc2 t b w Hc)
    as (_ & _ & _ & _ & _ & ->).
  unfold updated_counters.
  assert (Hne : DB_BLOCKEDQUERIES <> DB_TOTALQUERIES) by done.
  destruct (rc1 =? SQLITE_OK); simpl.
  - destruct (rc2 =? SQLITE_OK).
    + rewrite lookup_alter_ne, !lookup_alter_eq, lookup_alter_ne by done.
      split; [done|]. split; [done|]. split.
      * intros k H1 H2. by rewrite !lookup_alter_ne.
      * intros k H. destruct (decide (k = DB_BLOCKEDQUERIES)) as [->|H2].
        { rewrite lookup_alter_eq, lookup_alter_ne by done. by rewrite H. }
        rewrite lookup_alter_ne by done.
        destruct (decide (k = DB_TOTALQUERIES)) as [->|H1].
        { by rewrite lookup_alter_eq, H. }
        by rewrite lookup_alter_ne.
    + rewrite lookup_alter_eq, lookup_alter_ne by done.
      split; [done|]. split; [done|]. split.
      * intros k H1 H2. by rewrite lookup_alter_ne.
      * intros k H. destruct (decide (k = DB_TOTALQUERIES)) as [->|H1].
        { by rewrite lookup_alter_eq, H. }
        by rewrite lookup_alter_ne.
  - by repeat split.
Qed.

Lemma db_update_counters_partial_witness :
  let w := set_conn true Examples.world_one in
  let r := db_update_counters Fixtures.config0 SQLITE_OK SQLITE_BUSY 4 2 w in
  conn w = true /\ r.1 = false /\
  tbl_counters (file r.2) !! DB_TOTALQUERIES = Some 4 /\
  tbl_counters (file r.2) !! DB_BLOCKEDQUERIES = Some 0.
Proof.
  cbv zeta. split; [reflexivity|].
  destruct (db_update_counters_partial Fixtures.config0 SQLITE_OK SQLITE_BUSY 4 2
              (set_conn true Examples.world_one) eq_refl) as (H1 & H2 & H3 & _).
  split; [exact H1|]. split; [rewrite H2|rewrite H3]; reflexivity.
Defined.

Lemma to_int_range v : - 2 ^ 31 <= to_int v < 2 ^ 31.
Proof.
  unfold to_int. pose proof (Z.mod_pos_bound (v + 2 ^ 31) (2 ^ 32) ltac:(lia)). lia.
Qed.

(** X21: the property DB_LASTTIMESTAMP after a flush is the largest
    timestamp of the batch just written, whatever it was before (so
    it can go back in time); it is written only when the batch was
    committed, at least one row was saved and no INSERT failed, and
    no other property changes. *)
Theorem lasttimestamp_is_batch_maximum config getDomainString
    getClientIPString getForwardString o now w :
  flush_blocked config o = false ->
  let r := flush_scan config o now w in
  let succ := successes o r.2 in
  let w' := save_to_DB config getDomainString getClientIPString
              getForwardString o now w in
  property_value DB_LASTTIMESTAMP w' =
    (if commit_ok o && (Z.of_nat (length succ) >? 0) && (failures o r.2 =? 0) &&
        (o_setprop o =? SQLITE_OK)
     then to_int (max_timestamp 0 succ)
     else property_value DB_LASTTIMESTAMP w) /\
  forall ID, ID <> DB_LASTTIMESTAMP -> property_value ID w' = property_value ID w.
Proof.
  intros Hb. cbv zeta.
  pose proof (save_to_DB_summary config getDomainString getClientIPString
                getForwardString o now w Hb) as S. cbv zeta in S.
  destruct S as (_ & _ & _ & _ & _ & _ & Hftl & _).
  unfold property_value. rewrite Hftl.
  destruct (_ && _ && _ && _).
  - split.
    + rewrite lookup_insert_eq. apply to_int_small, to_int_range.
    + intros ID H. by rewrite lookup_insert_ne.
  - done.
Qed.

Lemma lasttimestamp_is_batch_maximum_witness :
  let w := Fixtures.world_of
             (mkFile [] 0 (<[DB_LASTTIMESTAMP := Examples.t0 + 100]> ∅)
                     (tbl_counters Fixtures.file0))
             [Fixtures.query Examples.t0 QUERY_CACHE true 0 0] in
  flush_blocked Fixtures.config0 Fixtures.oracle_ok = false /\
  property_value DB_LASTTIMESTAMP w = Examples.t0 + 100 /\
  property_value DB_LASTTIMESTAMP
    (Fixtures.flush Fixtures.config0 Fixtures.oracle_ok (Examples.t0 + 200) w)
  = Examples.t0.
Proof.
  cbv zeta. split; [reflexivity|]. split; [reflexivity|].
  unfold Fixtures.flush.
  rewrite (proj1 (lasttimestamp_is_batch_maximum Fixtures.config0
                    Fixtures.domain_of Fixtures.client_of Fixtures.forward_of
                    Fixtures.oracle_ok (Examples.t0 + 200) _ eq_refl)).
  reflexivity.
Defined.

(** X22: the thread does not flush when it starts: [DB_thread] sets
    [lastDBsave] to the start of the current interval, and a first
    turn whose clock reading lies in that interval leaves the world
    as it is. *)
Theorem DB_thread_waits_at_start config tconfig getDomainString
    getClientIPString getForwardString parse_arp_cache t ti rest s :
  0 < cfg_DBinterval tconfig -> 0 <= t < 2 ^ 31 ->
  in_time_check ti <
    cfg_DBinterval tconfig * (t / cfg_DBinterval tconfig + 1) ->
  in_killed ti = false -> database (th_world s) = true ->
  let run := DB_thread_loop config tconfig getDomainString getClientIPString
               getForwardString parse_arp_cache in
  let s0 := mkThread (cfg_DBinterval tconfig * (t / cfg_DBinterval tconfig))
              (DBdeleteoldqueries s) (th_world s) in
  DB_thread config tconfig getDomainString getClientIPString getForwardString
    parse_arp_cache t t (ti :: rest) s = run rest s0.
Proof.
  intros Hd Ht Hc Hk Hdb. cbv zeta. unfold DB_thread.
  rewrite (aligned_spec tconfig t Hd Ht). simpl. rewrite Hk, Hdb. simpl.
  rewrite DB_thread_turn_waits; [done|]. simpl. lia.
Qed.

Lemma DB_thread_waits_at_start_witness :
  DB_thread Fixtures.config0 ThreadExamples.tconfig0 Fixtures.domain_of
    Fixtures.client_of Fixtures.forward_of (fun w => w)
    (Examples.t0 + 10) (Examples.t0 + 10)
    [ThreadExamples.turn_at (Examples.t0 + 15)] ThreadExamples.thread0 =
  mkThread (Examples.t0 - 40) false Examples.world_seven.
Proof.
  rewrite (DB_thread_waits_at_start Fixtures.config0 ThreadExamples.tconfig0
             Fixtures.domain_of Fixtures.client_of Fixtures.forward_of
             (fun w => w) (Examples.t0 + 10)
             (ThreadExamples.turn_at (Examples.t0 + 15)) []
             ThreadExamples.thread0).
  - reflexivity.
  - reflexivity.
  - unfold Examples.t0. lia.
  - vm_compute. reflexivity.
  - reflexivity.
  - reflexivity.
Defined.

(** ** The collector and the other routines *)

(** X23: a second collection at the same clock reading removes
    nothing: the rows left by two collections in a row are the rows
    left by the first. *)
Theorem delete_old_queries_in_DB_idempotent config rc_open rc_delete
    rc_open' rc_delete' now w :
  rc_open = 0 -> rc_delete = SQLITE_OK ->
  let w1 := delete_old_queries_in_DB config rc_open rc_delete now w in
  let w2 := delete_old_queries_in_DB config rc_open' rc_delete' now w1 in
  tbl_queries (file w2) = tbl_queries (file w1) /\
  stored_count w2 = stored_count w1.
Proof.
  intros -> ->. cbv zeta.
  assert (E : tbl_queries
                (file (delete_old_queries_in_DB config rc_open' rc_delete' now
                         (delete_old_queries_in_DB config 0 SQLITE_OK now w))) =
              tbl_queries (file (delete_old_queries_in_DB config 0 SQLITE_OK now w))).
  { destruct (delete_old_queries_in_DB_frame config rc_open' rc_delete' now
                (delete_old_queries_in_DB config 0 SQLITE_OK now w))
      as (_ & _ & _ & _ & ->).
    destruct (_ && _); [|done].
    destruct (delete_old_queries_in_DB_frame config 0 SQLITE_OK now w)
      as (_ & _ & _ & _ & ->). simpl.
    apply list_filter_filter_l. done. }
  split; [exact E|]. by rewrite !stored_count_rows, E.
Qed.

Lemma delete_old_queries_in_DB_idempotent_witness :
  let w1 := delete_old_queries_in_DB Fixtures.config0 0 SQLITE_OK
              (Examples.t0 + 86400 * 365) CollectExamples.world_old_row in
  let w2 := delete_old_queries_in_DB Fixtures.config0 0 SQLITE_OK
              (Examples.t0 + 86400 * 365) w1 in
  tbl_queries (file w2) = tbl_queries (file w1) /\
  stored_count w2 = stored_count w1.
Proof.
  apply (delete_old_queries_in_DB_idempotent Fixtures.config0 0 SQLITE_OK);
    reflexivity.
Defined.

(** X24: the collector never touches the log, so the record of a row
    it has deleted keeps its marker, and no later flush writes that
    record again: deleted rows do not come back. *)
Theorem collected_rows_stay_deleted config rc_open rc_delete now
    getDomainString getClientIPString getForwardString config' o' now' w j :
  marked w j ->
  let w1 := delete_old_queries_in_DB config rc_open rc_delete now w in
  marked w1 j /\
  (j ∉ (flush_rows getDomainString getClientIPString getForwardString
          config' o' now' w1).*1) /\
  marked (save_to_DB config' getDomainString getClientIPString
            getForwardString o' now' w1) j.
Proof.
  intros (q & Hq & Hdb). cbv zeta.
  destruct (delete_old_queries_in_DB_frame config rc_open rc_delete now w)
    as ((Hqs & _) & _).
  assert (Hq1 : queries (delete_old_queries_in_DB config rc_open rc_delete now w)
                !! j = Some q) by (by rewrite Hqs).
  destruct (save_to_DB_skips_marked getDomainString getClientIPString
              getForwardString config' o' now' _ j q Hq1 Hdb) as [H1 H2].
  split; [by exists q|]. split; [exact H2|by exists q].
Qed.

Lemma collected_rows_stay_deleted_witness :
  let w := Fixtures.flush Fixtures.config0 Fixtures.oracle_ok (Examples.t0 + 10)
             Examples.world_seven in
  let w1 := delete_old_queries_in_DB Fixtures.config0 0 SQLITE_OK
              (Examples.t0 + 86400 * 366) w in
  marked w 0 /\ tbl_queries (file w1) = [] /\
  O ∉ (flush_rows Fixtures.domain_of Fixtures.client_of Fixtures.forward_of
             Fixtures.config0 Fixtures.oracle_ok (Examples.t0 + 86400 * 366) w1).*1.
Proof.
  cbv zeta.
  assert (H : marked (Fixtures.flush Fixtures.config0 Fixtures.oracle_ok
                        (Examples.t0 + 10) Examples.world_seven) 0).
  { eexists. split; [vm_compute; reflexivity|]. simpl. discriminate. }
  split; [exact H|]. split; [vm_compute; reflexivity|].
  exact (proj1 (proj2 (collected_rows_stay_deleted Fixtures.config0 0 SQLITE_OK
           (Examples.t0 + 86400 * 366) Fixtures.domain_of Fixtures.client_of
           Fixtures.forward_of Fixtures.config0 Fixtures.oracle_ok
           (Examples.t0 + 86400 * 366) _ 0%nat H))).
Defined.

(** ** Two flushes in a row *)

Lemma plan_from_not_deferred now qs : forall i j q,
  (j, q) ∈ plan_from now i qs -> deferred now q = false.
Proof.
  induction qs as [|q0 qs IH]; intros i j q.
  - intros H. by apply elem_of_nil in H.
  - rewrite plan_from_cons. destruct (deferred now q0) eqn:Hd.
    { intros H. by apply elem_of_nil in H. }
    destruct (eligible q0); [|apply IH].
    intros H. apply elem_of_cons in H as [H|H]; [|by apply (IH _ _ _ H)].
    by injection H as -> ->.
Qed.

Lemma take_until_stop {A} (p : A -> bool) (l : list A) a :
  l !! length (take_until p l) = Some a -> p a = true.
Proof.
  induction l as [|x l IH]; simpl; [done|].
  destruct (p x) eqn:Hp; simpl; [|exact IH].
  by intros [= ->].
Qed.

Lemma index_list_lookup i qs k a :
  index_list i qs !! k = Some a -> a.1 = (i + k)%nat /\ qs !! k = Some a.2.
Proof.
  revert i k. induction qs as [|q qs IH]; intros i k; [done|].
  rewrite index_list_cons. destruct k as [|k]; simpl.
  - intros [= <-]. simpl. split; [lia|done].
  - intros H. destruct (IH _ _ H) as [-> ->]. split; [lia|done].
Qed.

Lemma index_list_lookup_2 i qs k q :
  qs !! k = Some q -> index_list i qs !! k = Some ((i + k)%nat, q).
Proof.
  revert i k. induction qs as [|q0 qs IH]; intros i k; [done|].
  rewrite index_list_cons. destruct k as [|k]; simpl.
  - intros [= ->]. by rewrite Nat.add_0_r.
  - intros H. rewrite (IH (S i) k H). do 2 f_equal. lia.
Qed.

(** Once the records of the planned batch carry a marker and the
    others are as they were, the plan for the same segment is empty. *)
Lemma plan_from_after now qs : forall i qs',
  length qs' = length qs ->
  (forall k q, qs !! k = Some q ->
     exists q', qs' !! k = Some q' /\
       (((i + k)%nat, q) ∈ plan_from now i qs -> db q' <> 0) /\
       (((i + k)%nat, q) ∉ plan_from now i qs -> q' = q)) ->
  plan_from now i qs' = [].
Proof.
  induction qs as [|q0 qs IH]; intros i qs' Hlen H.
  { destruct qs'; [done|discriminate]. }
  destruct qs' as [|q0' qs']; [discriminate|].
  destruct (H 0%nat q0 eq_refl) as (x & Hx & Hin & Hout).
  injection Hx as <-. rewrite Nat.add_0_r in Hin, Hout.
  rewrite plan_from_cons in H, Hin, Hout. rewrite plan_from_cons.
  destruct (deferred now q0) eqn:Hd.
  { rewrite (Hout ltac:(apply not_elem_of_nil)), Hd. done. }
  assert (Htail : forall l : list (nat * queriesData),
    (forall k q, qs !! k = Some q ->
       ((i + S k)%nat, q) ∈ l -> ((S i + k)%nat, q) ∈ plan_from now (S i) qs) ->
    (forall k q, qs !! k = Some q ->
       ((S i + k)%nat, q) ∈ plan_from now (S i) qs -> ((i + S k)%nat, q) ∈ l) ->
    (forall k q, (q0 :: qs) !! k = Some q ->
       exists q', (q0' :: qs') !! k = Some q' /\
         (((i + k)%nat, q) ∈ l -> db q' <> 0) /\ (((i + k)%nat, q) ∉ l -> q' = q)) ->
    plan_from now (S i) qs' = []).
  { intros l H1 H2 Hl. apply IH; [simpl in Hlen; lia|].
    intros k q Hk. destruct (Hl (S k) q Hk) as (q' & Hq' & Hi & Ho).
    exists q'. split; [exact Hq'|]. split.
    - intros Hm. apply Hi. by apply H2.
    - intros Hm. apply Ho. intros Hm'. apply Hm. by apply H1. }
  assert (Hshift : forall k, (i + S k)%nat = (S i + k)%nat) by (intros; lia).
  destruct (eligible q0) eqn:He.
  - assert (Hdb : db q0' <> 0) by (apply Hin, list_elem_of_here).
    assert (E1 : deferred now q0' = false).
    { unfold deferred. apply Z.eqb_neq in Hdb. by rewrite Hdb. }
    assert (E2 : eligible q0' = false).
    { unfold eligible. apply Z.eqb_neq in Hdb. by rewrite Hdb. }
    rewrite E1, E2.
    apply (Htail ((i, q0) :: plan_from now (S i) qs)); [| |exact H].
    + intros k q Hk Hm. apply elem_of_cons in Hm as [Hm|Hm].
      * injection Hm as Hm _. lia.
      * by rewrite <- Hshift.
    + intros k q Hk Hm. apply list_elem_of_further. by rewrite Hshift.
  - assert (Hq : q0' = q0).
    { apply Hout. intros Hm. apply plan_from_elem in Hm as (Hm & _). lia. }
    rewrite Hq, Hd, He.
    apply (Htail (plan_from now (S i) qs)); [| |exact H].
    + intros k q Hk Hm. by rewrite <- Hshift.
    + intros k q Hk Hm. by rewrite Hshift.
Qed.

Section Twice.

Variable config : ConfigStruct.
Variable getDomainString : nat -> string.
Variable getClientIPString : nat -> string.
Variable getForwardString : Z -> string.
Variable o : save_oracle.
Variable now : Z.

Local Abbreviation flush :=
  (save_to_DB config getDomainString getClientIPString getForwardString o now).

(** After a flush in which every INSERT succeeded, nothing is planned
    from the cursor on. *)
Lemma plan_after_flush w :
  flush_blocked config o = false -> (forall i, o_step o i = SQLITE_DONE) ->
  ids_positive w ->
  plan_from now (loop_start (flush w)) (drop (loop_start (flush w)) (queries (flush w)))
  = [].
Proof.
  intros Hb Hall Hpos.
  pose proof (save_to_DB_summary config getDomainString getClientIPString
                getForwardString o now w Hb) as S. cbv zeta in S.
  destruct S as (_ & _ & _ & (Hlen & Hout & Hin) & Hcur & _).
  pose proof (flush_scan_run config o now w Hb) as Hrun.
  set (start := loop_start w) in *. set (qs := queries w) in *.
  set (P := plan_from now start (drop start qs)).
  assert (Hok : forall l : list (nat * queriesData),
             Forall (fun a => step_ok o a = true) l).
  { intros l. apply Forall_forall. intros a _. unfold step_ok.
    rewrite Hall. reflexivity. }
  assert (Hatt : (flush_scan config o now w).2 = P).
  { rewrite Hrun, scan_plan by lia.
    change (Z.to_nat (3 - 0)) with 3%nat. apply upto_failures_all_ok, Hok. }
  rewrite Hatt, (successes_all_ok o P (Hok P)) in Hout, Hin, Hcur.
  assert (Hfail : failures o P = 0).
  { unfold failures. rewrite (successes_all_ok o P (Hok P)). lia. }
  rewrite Hfail in Hcur. simpl in Hcur.
  assert (Hmem : forall j q, (j, q) ∈ P -> j ∈ P.*1).
  { intros j q H. apply list_elem_of_fmap. by exists (j, q). }
  assert (Hmem' : forall k q, drop start qs !! k = Some q ->
                    (start + k)%nat ∈ P.*1 -> ((start + k)%nat, q) ∈ P).
  { intros k q Hk H. apply list_elem_of_fmap in H as ([j q2] & Hj & H).
    simpl in Hj. subst j.
    pose proof (plan_from_elem now _ _ _ _ H) as (_ & Hl & _).
    replace (start + k - start)%nat with k in Hl by lia.
    rewrite Hk in Hl. by injection Hl as ->. }
  destruct (commit_ok o && (Z.of_nat (length P) >? 0) && true) eqn:Hc.
  - (* the cursor moved to the stop of the scan *)
    pose proof (scan_stop o now (drop start qs) start 0 ltac:(lia)) as St.
    cbv zeta in St. destruct St as (_ & St & _).
    rewrite <- Hrun, Hatt, Hfail in St. specialize (St ltac:(lia)).
    set (stop := (flush_scan config o now w).1) in *.
    assert (Hs : loop_start (flush w) = stop).
    { unfold loop_start. rewrite Hcur. lia. }
    rewrite Hs.
    destruct (queries (flush w) !! stop) as [q'|] eqn:E.
    2:{ apply lookup_ge_None in E. by rewrite drop_ge. }
    rewrite (drop_S _ _ _ E), plan_from_cons.
    assert (Hk : forall q, drop start qs !! (stop - start)%nat = Some q ->
                   deferred now q = true).
    { intros q H.
      pose proof (index_list_lookup_2 start _ _ _ H) as Hi.
      replace (start + (stop - start))%nat with stop in Hi by lia.
      replace (stop - start)%nat
        with (length (take_until (fun a => deferred now a.2)
                        (index_list start (drop start qs)))) in Hi by lia.
      by apply take_until_stop in Hi. }
    assert (Hno : stop ∉ P.*1).
    { intros H. apply list_elem_of_fmap in H as ([j q2] & Hj & H).
      simpl in Hj. subst j.
      pose proof (plan_from_not_deferred now _ _ _ _ H) as Hd.
      pose proof (plan_from_elem now _ _ _ _ H) as (_ & Hl & _).
      rewrite (Hk _ Hl) in Hd. discriminate. }
    rewrite (Hout stop Hno) in E.
    assert (E' : drop start qs !! (stop - start)%nat = Some q').
    { rewrite lookup_drop. by replace (start + (stop - start))%nat with stop by lia. }
    by rewrite (Hk _ E').
  - (* the cursor stayed *)
    assert (Hs : loop_start (flush w) = start).
    { unfold loop_start at 1. rewrite Hcur. reflexivity. }
    rewrite Hs. apply (plan_from_after now (drop start qs)).
    { rewrite !length_drop. by rewrite Hlen. }
    intros k q Hk. rewrite lookup_drop.
    destruct (decide ((start + k)%nat ∈ P.*1)) as [Hj|Hj].
    + destruct (Hin _ Hj) as (q0 & kk & Hq & Hkk).
      exists (set_db q0 kk). split; [exact Hq|]. split.
      * intros _. simpl. pose proof (max_id_nonneg _ Hpos). simpl in Hkk. lia.
      * intros H. exfalso. apply H. by apply Hmem'.
    + exists q. split.
      * rewrite (Hout _ Hj). by rewrite lookup_drop in Hk.
      * split; [|done]. intros H. exfalso. apply Hj. by apply (Hmem _ q).
Qed.

End Twice.

(** X25: a flush in which every INSERT succeeded leaves nothing for a
    second flush at the same clock reading: whatever SQLite and
    libcurl answer the second time, it tries no record, sends no
    request, inserts no row and leaves the log and the rows of the
    file as they are. *)
Theorem flush_twice config getDomainString getClientIPString getForwardString
    o now config' o' w :
  flush_blocked config o = false -> (forall i, o_step o i = SQLITE_DONE) ->
  ids_positive w ->
  let w1 := save_to_DB config getDomainString getClientIPString
              getForwardString o now w in
  let w2 := save_to_DB config' getDomainString getClientIPString
              getForwardString o' now w1 in
  (flush_scan config' o' now w1).2 = [] /\
  posts (trace w2) = posts (trace w1) /\
  inserted (trace w2) = inserted (trace w1) /\
  queries w2 = queries w1 /\
  tbl_queries (file w2) = tbl_queries (file w1).
Proof.
  intros Hb Hall Hpos. cbv zeta.
  pose proof (plan_after_flush config getDomainString getClientIPString
                getForwardString o now w Hb Hall Hpos) as K.
  set (w1 := save_to_DB config getDomainString getClientIPString
               getForwardString o now w) in *.
  assert (Hatt : (flush_scan config' o' now w1).2 = []).
  { unfold flush_scan. destruct (_ || _); [done|].
    rewrite scan_plan by lia. rewrite K. apply upto_failures_nil. }
  split; [exact Hatt|].
  destruct (flush_blocked config' o') eqn:Hb'.
  - pose proof (save_to_DB_blocked config' getDomainString getClientIPString
                  getForwardString o' now w1 Hb') as Q.
    pose proof (quiet_posts _ _ Q). pose proof (quiet_inserted _ _ Q).
    destruct Q as (Hq & Hf & _). by rewrite Hf.
  - pose proof (save_to_DB_summary config' getDomainString getClientIPString
                  getForwardString o' now w1 Hb') as S. cbv zeta in S.
    unfold flush_rows in S. rewrite Hatt in S. simpl in S.
    destruct S as (Hp & Hi & _ & (Hlen & Hout & _) & _ & Hrows & _).
    rewrite app_nil_r in Hp, Hi.
    split; [exact Hp|]. split; [exact Hi|]. split.
    + apply list_eq. intros j. apply Hout. apply not_elem_of_nil.
    + rewrite Hrows. destruct (o_end o' =? SQLITE_OK); [apply app_nil_r|done].
Qed.

Lemma flush_twice_witness :
  let w1 := Fixtures.flush Fixtures.config0 Fixtures.oracle_ok (Examples.t0 + 10)
              Examples.world_seven in
  let w2 := Fixtures.flush Fixtures.config0 (Fixtures.oracle_failing [5%nat])
              (Examples.t0 + 10) w1 in
  ids_positive Examples.world_seven /\
  posts (trace w2) = posts (trace w1) /\ queries w2 = queries w1.
Proof.
  cbv zeta.
  assert (H : ids_positive Examples.world_seven) by constructor.
  split; [exact H|].
  destruct (flush_twice Fixtures.config0 Fixtures.domain_of Fixtures.client_of
              Fixtures.forward_of Fixtures.oracle_ok (Examples.t0 + 10)
              Fixtures.config0 (Fixtures.oracle_failing [5%nat])
              Examples.world_seven eq_refl (fun _ => eq_refl) H)
    as (_ & Hp & _ & Hq & _).
  split; [exact Hp|exact Hq].
Defined.

(** ** Invariants of the thread *)





(** ** Setting a counter, then updating it *)

(** X28: [db_set_counter] makes the counter exist with the value
    given, replacing any earlier one, so that an update that follows
    on the same connection applies to it: after setting the total to
    [v] and updating by [t] and [b], the total reads [v + t], while the
    blocked counter is raised by [b] only if it was there before. *)
Theorem counter_set_then_update config v t b w :
  conn w = true ->
  let r1 := db_set_counter config SQLITE_OK DB_TOTALQUERIES v w in
  let r2 := db_update_counters config SQLITE_OK SQLITE_OK t b r1.2 in
  r1.1 = true /\ r2.1 = true /\
  tbl_counters (file r2.2) !! DB_TOTALQUERIES = Some (v + t) /\
  tbl_counters (file r2.2) !! DB_BLOCKEDQUERIES =
    (fun x => x + b) <$> tbl_counters (file w) !! DB_BLOCKEDQUERIES.
Proof.
  intros Hc. cbv zeta. unfold db_set_counter.
  pose proof (dbquery_proj config SQLITE_OK (SqlSetCounter DB_TOTALQUERIES v) w) as P.
  cbv zeta in P. destruct P as (Hr & (Hc1 & _) & Hf & _).
  unfold on_conn in Hr. rewrite Hc in Hr. simpl in Hr. rewrite Hr in Hf.
  destruct (dbquery config SQLITE_OK _ w) as [ret w1]. simpl in *.
  rewrite Hc in Hc1.
  split; [exact Hr|].
  split; [by rewrite db_update_counters_result|].
  destruct (db_update_counters_proj config SQLITE_OK SQLITE_OK t b w1 Hc1)
    as (_ & _ & _ & _ & _ & ->).
  rewrite !updated_counters_lookup, Hf. simpl.
  rewrite lookup_insert_eq, lookup_insert_ne by done.
  unfold delta_at. simpl. done.
Qed.

Lemma counter_set_then_update_witness :
  let w := set_conn true Examples.world_one in
  let r1 := db_set_counter Fixtures.config0 SQLITE_OK DB_TOTALQUERIES 10 w in
  let r2 := db_update_counters Fixtures.config0 SQLITE_OK SQLITE_OK 4 2 r1.2 in
  conn w = true /\
  tbl_counters (file r2.2) !! DB_TOTALQUERIES = Some 14 /\
  tbl_counters (file r2.2) !! DB_BLOCKEDQUERIES = Some 2.
Proof.
  cbv zeta. split; [reflexivity|].
  destruct (counter_set_then_update Fixtures.config0 10 4 2
              (set_conn true Examples.world_one) eq_refl) as (_ & _ & H1 & H2).
  split; [exact H1|]. rewrite H2. reflexivity.
Defined.
